(** * accounts: registration, e-mail verification, sign-in and favourites

    A shallow embedding of the [accounts] application (models.py,
    backends.py, views.py).  The relational store is an explicit value
    [DB]; every handler is a function in a small state-and-exception
    monad over it.  The store commits each statement as it runs (no
    handler opens a transaction), so an exception keeps the writes made
    before it. *)

From Stdlib Require Import ZArith String Ascii List Lia Bool.
From stdpp Require Import base decidable list gmap sets strings sorting.
Import ListNotations.
Local Open Scope string_scope.

(** ** Wall-clock time

    A [datetime] is a count of microseconds (the resolution of Python's
    [datetime]); [timedelta_hours h] is [timedelta(hours=h)]. *)

Definition datetime := Z.

Definition timedelta_hours (h : Z) : Z := (h * 3600 * 1000000)%Z.
Definition timedelta_seconds (s : Z) : Z := (s * 1000000)%Z.

(** ** Exceptions and the handler monad *)

Inductive model :=
| UserModel
| UserProfileModel
| EmailVerificationTokenModel
| ProductModel
| PromptModel
| PromptTemplateModel.

Inductive exn :=
| DoesNotExist (m : model)
| MultipleObjectsReturned (m : model)
| RelatedObjectDoesNotExist
| IntegrityError
| DatabaseError
| ValueError
| Http404
| CollaboratorError (msg : string).

Inductive result (A : Type) :=
| Ok (a : A)
| Raise (e : exn).
Arguments Ok {A} a.
Arguments Raise {A} e.

(** ** Rows *)

Definition uuid := N.

(** [django.contrib.auth.models.User]; [user_pk = None] is an instance
    that has not been saved yet. *)
Record User := {
  user_pk : option nat;
  username : string;
  email : string;
  password : string;
  is_active : bool
}.

Record UserProfile := {
  profile_id : nat;
  profile_user : nat;
  verified : bool;
  bio : string;
  business_name : option string;
  business_type : option string;
  business_location : option string;
  target_audience : option string
}.

Record EmailVerificationToken := {
  token_id : nat;
  token_user : nat;
  token : uuid;
  created_at : datetime;
  reminder_sent : bool;
  reminder_sent_at : option datetime
}.

Record MemberResource := {
  res_id : nat;
  res_title : string;
  res_description : string;
  res_file : string;
  res_thumbnail : string;
  res_created_at : datetime;
  res_is_active : bool;
  res_order : N
}.

(** The catalog models live in other applications; only the identifier
    and the slug are read here. *)
Record Product := { product_id : nat; product_slug : string }.
Record Prompt := { prompt_id : nat }.
Record PromptTemplate := { template_id : nat; template_slug : string }.

(** ** The store

    One list of rows per table, in insertion order.  The three
    many-to-many relations are sets of (profile id, item id) pairs. *)
Record DB := {
  users : list User;
  profiles : list UserProfile;
  tokens : list EmailVerificationToken;
  resources : list MemberResource;
  products : list Product;
  prompts : list Prompt;
  templates : list PromptTemplate;
  favourite_products : gset (nat * nat);
  saved_prompts : gset (nat * nat);
  saved_templates : gset (nat * nat)
}.

Definition with_users (db : DB) (us : list User) : DB :=
  {| users := us; profiles := profiles db; tokens := tokens db;
     resources := resources db; products := products db;
     prompts := prompts db; templates := templates db;
     favourite_products := favourite_products db;
     saved_prompts := saved_prompts db;
     saved_templates := saved_templates db |}.

Definition with_profiles (db : DB) (ps : list UserProfile) : DB :=
  {| users := users db; profiles := ps; tokens := tokens db;
     resources := resources db; products := products db;
     prompts := prompts db; templates := templates db;
     favourite_products := favourite_products db;
     saved_prompts := saved_prompts db;
     saved_templates := saved_templates db |}.

Definition with_tokens (db : DB) (ts : list EmailVerificationToken) : DB :=
  {| users := users db; profiles := profiles db; tokens := ts;
     resources := resources db; products := products db;
     prompts := prompts db; templates := templates db;
     favourite_products := favourite_products db;
     saved_prompts := saved_prompts db;
     saved_templates := saved_templates db |}.

Definition with_favourite_products (db : DB) (s : gset (nat * nat)) : DB :=
  {| users := users db; profiles := profiles db; tokens := tokens db;
     resources := resources db; products := products db;
     prompts := prompts db; templates := templates db;
     favourite_products := s;
     saved_prompts := saved_prompts db;
     saved_templates := saved_templates db |}.

Definition with_saved_prompts (db : DB) (s : gset (nat * nat)) : DB :=
  {| users := users db; profiles := profiles db; tokens := tokens db;
     resources := resources db; products := products db;
     prompts := prompts db; templates := templates db;
     favourite_products := favourite_products db;
     saved_prompts := s;
     saved_templates := saved_templates db |}.

Definition with_saved_templates (db : DB) (s : gset (nat * nat)) : DB :=
  {| users := users db; profiles := profiles db; tokens := tokens db;
     resources := resources db; products := products db;
     prompts := prompts db; templates := templates db;
     favourite_products := favourite_products db;
     saved_prompts := saved_prompts db;
     saved_templates := s |}.

(** ** The monad: a handler reads and writes the store and may raise *)

Definition M (A : Type) : Type := DB -> DB * result A.

Definition ret {A} (a : A) : M A := fun db => (db, Ok a).

Definition raise {A} (e : exn) : M A := fun db => (db, Raise e).

Definition bind {A B} (m : M A) (k : A -> M B) : M B :=
  fun db =>
    match m db with
    | (db', Ok a) => k a db'
    | (db', Raise e) => (db', Raise e)
    end.

(** [try: m except <those e with handles e>: h]. *)
Definition try_except {A} (m : M A) (handles : exn -> bool) (h : M A) : M A :=
  fun db =>
    match m db with
    | (db', Ok a) => (db', Ok a)
    | (db', Raise e) => if handles e then h db' else (db', Raise e)
    end.

Definition lift {A} (r : result A) : M A := fun db => (db, r).

#[global] Instance M_ret : MRet M := @ret.
#[global] Instance M_bind : MBind M := fun A B k m => bind m k.

(** ** Query helpers *)

(** [Model.objects.get(...)]: exactly one match, or an exception. *)
Definition objects_get {A} (m : model) (p : A -> bool) (rows : list A) : result A :=
  match List.filter p rows with
  | [] => Raise (DoesNotExist m)
  | [a] => Ok a
  | _ :: _ :: _ => Raise (MultipleObjectsReturned m)
  end.

(** The identifier an auto-increment key gives to the next row. *)
Definition fresh_id (ids : list nat) : nat := S (list_max ids).

Definition is_DoesNotExist (m : model) (e : exn) : bool :=
  match e, m with
  | DoesNotExist UserModel, UserModel => true
  | DoesNotExist UserProfileModel, UserProfileModel => true
  | DoesNotExist EmailVerificationTokenModel, EmailVerificationTokenModel => true
  | DoesNotExist ProductModel, ProductModel => true
  | DoesNotExist PromptModel, PromptModel => true
  | DoesNotExist PromptTemplateModel, PromptTemplateModel => true
  | _, _ => false
  end.

Definition is_RelatedObjectDoesNotExist (e : exn) : bool :=
  match e with RelatedObjectDoesNotExist => true | _ => false end.

(** [except Exception] *)
Definition is_Exception (e : exn) : bool := true.

Definition pk_is (id : nat) (u : User) : bool :=
  match user_pk u with Some i => Nat.eqb i id | None => false end.

(** ** models.py *)

(** *** UserProfile *)

(** The row [UserProfile(user=user)] gets on insertion: every field at
    its declared default. *)
Definition new_profile (existing : list UserProfile) (uid : nat) : UserProfile :=
  {| profile_id := fresh_id (map profile_id existing);
     profile_user := uid;
     verified := false;
     bio := "";
     business_name := None;
     business_type := None;
     business_location := None;
     target_audience := None |}.

(** [UserProfile.objects.create(user=user)].  An unsaved [user] is
    refused before any SQL runs; the INSERT fails on the foreign key when
    the identity has no row, and on the one-to-one constraint when it
    already owns a profile. *)
Definition UserProfile_objects_create (user : User) : M UserProfile :=
  fun db =>
    match user_pk user with
    | None => (db, Raise ValueError)
    | Some uid =>
        if negb (existsb (pk_is uid) (users db)) then (db, Raise IntegrityError)
        else if existsb (fun p => Nat.eqb (profile_user p) uid) (profiles db)
        then (db, Raise IntegrityError)
        else
          let p := new_profile (profiles db) uid in
          (with_profiles db (profiles db ++ [p]), Ok p)
    end.

(** [profile.save()]: UPDATE the row with this primary key, INSERT when
    no row has it. *)
Definition UserProfile_save (p : UserProfile) : M unit :=
  fun db =>
    if existsb (fun q => Nat.eqb (profile_id q) (profile_id p)) (profiles db) then
      if existsb (fun q => Nat.eqb (profile_user q) (profile_user p)
                           && negb (Nat.eqb (profile_id q) (profile_id p)))
                 (profiles db)
      then (db, Raise IntegrityError)
      else
        (with_profiles db
           (map (fun q => if Nat.eqb (profile_id q) (profile_id p) then p else q)
                (profiles db)),
         Ok tt)
    else if existsb (fun q => Nat.eqb (profile_user q) (profile_user p)) (profiles db)
    then (db, Raise IntegrityError)
    else (with_profiles db (profiles db ++ [p]), Ok tt).

(** [instance.profile]: the reverse side of the one-to-one field. *)
Definition User_profile (instance : User) : M UserProfile :=
  fun db =>
    match user_pk instance with
    | None => (db, Raise RelatedObjectDoesNotExist)
    | Some uid =>
        match objects_get UserProfileModel
                (fun p => Nat.eqb (profile_user p) uid) (profiles db) with
        | Ok p => (db, Ok p)
        | Raise (DoesNotExist _) => (db, Raise RelatedObjectDoesNotExist)
        | Raise e => (db, Raise e)
        end
    end.

(** *** Profile creation signals *)

Definition create_user_profile (instance : User) (created : bool) : M unit :=
  if created then
    _ ← UserProfile_objects_create instance; ret tt
  else ret tt.

Definition save_user_profile (instance : User) : M unit :=
  try_except
    (p ← User_profile instance; UserProfile_save p)
    is_RelatedObjectDoesNotExist
    (_ ← UserProfile_objects_create instance; ret tt).

(** *** User.save

    The row is written first (INSERT for an instance without a key or
    whose key has no row, UPDATE otherwise; [username] is unique), then
    [post_save] calls the two receivers in the order they were
    connected. *)

Definition set_pk (u : User) (id : nat) : User :=
  {| user_pk := Some id; username := username u; email := email u;
     password := password u; is_active := is_active u |}.

Definition set_is_active (u : User) (b : bool) : User :=
  {| user_pk := user_pk u; username := username u; email := email u;
     password := password u; is_active := b |}.

Definition set_password (u : User) (encoded : string) : User :=
  {| user_pk := user_pk u; username := username u; email := email u;
     password := encoded; is_active := is_active u |}.

Definition user_ids (us : list User) : list nat :=
  omap user_pk us.

Definition username_taken (u : User) (us : list User) : bool :=
  existsb (fun v => String.eqb (username v) (username u)
                    && negb (match user_pk u, user_pk v with
                             | Some i, Some j => Nat.eqb i j
                             | _, _ => false
                             end)) us.

(** Writes the row; returns the instance as stored and [created]. *)
Definition User_save_base (u : User) : M (User * bool) :=
  fun db =>
    if username_taken u (users db) then (db, Raise IntegrityError)
    else
      match user_pk u with
      | None =>
          let u' := set_pk u (fresh_id (user_ids (users db))) in
          (with_users db (users db ++ [u']), Ok (u', true))
      | Some id =>
          if existsb (pk_is id) (users db) then
            (with_users db
               (map (fun v => if pk_is id v then u else v) (users db)),
             Ok (u, false))
          else (with_users db (users db ++ [u]), Ok (u, true))
      end.

Definition User_save (u : User) : M User :=
  r ← User_save_base u;
  create_user_profile (fst r) (snd r);;
  save_user_profile (fst r);;
  ret (fst r).

(** [user.save(update_fields=[...])]: an UPDATE of the named columns of
    the row with this key, [assign] being what it does to the columns
    modelled here.  Without a key it is refused, without a row it is a
    [DatabaseError]; [post_save] then runs with [created = False]. *)
Definition User_save_update_fields (u : User) (assign : User -> User) : M unit :=
  fun db =>
    match user_pk u with
    | None => (db, Raise ValueError)
    | Some id =>
        if existsb (pk_is id) (users db) then
          (create_user_profile u false;;
           save_user_profile u)
            (with_users db
               (map (fun v => if pk_is id v then assign v else v) (users db)))
        else (db, Raise DatabaseError)
    end.

(** *** EmailVerificationToken *)

(** Token expires after 24 hours. *)
Definition is_valid (self : EmailVerificationToken) (now : datetime) : bool :=
  (created_at self >=? now - timedelta_hours 24)%Z.

(** [EmailVerificationToken.objects.filter(user=user).delete()] *)
Definition EmailVerificationToken_filter_user_delete (user : User) : M unit :=
  fun db =>
    match user_pk user with
    | None => (db, Ok tt)
    | Some uid =>
        (with_tokens db
           (List.filter (fun t => negb (Nat.eqb (token_user t) uid)) (tokens db)),
         Ok tt)
    end.

Definition new_token (existing : list EmailVerificationToken) (uid : nat)
    (fresh : uuid) (now : datetime) : EmailVerificationToken :=
  {| token_id := fresh_id (map token_id existing);
     token_user := uid;
     token := fresh;
     created_at := now;
     reminder_sent := false;
     reminder_sent_at := None |}.

(** [EmailVerificationToken.objects.create(user=user)]; [fresh] is the
    value [uuid.uuid4] draws and [now] the clock read by
    [auto_now_add].  The same three refusals as for a profile; the
    [token] column itself carries no unique constraint. *)
Definition EmailVerificationToken_objects_create
    (fresh : uuid) (now : datetime) (user : User) : M EmailVerificationToken :=
  fun db =>
    match user_pk user with
    | None => (db, Raise ValueError)
    | Some uid =>
        if negb (existsb (pk_is uid) (users db)) then (db, Raise IntegrityError)
        else if existsb (fun t => Nat.eqb (token_user t) uid) (tokens db)
        then (db, Raise IntegrityError)
        else
          let t := new_token (tokens db) uid fresh now in
          (with_tokens db (tokens db ++ [t]), Ok t)
    end.

(** [EmailVerificationToken.objects.get(token=value)] *)
Definition EmailVerificationToken_objects_get (value : uuid) : M EmailVerificationToken :=
  fun db =>
    (db, objects_get EmailVerificationTokenModel
           (fun t => N.eqb (token t) value) (tokens db)).

(** [verification_token.user] *)
Definition EmailVerificationToken_user (t : EmailVerificationToken) : M User :=
  fun db => (db, objects_get UserModel (pk_is (token_user t)) (users db)).

(** [verification_token.delete()] *)
Definition EmailVerificationToken_delete (t : EmailVerificationToken) : M unit :=
  fun db =>
    (with_tokens db
       (List.filter (fun s => negb (Nat.eqb (token_id s) (token_id t))) (tokens db)),
     Ok tt).

(** ** Requests, responses and collaborators *)

Inductive json :=
| JStr (s : string)
| JBool (b : bool).

Inductive ctx_value :=
| CtxForm (bound : bool) (data : list (string * string))
| CtxResources (rs : list MemberResource).

Inductive HttpResponse :=
| Render (template : string) (context : list (string * ctx_value))
| Redirect (to : string)
| RedirectToLogin
| JsonResponse (body : list (string * json)).

Inductive level := INFO | SUCCESS | ERROR.

Definition message : Type := level * string.

(** [req_user = None] is the anonymous user; [x_requested_with] and
    [HTTP_REFERER] are the two headers the handlers read. *)
Record HttpRequest := {
  method : string;
  POST : list (string * string);
  req_user : option User;
  x_requested_with : option string;
  HTTP_REFERER : option string
}.

Record EmailContext := {
  ctx_user : User;
  ctx_verification_url : string;
  ctx_site_url : string;
  ctx_email : string
}.

(** What the handlers call outside this application: the registration
    form (forms.py), the settings, URL reversing, template rendering,
    password hashing and mail delivery.  Each may fail where the real
    one may. *)
Record Collaborators := {
  form_is_valid : DB -> list (string * string) -> bool;
  cleaned_data : list (string * string) -> string -> string;
  make_password : string -> string;
  check_password : string -> string -> bool;
  must_update : string -> bool;
  uuid_str : uuid -> string;
  reverse : string -> list string -> result string;
  build_absolute_uri : HttpRequest -> string -> result string;
  SITE_URL : string;
  DEFAULT_FROM_EMAIL : string;
  render_to_string : string -> EmailContext -> result string;
  strip_tags : string -> string;
  send_mail : string -> string -> string -> list string -> string -> result unit
}.

(** [str.lower], on the ASCII letters: the only ones that can fold to a
    letter of ["xmlhttprequest"]. *)
Definition lower_ascii (c : ascii) : ascii :=
  let n := nat_of_ascii c in
  if (Nat.leb 65 n && Nat.leb n 90)%bool then ascii_of_nat (n + 32) else c.

Fixpoint lower (s : string) : string :=
  match s with
  | EmptyString => EmptyString
  | String c s' => String (lower_ascii c) (lower s')
  end.

(** The [__iexact] lookup, folding the case of ASCII letters. *)
Definition iexact (column value : string) : bool :=
  String.eqb (lower column) (lower value).

Definition is_xhr (request : HttpRequest) : bool :=
  String.eqb (lower (default "" (x_requested_with request))) "xmlhttprequest".

Fixpoint assoc_get (k : string) (l : list (string * string)) : option string :=
  match l with
  | [] => None
  | (k', v) :: l' => if String.eqb k k' then Some v else assoc_get k l'
  end.

(** ** backends.py *)

Definition USERNAME_FIELD : string := "username".

(** [Q(username__iexact=name) | Q(email__iexact=name)]; a [None] value
    makes each lookup an IS NULL test, which no row passes. *)
Definition username_or_email_iexact (name : option string) (u : User) : bool :=
  match name with
  | Some n => iexact (username u) n || iexact (email u) n
  | None => false
  end.

(** [user.check_password(raw)]: the verdict of the hasher and the
    instance as the call leaves it.  When the password is right and the
    stored hash is due for an upgrade ([must_update]), the setter
    re-hashes the password on the instance and saves that column. *)
Definition User_check_password (env : Collaborators) (u : User)
    (raw : option string) : M (bool * User) :=
  match raw with
  | Some r =>
      if check_password env r (password u) && must_update env (password u) then
        let u' := set_password u (make_password env r) in
        User_save_update_fields u' (fun v => set_password v (password u'));;
        ret (true, u')
      else ret (check_password env r (password u), u)
  | None => ret (false, u)
  end.

(** [ModelBackend.user_can_authenticate] *)
Definition user_can_authenticate (u : User) : bool := is_active u.

Definition User_objects_get (p : User -> bool) : M User :=
  fun db => (db, objects_get UserModel p (users db)).

(** The [try] block holds the lookup alone; its [except] branch returns
    [None] from the function, which is the [None] of the first bind. *)
Definition authenticate (env : Collaborators)
    (username : option string) (password : option string)
    (kwargs : list (string * string)) : M (option User) :=
  let username :=
    match username with
    | None => assoc_get USERNAME_FIELD kwargs
    | Some _ => username
    end in
  found ← try_except
            (user ← User_objects_get (username_or_email_iexact username);
             ret (Some user))
            (is_DoesNotExist UserModel)
            (ret None);
  match found with
  | None => ret None
  | Some user =>
      checked ← User_check_password env user password;
      if fst checked && user_can_authenticate (snd checked)
      then ret (Some (snd checked))
      else ret None
  end.

(** ** views.py *)

(** *** Registration and e-mail verification *)

Definition send_verification_email (env : Collaborators)
    (fresh : uuid) (now : datetime)
    (request : HttpRequest) (user : User) : M bool :=
  try_except
    (EmailVerificationToken_filter_user_delete user;;
     t ← EmailVerificationToken_objects_create fresh now user;
     path ← lift (reverse env "accounts:verify_email" [uuid_str env (token t)]);
     verification_url ← lift (build_absolute_uri env request path);
     let context := {| ctx_user := user;
                       ctx_verification_url := verification_url;
                       ctx_site_url := SITE_URL env;
                       ctx_email := email user |} in
     let subject := "Verify your email for AI Marketing Platform" in
     html_message ← lift (render_to_string env
                            "accounts/email/email_verification_email.html" context);
     let plain_message := strip_tags env html_message in
     lift (send_mail env subject plain_message (DEFAULT_FROM_EMAIL env)
             [email user] html_message);;
     ret true)
    is_Exception
    (ret false).

Definition register_view (env : Collaborators)
    (fresh : uuid) (now : datetime) (request : HttpRequest) : M HttpResponse :=
  if String.eqb (method request) "POST" then
    fun db =>
      if form_is_valid env db (POST request) then
        (let cd := cleaned_data env (POST request) in
         let new_user := {| user_pk := None;
                            username := cd "username";
                            email := cd "email";
                            password := "";
                            is_active := true |} in
         let new_user := set_password new_user (make_password env (cd "password1")) in
         let new_user := set_is_active new_user false in
         new_user ← User_save new_user;
         send_verification_email env fresh now request new_user;;
         ret (Redirect "accounts:verification_sent")) db
      else
        (db, Ok (Render "accounts/register.html"
                   [("form", CtxForm true (POST request))]))
  else
    ret (Render "accounts/register.html" [("form", CtxForm false [])]).

Definition set_verified (p : UserProfile) (b : bool) : UserProfile :=
  {| profile_id := profile_id p; profile_user := profile_user p;
     verified := b; bio := bio p;
     business_name := business_name p; business_type := business_type p;
     business_location := business_location p;
     target_audience := target_audience p |}.

Definition verify_email (now : datetime) (request : HttpRequest)
    (value : uuid) : M HttpResponse :=
  try_except
    (verification_token ← EmailVerificationToken_objects_get value;
     if is_valid verification_token now then
       user ← EmailVerificationToken_user verification_token;
       user ← User_save (set_is_active user true);
       p ← User_profile user;
       UserProfile_save (set_verified p true);;
       EmailVerificationToken_delete verification_token;;
       ret (Render "accounts/email/email_verified.html" [])
     else
       ret (Render "accounts/email/email_verification_invalid.html" []))
    (is_DoesNotExist EmailVerificationTokenModel)
    (ret (Render "accounts/email/email_verification_invalid.html" [])).

(** *** Favourites: products, prompts, templates *)

Definition get_object_or_404 {A} (m : model) (p : A -> bool)
    (table : DB -> list A) : M A :=
  fun db =>
    match objects_get m p (table db) with
    | Ok a => (db, Ok a)
    | Raise (DoesNotExist _) => (db, Raise Http404)
    | Raise e => (db, Raise e)
    end.

Definition m2m_contains (through : DB -> gset (nat * nat))
    (profile item : nat) : M bool :=
  fun db => (db, Ok (bool_decide ((profile, item) ∈ through db))).

Definition m2m_add (through : DB -> gset (nat * nat))
    (update : DB -> gset (nat * nat) -> DB) (profile item : nat) : M unit :=
  fun db => (update db (through db ∪ {[ (profile, item) ]}), Ok tt).

Definition m2m_remove (through : DB -> gset (nat * nat))
    (update : DB -> gset (nat * nat) -> DB) (profile item : nat) : M unit :=
  fun db => (update db (through db ∖ {[ (profile, item) ]}), Ok tt).

Definition add_favourite_product (request : HttpRequest)
    (product_slug_arg : string) : M (HttpResponse * list message) :=
  match req_user request with
  | None => ret (RedirectToLogin, [])
  | Some user =>
      product ← get_object_or_404 ProductModel
                  (fun p => String.eqb (product_slug p) product_slug_arg) products;
      user_profile ← User_profile user;
      present ← m2m_contains favourite_products
                  (profile_id user_profile) (product_id product);
      r ← (if present : bool then
             m2m_remove favourite_products with_favourite_products
               (profile_id user_profile) (product_id product);;
             ret (false, (SUCCESS, "Product removed from your favourites."))
           else
             m2m_add favourite_products with_favourite_products
               (profile_id user_profile) (product_id product);;
             ret (true, (SUCCESS, "Product added to your favourites.")));
      let is_favourite := fst r in
      if is_xhr request then
        ret (JsonResponse [("status", JStr "success");
                           ("is_favourite", JBool is_favourite)], [snd r])
      else
        ret (Redirect (default "core:home" (HTTP_REFERER request)), [snd r])
  end.

Definition add_favourite_prompt (request : HttpRequest)
    (prompt_id_arg : nat) : M (HttpResponse * list message) :=
  match req_user request with
  | None => ret (RedirectToLogin, [])
  | Some user =>
      prompt ← get_object_or_404 PromptModel
                 (fun p => Nat.eqb (prompt_id p) prompt_id_arg) prompts;
      profile ← User_profile user;
      present ← m2m_contains saved_prompts (profile_id profile) (prompt_id prompt);
      r ← (if present : bool then
             m2m_remove saved_prompts with_saved_prompts
               (profile_id profile) (prompt_id prompt);;
             ret ("removed", (INFO, "Prompt removed from your saved list."))
           else
             m2m_add saved_prompts with_saved_prompts
               (profile_id profile) (prompt_id prompt);;
             ret ("saved", (SUCCESS, "Prompt added to your saved list!")));
      let status := fst r in
      if is_xhr request then
        ret (JsonResponse [("status", JStr status)], [snd r])
      else
        ret (Redirect (default "accounts:dashboard" (HTTP_REFERER request)), [snd r])
  end.

Definition add_favourite_template (request : HttpRequest)
    (slug : string) : M (HttpResponse * list message) :=
  match req_user request with
  | None => ret (RedirectToLogin, [])
  | Some user =>
      template ← get_object_or_404 PromptTemplateModel
                   (fun t => String.eqb (template_slug t) slug) templates;
      profile ← User_profile user;
      present ← m2m_contains saved_templates (profile_id profile) (template_id template);
      r ← (if present : bool then
             m2m_remove saved_templates with_saved_templates
               (profile_id profile) (template_id template);;
             ret ("removed", (INFO, "Template removed from your saved list."))
           else
             m2m_add saved_templates with_saved_templates
               (profile_id profile) (template_id template);;
             ret ("saved", (SUCCESS, "Template added to your saved list!")));
      let status := fst r in
      if is_xhr request then
        ret (JsonResponse [("status", JStr status)], [snd r])
      else
        ret (Redirect (default "accounts:dashboard" (HTTP_REFERER request)), [snd r])
  end.

(** *** Public resources preview *)

(** The order of [order_by("order", "-created_at")]. *)
Definition resource_le (r1 r2 : MemberResource) : Prop :=
  (res_order r1 < res_order r2)%N
  ∨ (res_order r1 = res_order r2 ∧ (res_created_at r2 ≤ res_created_at r1)%Z).

#[global] Instance resource_le_dec r1 r2 : Decision (resource_le r1 r2).
Proof. unfold resource_le. apply _. Defined.

Definition order_by_order_created_desc (rs : list MemberResource) : list MemberResource :=
  merge_sort resource_le rs.

Definition public_resources_preview (request : HttpRequest) : M HttpResponse :=
  fun db =>
    let resources :=
      take 4 (order_by_order_created_desc (List.filter res_is_active (resources db))) in
    (db, Ok (Render "partials/public_resources_preview.html"
               [("resources", CtxResources resources)])).

(** *** Authentication *)

(** [QueryDict.get]: the last value given for the key. *)
Definition querydict_get (k : string) (q : list (string * string)) : option string :=
  assoc_get k (rev q).

(** [login(request, user)], as far as the store goes: the
    [user_logged_in] signal runs [update_last_login], which sets
    [last_login] (a column not modelled here) and saves that column. *)
Definition login (user : User) : M unit :=
  User_save_update_fields user (fun v => v).

(** What [login_view] leaves behind besides the response: the flashed
    messages and, after [login(request, user)], the session's user. *)
Record LoginOutcome := {
  login_response : HttpResponse;
  login_messages : list message;
  session_user : option User
}.

(** [auth] is [django.contrib.auth.authenticate], which hands the
    credentials to the configured backends; [GET] is the query string
    and [LOGIN_REDIRECT_URL] the setting of that name. *)
Definition login_view
    (auth : option string -> option string -> M (option User))
    (LOGIN_REDIRECT_URL : string) (GET : list (string * string))
    (request : HttpRequest) : M LoginOutcome :=
  if String.eqb (method request) "POST" then
    let username := querydict_get "username" (POST request) in
    let password := querydict_get "password" (POST request) in
    user ← auth username password;
    match user with
    | Some user =>
        if is_active user then
          login user;;
          let next_page := querydict_get "next" GET in
          ret {| login_response :=
                   Redirect (match next_page with
                             | Some (String c rest) => String c rest
                             | _ => LOGIN_REDIRECT_URL
                             end);
                 login_messages :=
                   [(SUCCESS, "Welcome back, " ++ default "None" username ++ "!")];
                 session_user := Some user |}
        else
          ret {| login_response := Render "accounts/login.html" [];
                 login_messages :=
                   [(ERROR, "Account not activated. Please check your email for the verification link.")];
                 session_user := None |}
    | None =>
        ret {| login_response := Render "accounts/login.html" [];
               login_messages := [(ERROR, "Invalid username or password.")];
               session_user := None |}
    end
  else
    ret {| login_response := Render "accounts/login.html" [];
           login_messages := [];
           session_user := None |}.

(** [django.contrib.auth.authenticate] when this application's backend
    is the one configured: it is called with the two credentials as
    keyword arguments and nothing else. *)
Definition backend (env : Collaborators)
    : option string -> option string -> M (option User) :=
  fun username password => authenticate env username password [].

(** *** Dashboard *)

(** [shop.OrderItem], as far as the dashboard reads it: the user of its
    order and its product. *)
Record OrderItem := { order_user : nat; order_product : nat }.

Record DashboardContext := {
  purchased_count : nat;
  dash_favourite_products : list Product;
  dash_saved_prompts : list Prompt;
  dash_saved_templates : list PromptTemplate;
  member_resources : list MemberResource
}.

Inductive DashboardResponse :=
| DashboardLogin
| DashboardRender (template : string) (context : DashboardContext).

(** [related_manager.all()]: the rows of the target table the relation
    links to the profile. *)
Definition m2m_all {A : Type} (through : gset (nat * nat)) (item_id : A -> nat)
    (profile : nat) (table : list A) : list A :=
  List.filter (fun a => bool_decide ((profile, item_id a) ∈ through)) table.

Definition dashboard_view (order_items : list OrderItem)
    (request : HttpRequest) : M DashboardResponse :=
  match req_user request with
  | None => ret DashboardLogin
  | Some user =>
      profile ← User_profile user;
      (fun db =>
        let purchased_count :=
          length (nodup Nat.eq_dec
                    (map order_product
                       (List.filter (fun i => match user_pk user with
                                              | Some uid => Nat.eqb (order_user i) uid
                                              | None => false
                                              end) order_items))) in
        let favourite_products :=
          m2m_all (favourite_products db) product_id (profile_id profile) (products db) in
        let saved_prompts :=
          m2m_all (saved_prompts db) prompt_id (profile_id profile) (prompts db) in
        let saved_templates :=
          m2m_all (saved_templates db) template_id (profile_id profile) (templates db) in
        let member_resources :=
          order_by_order_created_desc (List.filter res_is_active (resources db)) in
        (db, Ok (DashboardRender "accounts/dashboard.html"
                   {| purchased_count := purchased_count;
                      dash_favourite_products := favourite_products;
                      dash_saved_prompts := saved_prompts;
                      dash_saved_templates := saved_templates;
                      member_resources := member_resources |}))) : M DashboardResponse
  end.

(** * Notions used in the statements *)

(** The rows a given identity owns. *)
Definition profiles_of (uid : nat) (db : DB) : list UserProfile :=
  List.filter (fun p => Nat.eqb (profile_user p) uid) (profiles db).

Definition tokens_of (uid : nat) (db : DB) : list EmailVerificationToken :=
  List.filter (fun t => Nat.eqb (token_user t) uid) (tokens db).

(** The key [User.save] leaves the instance with, and the [users] and
    [profiles] tables it leaves behind. *)
Definition saved_pk (u : User) (db : DB) : nat :=
  match user_pk u with
  | Some id => id
  | None => fresh_id (user_ids (users db))
  end.

Definition users_after_save (u : User) (db : DB) : list User :=
  let uid := saved_pk u db in
  if existsb (pk_is uid) (users db)
  then map (fun v => if pk_is uid v then set_pk u uid else v) (users db)
  else users db ++ [set_pk u uid].

Definition profiles_after_save (uid : nat) (db : DB) : list UserProfile :=
  if existsb (fun p => Nat.eqb (profile_user p) uid) (profiles db)
  then profiles db
  else profiles db ++ [new_profile (profiles db) uid].

(** The identity [register_view] builds from the cleaned form data. *)
Definition registered_user (env : Collaborators) (post : list (string * string))
    (uid : nat) : User :=
  {| user_pk := Some uid;
     username := cleaned_data env post "username";
     email := cleaned_data env post "email";
     password := make_password env (cleaned_data env post "password1");
     is_active := false |}.

(** The reply of [add_favourite_product] when the product ends up a
    favourite ([true]) or not ([false]). *)
Definition product_reply (request : HttpRequest) (is_favourite : bool)
    : HttpResponse * list message :=
  (if is_xhr request
   then JsonResponse [("status", JStr "success"); ("is_favourite", JBool is_favourite)]
   else Redirect (default "core:home" (HTTP_REFERER request)),
   [(SUCCESS, if is_favourite then "Product added to your favourites."
              else "Product removed from your favourites.")]).

(** The reply of [add_favourite_prompt] when the prompt ends up saved
    ([true]) or not ([false]). *)
Definition prompt_reply (request : HttpRequest) (saved : bool)
    : HttpResponse * list message :=
  (if is_xhr request
   then JsonResponse [("status", JStr (if saved then "saved" else "removed"))]
   else Redirect (default "accounts:dashboard" (HTTP_REFERER request)),
   [if saved then (SUCCESS, "Prompt added to your saved list!")
    else (INFO, "Prompt removed from your saved list.")]).

(** The reply of [add_favourite_template], likewise. *)
Definition template_reply (request : HttpRequest) (saved : bool)
    : HttpResponse * list message :=
  (if is_xhr request
   then JsonResponse [("status", JStr (if saved then "saved" else "removed"))]
   else Redirect (default "accounts:dashboard" (HTTP_REFERER request)),
   [if saved then (SUCCESS, "Template added to your saved list!")
    else (INFO, "Template removed from your saved list.")]).

(** The [status] member of a JSON reply. *)
Definition json_status (r : HttpResponse) : option json :=
  match r with
  | JsonResponse body => snd <$> List.find (fun kv => String.eqb (fst kv) "status") body
  | _ => None
  end.

(** The store a successful [verify_email] leaves, given the consumed
    token [t], the owner's row [u] and the owner's profile row [x]. *)
Definition store_after_verification (db : DB) (t : EmailVerificationToken)
    (u : User) (x : UserProfile) : DB :=
  with_tokens
    (with_profiles
       (with_users db
          (map (fun v => if pk_is (token_user t) v then set_is_active u true else v)
               (users db)))
       (map (fun q => if Nat.eqb (profile_id q) (profile_id x)
                      then set_verified x true else q)
            (profiles_after_save (token_user t) db)))
    (List.filter (fun s => negb (Nat.eqb (token_id s) (token_id t))) (tokens db)).

(** The store a successful [register_view] leaves. *)
Definition store_after_registration (env : Collaborators) (fresh : uuid)
    (now : datetime) (request : HttpRequest) (db : DB) : DB :=
  let uid := fresh_id (user_ids (users db)) in
  with_tokens
    (with_profiles
       (with_users db (users db ++ [registered_user env (POST request) uid]))
       (profiles db ++ [new_profile (profiles db) uid]))
    (tokens db ++ [new_token (tokens db) uid fresh now]).

(** The context [dashboard_view] hands to its template, for a signed-in
    identity [user] with profile row [prof]. *)
Definition dashboard_context (order_items : list OrderItem) (user : User)
    (prof : UserProfile) (db : DB) : DashboardContext :=
  {| purchased_count :=
       length (nodup Nat.eq_dec
                 (map order_product
                    (List.filter (fun i => match user_pk user with
                                           | Some uid => Nat.eqb (order_user i) uid
                                           | None => false
                                           end) order_items)));
     dash_favourite_products :=
       m2m_all (favourite_products db) product_id (profile_id prof) (products db);
     dash_saved_prompts :=
       m2m_all (saved_prompts db) prompt_id (profile_id prof) (prompts db);
     dash_saved_templates :=
       m2m_all (saved_templates db) template_id (profile_id prof) (templates db);
     member_resources :=
       order_by_order_created_desc (List.filter res_is_active (resources db)) |}.

(** The hasher's verdict on a raw password against an identity's stored
    hash, and whether [check_password] will upgrade that hash. *)
Definition password_is_correct (env : Collaborators) (u : User)
    (raw : option string) : bool :=
  match raw with
  | Some r => check_password env r (password u)
  | None => false
  end.

Definition password_upgrade_due (env : Collaborators) (u : User)
    (raw : option string) : bool :=
  match raw with
  | Some r => check_password env r (password u) && must_update env (password u)
  | None => false
  end.

(** A handler that leaves the store as it found it. *)
Definition readonly {A} (m : M A) : Prop := ∀ db, fst (m db) = db.

(** The constraints the schema puts on a store: primary keys, the
    unique [username], the two one-to-one fields and their foreign
    keys. *)
Record db_wf (db : DB) : Prop := {
  wf_user_pk : NoDup (map user_pk (users db));
  wf_username : NoDup (map username (users db));
  wf_profile_pk : NoDup (map profile_id (profiles db));
  wf_profile_user : NoDup (map profile_user (profiles db));
  wf_profile_fk :
    Forall (fun p => existsb (pk_is (profile_user p)) (users db) = true) (profiles db);
  wf_token_pk : NoDup (map token_id (tokens db));
  wf_token_user : NoDup (map token_user (tokens db));
  wf_token_fk :
    Forall (fun t => existsb (pk_is (token_user t)) (users db) = true) (tokens db)
}.

(** * Sample data

    Concrete rows and stores on which the handlers are run below. *)

Definition token_at (created : datetime) : EmailVerificationToken :=
  {| token_id := 1; token_user := 1; token := 42%N; created_at := created;
     reminder_sent := false; reminder_sent_at := None |}.

Definition empty_db : DB :=
  {| users := []; profiles := []; tokens := []; resources := [];
     products := []; prompts := []; templates := [];
     favourite_products := ∅; saved_prompts := ∅; saved_templates := ∅ |}.

(** Two accounts: the first one's user name is the second one's e-mail
    address (the user-name validator accepts [@] and [.]). *)
Definition user_mallory : User :=
  {| user_pk := Some 1; username := "bob@example.com";
     email := "mallory@example.com"; password := "pbkdf2$m"; is_active := true |}.

Definition user_bob : User :=
  {| user_pk := Some 2; username := "bob";
     email := "bob@example.com"; password := "pbkdf2$b"; is_active := true |}.

Definition db_collision : DB := with_users empty_db [user_mallory; user_bob].

(** One inactive account with its profile and a token issued at time 0. *)
Definition user_alice : User :=
  {| user_pk := Some 1; username := "alice"; email := "alice@example.com";
     password := "pbkdf2$a"; is_active := false |}.

Definition profile_alice : UserProfile :=
  {| profile_id := 1; profile_user := 1; verified := false; bio := "";
     business_name := None; business_type := None;
     business_location := None; target_audience := None |}.

Definition db_alice : DB :=
  with_tokens (with_profiles (with_users empty_db [user_alice]) [profile_alice])
              [token_at 0%Z].

(** Collaborators whose mail delivery always fails. *)
Definition env_mail_down : Collaborators :=
  {| form_is_valid := fun db post =>
       negb (existsb (fun u => String.eqb (username u)
                                 (default "" (assoc_get "username" post)))
                     (users db));
     cleaned_data := fun post k => default "" (assoc_get k post);
     make_password := fun raw => "pbkdf2$" ++ raw;
     check_password := fun raw encoded => String.eqb ("pbkdf2$" ++ raw) encoded;
     must_update := fun _ => false;
     uuid_str := fun _ => "00000000-0000-0000-0000-000000000000";
     reverse := fun _ args => Ok ("/accounts/verify/" ++ String.concat "/" args);
     build_absolute_uri := fun _ path => Ok ("https://example.com" ++ path);
     SITE_URL := "https://example.com";
     DEFAULT_FROM_EMAIL := "noreply@example.com";
     render_to_string := fun _ _ => Ok "<p>verify</p>";
     strip_tags := fun html => html;
     send_mail := fun _ _ _ _ _ => Raise (CollaboratorError "SMTPException") |}.

Definition user_carol : User :=
  {| user_pk := None; username := "carol"; email := "carol@example.com";
     password := "pbkdf2$c"; is_active := true |}.

Definition register_carol : HttpRequest :=
  {| method := "POST";
     POST := [("username", "carol"); ("email", "carol@example.com");
              ("password1", "P@ssw0rd1"); ("password2", "P@ssw0rd1")];
     req_user := None; x_requested_with := None; HTTP_REFERER := None |}.

(** A store with one catalog item of each kind, and a signed-in request
    carrying the XHR marker header. *)
Definition db_shop : DB :=
  {| users := [user_alice]; profiles := [profile_alice]; tokens := [];
     resources := [];
     products := [ {| product_id := 10; product_slug := "ebook" |} ];
     prompts := [ {| prompt_id := 20 |} ];
     templates := [ {| template_id := 30; template_slug := "launch" |} ];
     favourite_products := ∅; saved_prompts := ∅; saved_templates := ∅ |}.

Definition xhr_alice : HttpRequest :=
  {| method := "POST"; POST := []; req_user := Some user_alice;
     x_requested_with := Some "XMLHttpRequest"; HTTP_REFERER := None |}.

(** Six member resources, one of them inactive. *)
Definition resource (id : nat) (order : N) (created : datetime) (active : bool)
    : MemberResource :=
  {| res_id := id; res_title := "guide"; res_description := "";
     res_file := "member_resources/guide.pdf";
     res_thumbnail := "member_resources/thumbnails/guide.png";
     res_created_at := created; res_is_active := active; res_order := order |}.

Definition db_resources : DB :=
  {| users := []; profiles := []; tokens := [];
     resources := [resource 1 2 10%Z true; resource 2 0 10%Z true;
                   resource 3 0 30%Z true; resource 4 1 5%Z false;
                   resource 5 1 7%Z true; resource 6 3 1%Z true];
     products := []; prompts := []; templates := [];
     favourite_products := ∅; saved_prompts := ∅; saved_templates := ∅ |}.

(** Collaborators that work, with a form that checks nothing. *)
Definition env_unchecked : Collaborators :=
  {| form_is_valid := fun _ _ => true;
     cleaned_data := cleaned_data env_mail_down;
     make_password := make_password env_mail_down;
     check_password := check_password env_mail_down;
     must_update := must_update env_mail_down;
     uuid_str := uuid_str env_mail_down;
     reverse := reverse env_mail_down;
     build_absolute_uri := build_absolute_uri env_mail_down;
     SITE_URL := SITE_URL env_mail_down;
     DEFAULT_FROM_EMAIL := DEFAULT_FROM_EMAIL env_mail_down;
     render_to_string := render_to_string env_mail_down;
     strip_tags := strip_tags env_mail_down;
     send_mail := fun _ _ _ _ _ => Ok tt |}.

Definition register_alice_again : HttpRequest :=
  {| method := "POST";
     POST := [("username", "alice"); ("email", "other@example.com");
              ("password1", "S3cret!pw"); ("password2", "S3cret!pw")];
     req_user := None; x_requested_with := None; HTTP_REFERER := None |}.

(** A sign-in form for alice, typed in capitals, with her password. *)
Definition login_alice : HttpRequest :=
  {| method := "POST"; POST := [("username", "ALICE"); ("password", "a")];
     req_user := None; x_requested_with := None; HTTP_REFERER := None |}.

(** The store of [db_alice] once alice is active. *)
Definition db_alice_active : DB :=
  with_users db_alice [set_is_active user_alice true].

(** Three order items of alice, two of them for the same product, and
    one of another user. *)
Definition orders_sample : list OrderItem :=
  [ {| order_user := 1; order_product := 10 |};
    {| order_user := 1; order_product := 11 |};
    {| order_user := 1; order_product := 10 |};
    {| order_user := 2; order_product := 12 |} ].

(** Collaborators whose preferred hasher is argon2: a pbkdf2 hash still
    verifies, and is due for an upgrade. *)
Definition env_upgrade : Collaborators :=
  {| form_is_valid := fun _ _ => true;
     cleaned_data := cleaned_data env_mail_down;
     make_password := fun raw => "argon2$" ++ raw;
     check_password := fun raw encoded =>
       String.eqb ("pbkdf2$" ++ raw) encoded || String.eqb ("argon2$" ++ raw) encoded;
     must_update := fun encoded => negb (String.prefix "argon2$" encoded);
     uuid_str := uuid_str env_mail_down;
     reverse := reverse env_mail_down;
     build_absolute_uri := build_absolute_uri env_mail_down;
     SITE_URL := SITE_URL env_mail_down;
     DEFAULT_FROM_EMAIL := DEFAULT_FROM_EMAIL env_mail_down;
     render_to_string := render_to_string env_mail_down;
     strip_tags := strip_tags env_mail_down;
     send_mail := fun _ _ _ _ _ => Ok tt |}.

Definition anonymous_get : HttpRequest :=
  {| method := "GET"; POST := []; req_user := None;
     x_requested_with := None; HTTP_REFERER := None |}.

(** * Properties *)

(** ** Running the monad *)

Lemma run_bind {A B} (m : M A) (k : A → M B) (db : DB) :
  (m ≫= k) db =
  match m db with
  | (db', Ok a) => k a db'
  | (db', Raise e) => (db', Raise e)
  end.
Proof. reflexivity. Qed.

Lemma run_bind_Ok {A B} (m : M A) (k : A → M B) db db' a :
  m db = (db', Ok a) → (m ≫= k) db = k a db'.
Proof. intros H. rewrite run_bind, H. reflexivity. Qed.

Lemma run_bind_Raise {A B} (m : M A) (k : A → M B) db db' e :
  m db = (db', Raise e) → (m ≫= k) db = (db', Raise e).
Proof. intros H. rewrite run_bind, H. reflexivity. Qed.

Lemma run_lift_bind {A B} (r : result A) (k : A → M B) db :
  (lift r ≫= k) db =
  match r with Ok a => k a db | Raise e => (db, Raise e) end.
Proof. rewrite run_bind. unfold lift. destruct r; reflexivity. Qed.

(** ** [objects.get] *)

Lemma objects_get_Ok {A} m (p : A → bool) rows a :
  objects_get m p rows = Ok a → In a rows ∧ p a = true ∧ List.filter p rows = [a].
Proof.
  unfold objects_get. intros H.
  destruct (List.filter p rows) as [|x [|y l]] eqn:E; try discriminate.
  injection H as ->.
  assert (In a (List.filter p rows)) as Hin by (rewrite E; left; reflexivity).
  apply filter_In in Hin. tauto.
Qed.

Lemma objects_get_none {A} m (p : A → bool) rows :
  (∀ a, In a rows → p a = false) → objects_get m p rows = Raise (DoesNotExist m).
Proof.
  intros H. unfold objects_get.
  destruct (List.filter p rows) as [|x l] eqn:E; [reflexivity|].
  assert (In x (List.filter p rows)) as Hin by (rewrite E; left; reflexivity).
  apply filter_In in Hin. destruct Hin as [Hin Hp].
  rewrite (H x Hin) in Hp. discriminate.
Qed.

Lemma objects_get_Raise {A} m (p : A → bool) rows e :
  objects_get m p rows = Raise e →
  e = DoesNotExist m ∨ e = MultipleObjectsReturned m.
Proof.
  unfold objects_get.
  destruct (List.filter p rows) as [|x [|y l]]; intros H; inversion H; auto.
Qed.

(** ** The validity window *)

Lemma is_valid_spec t now :
  is_valid t now = true ↔ (now - created_at t ≤ timedelta_hours 24)%Z.
Proof. unfold is_valid. rewrite Z.geb_le. lia. Qed.

Lemma is_valid_false t now :
  is_valid t now = false ↔ (timedelta_hours 24 < now - created_at t)%Z.
Proof.
  unfold is_valid. destruct (Z.geb_spec (created_at t) (now - timedelta_hours 24)).
  - split; [discriminate | lia].
  - split; [lia | reflexivity].
Qed.

(** C2, as the specification words it, fails on the boundary: a token
    created exactly 24h0s before the clock reading is accepted, although
    the age is not strictly below 24 hours. *)
Lemma is_valid_strict_window_counterexample :
  ¬ (is_valid (token_at 0%Z) (timedelta_hours 24) = true
     ↔ (timedelta_hours 24 - created_at (token_at 0%Z) < timedelta_hours 24)%Z).
Proof. intros [H _]. specialize (H eq_refl). vm_compute in H. discriminate. Qed.

(** C2 (amended): [is_valid] holds exactly when the token's age is at
    most 24 hours.  A token aged 23h59m59s is valid, a token aged
    exactly 24h0s is still valid, and one microsecond later it is not. *)
Theorem is_valid_iff_age_le_24h :
  (∀ t now, is_valid t now = true ↔ (now - created_at t ≤ timedelta_hours 24)%Z)
  ∧ (∀ c, is_valid (token_at c) (c + timedelta_hours 24 - timedelta_seconds 1)%Z = true)
  ∧ (∀ c, is_valid (token_at c) (c + timedelta_hours 24)%Z = true)
  ∧ (∀ c, is_valid (token_at c) (c + timedelta_hours 24 + 1)%Z = false).
Proof.
  split; [exact is_valid_spec|].
  repeat split; intros c.
  - apply is_valid_spec. simpl. unfold timedelta_hours, timedelta_seconds. lia.
  - apply is_valid_spec. simpl. lia.
  - apply is_valid_false. simpl. lia.
Qed.

(** ** Handlers that do not write *)

Lemma readonly_ret {A} (a : A) : readonly (mret a).
Proof. intros db. reflexivity. Qed.

Lemma readonly_lift {A} (r : result A) : readonly (lift r).
Proof. intros db. reflexivity. Qed.

Lemma readonly_bind {A B} (m : M A) (k : A → M B) :
  readonly m → (∀ a, readonly (k a)) → readonly (m ≫= k).
Proof.
  intros Hm Hk db. rewrite run_bind. specialize (Hm db).
  destruct (m db) as [db' [a|e]]; simpl in Hm; subst db'.
  - apply Hk.
  - reflexivity.
Qed.

Lemma fst_bind_readonly {A B} (m : M A) (k : A → M B) db :
  (∀ a, readonly (k a)) → fst ((m ≫= k) db) = fst (m db).
Proof.
  intros Hk. rewrite run_bind.
  destruct (m db) as [db' [a|e]]; simpl; [apply Hk | reflexivity].
Qed.

Lemma fst_try_except_readonly {A} (m h : M A) handles db :
  readonly h → fst (try_except m handles h db) = fst (m db).
Proof.
  intros Hh. unfold try_except.
  destruct (m db) as [db' [a|e]]; simpl; [reflexivity|].
  destruct (handles e); [apply Hh | reflexivity].
Qed.

Create HintDb readonly.
#[local] Hint Resolve readonly_ret readonly_lift : readonly.

(** ** C3: the sign-in lookup *)

Lemma authenticate_no_match env name password kwargs db :
  (∀ u, In u (users db) → username_or_email_iexact (Some name) u = false) →
  authenticate env (Some name) password kwargs db = (db, Ok None).
Proof.
  intros H. unfold authenticate.
  rewrite run_bind. unfold try_except at 1.
  rewrite run_bind. unfold User_objects_get.
  rewrite (objects_get_none _ _ _ H). reflexivity.
Qed.

(** C3: with a user name that is also another account's e-mail address,
    the lookup finds two rows and [authenticate] does not return: the
    [MultipleObjectsReturned] exception leaves it uncaught. *)
Theorem authenticate_ambiguous_identifier_raises env password kwargs :
  authenticate env (Some "bob@example.com") password kwargs db_collision
  = (db_collision, Raise (MultipleObjectsReturned UserModel)).
Proof. reflexivity. Qed.

(** ** C4: failed verification writes nothing *)

Lemma verify_email_failure_db now request value db :
  (∀ t, In t (tokens db) → token t = value →
        (timedelta_hours 24 < now - created_at t)%Z) →
  fst (verify_email now request value db) = db.
Proof.
  intros H. unfold verify_email, try_except.
  rewrite run_bind. unfold EmailVerificationToken_objects_get.
  destruct (objects_get _ _ (tokens db)) as [t|e] eqn:E.
  - apply objects_get_Ok in E as (Hin & Hp & _).
    apply N.eqb_eq in Hp.
    apply H in Hp; [|exact Hin].
    apply is_valid_false in Hp. rewrite Hp. reflexivity.
  - apply objects_get_Raise in E as [-> | ->]; reflexivity.
Qed.

(** C4, as the specification words it, fails on the boundary: a token
    aged exactly 24h0s is outside the window "age below 24 hours", yet
    [verify_email] accepts it and activates its owner. *)
Lemma verify_email_boundary_counterexample :
  ¬ ((∀ t, In t (tokens db_alice) → token t = 42%N →
           ¬ (timedelta_hours 24 - created_at t < timedelta_hours 24)%Z) →
     users (fst (verify_email (timedelta_hours 24) anonymous_get 42%N db_alice))
       = users db_alice
     ∧ profiles (fst (verify_email (timedelta_hours 24) anonymous_get 42%N db_alice))
       = profiles db_alice).
Proof.
  intros H. destruct H as [Hu _].
  - intros t [<- | []] _ Hlt. vm_compute in Hlt. discriminate Hlt.
  - vm_compute in Hu. discriminate Hu.
Qed.

(** C4 (amended): when every stored token carrying the presented value
    is more than 24 hours old (in particular when no stored token
    carries it), [verify_email] leaves the rows of all identities and of
    all profiles as they were, so no [is_active] and no [verified] flag
    changes. *)
Theorem verify_email_failure_mutates_nothing now request value db :
  (∀ t, In t (tokens db) → token t = value →
        (timedelta_hours 24 < now - created_at t)%Z) →
  users (fst (verify_email now request value db)) = users db
  ∧ profiles (fst (verify_email now request value db)) = profiles db.
Proof.
  intros H. rewrite (verify_email_failure_db _ _ _ _ H). split; reflexivity.
Qed.

Lemma verify_email_failure_mutates_nothing_witness :
  users (fst (verify_email (timedelta_hours 25) anonymous_get 42%N db_alice))
    = users db_alice
  ∧ profiles (fst (verify_email (timedelta_hours 25) anonymous_get 42%N db_alice))
    = profiles db_alice.
Proof.
  apply (verify_email_failure_mutates_nothing (timedelta_hours 25) anonymous_get
           42%N db_alice).
  intros t [<- | []] _. vm_compute. reflexivity.
Defined.

(** ** C5: issuing a token *)

Lemma filter_user_delete_run user uid db :
  user_pk user = Some uid →
  EmailVerificationToken_filter_user_delete user db
  = (with_tokens db
       (List.filter (fun t => negb (Nat.eqb (token_user t) uid)) (tokens db)),
     Ok tt).
Proof. intros H. unfold EmailVerificationToken_filter_user_delete. rewrite H. reflexivity. Qed.

Lemma filter_complement_nil {A} (p : A → bool) l :
  List.filter p (List.filter (fun x => negb (p x)) l) = [].
Proof.
  induction l as [|x l IH]; simpl; [reflexivity|].
  destruct (p x) eqn:E; simpl; [exact IH|].
  rewrite E. exact IH.
Qed.

Lemma existsb_filter_complement {A} (p : A → bool) l :
  existsb p (List.filter (fun x => negb (p x)) l) = false.
Proof.
  induction l as [|x l IH]; simpl; [reflexivity|].
  destruct (p x) eqn:E; simpl; [exact IH|].
  rewrite E. exact IH.
Qed.

Lemma objects_create_token_run fresh now user uid db :
  user_pk user = Some uid →
  existsb (pk_is uid) (users db) = true →
  existsb (fun t => Nat.eqb (token_user t) uid) (tokens db) = false →
  EmailVerificationToken_objects_create fresh now user db
  = (with_tokens db (tokens db ++ [new_token (tokens db) uid fresh now]),
     Ok (new_token (tokens db) uid fresh now)).
Proof.
  intros Hpk Hu Ht. unfold EmailVerificationToken_objects_create.
  rewrite Hpk, Hu, Ht. reflexivity.
Qed.

(** The store after [send_verification_email], whatever the later steps
    (URL, template, delivery) do. *)
Lemma send_verification_email_db env fresh now request user uid db :
  user_pk user = Some uid →
  existsb (pk_is uid) (users db) = true →
  fst (send_verification_email env fresh now request user db)
  = with_tokens db
      (List.filter (fun t => negb (Nat.eqb (token_user t) uid)) (tokens db)
       ++ [new_token
             (List.filter (fun t => negb (Nat.eqb (token_user t) uid)) (tokens db))
             uid fresh now]).
Proof.
  intros Hpk Hu. unfold send_verification_email.
  rewrite fst_try_except_readonly by auto with readonly.
  erewrite run_bind_Ok by (apply filter_user_delete_run; exact Hpk).
  rewrite fst_bind_readonly.
  - erewrite objects_create_token_run; eauto.
    apply (existsb_filter_complement (fun t => Nat.eqb (token_user t) uid)).
  - intros t. repeat (apply readonly_bind; [auto with readonly | intros ?]).
    auto with readonly.
Qed.

(** C5: for a stored identity, the delete step of
    [send_verification_email] removes every token of that identity and
    no other; the create step then adds one token of the identity,
    carrying the value just drawn and the current time.  Afterwards the
    table holds the other identities' tokens followed by that new one,
    so exactly one token belongs to the identity: the new one, whatever
    tokens it had before and whatever the delivery steps do. *)
Theorem send_verification_email_leaves_one_token
    env fresh now request user uid db :
  user_pk user = Some uid →
  existsb (pk_is uid) (users db) = true →
  ∃ t,
    tokens_of uid (fst (EmailVerificationToken_filter_user_delete user db)) = []
    ∧ (∀ s, In s (tokens (fst (EmailVerificationToken_filter_user_delete user db)))
            ↔ In s (tokens db) ∧ token_user s ≠ uid)
    ∧ tokens (fst (send_verification_email env fresh now request user db))
      = (tokens (fst (EmailVerificationToken_filter_user_delete user db)) ++ [t])%list
    ∧ token_user t = uid ∧ token t = fresh ∧ created_at t = now
    ∧ tokens_of uid (fst (send_verification_email env fresh now request user db)) = [t]
    ∧ length (tokens_of uid (fst (send_verification_email env fresh now request user db)))
      = 1.
Proof.
  intros Hpk Hu.
  rewrite (send_verification_email_db _ _ _ _ _ uid) by assumption.
  rewrite (filter_user_delete_run user uid db Hpk).
  set (kept := List.filter (fun t => negb (Nat.eqb (token_user t) uid)) (tokens db)).
  exists (new_token kept uid fresh now).
  assert (List.filter (fun t => Nat.eqb (token_user t) uid) kept = []) as Hnone
    by apply (filter_complement_nil (fun t => Nat.eqb (token_user t) uid)).
  assert (tokens_of uid (with_tokens db (kept ++ [new_token kept uid fresh now]))
          = [new_token kept uid fresh now]) as Hone.
  { unfold tokens_of. simpl. rewrite List.filter_app, Hnone. simpl.
    rewrite Nat.eqb_refl. reflexivity. }
  split; [exact Hnone|]. split.
  { intros s. simpl. unfold kept.
    rewrite filter_In, negb_true_iff, Nat.eqb_neq. reflexivity. }
  split; [reflexivity|].
  split; [reflexivity|]. split; [reflexivity|]. split; [reflexivity|].
  split; [exact Hone | rewrite Hone; reflexivity].
Qed.

Lemma send_verification_email_leaves_one_token_witness :
  ∃ t,
    tokens_of 1 (fst (EmailVerificationToken_filter_user_delete user_alice db_alice)) = []
    ∧ (∀ s, In s (tokens (fst (EmailVerificationToken_filter_user_delete user_alice
                                 db_alice)))
            ↔ In s (tokens db_alice) ∧ token_user s ≠ 1)
    ∧ tokens (fst (send_verification_email env_mail_down 7%N 100%Z anonymous_get
                     user_alice db_alice))
      = (tokens (fst (EmailVerificationToken_filter_user_delete user_alice db_alice))
         ++ [t])%list
    ∧ token_user t = 1 ∧ token t = 7%N ∧ created_at t = 100%Z
    ∧ tokens_of 1 (fst (send_verification_email env_mail_down 7%N 100%Z anonymous_get
                          user_alice db_alice)) = [t]
    ∧ length (tokens_of 1 (fst (send_verification_email env_mail_down 7%N 100%Z
                                  anonymous_get user_alice db_alice))) = 1.
Proof.
  apply (send_verification_email_leaves_one_token env_mail_down 7%N 100%Z
           anonymous_get user_alice 1 db_alice); reflexivity.
Defined.

(** ** Lists of rows under a unique key *)

Section unique_key.
Context {A K : Type} (f : A → K) (p : A → bool) (k : K).
Hypothesis p_spec : ∀ y, p y = true ↔ f y = k.

Lemma filter_nil_of_all_false (l : list A) :
  (∀ y, In y l → p y = false) → List.filter p l = [].
Proof.
  induction l as [|y l IH]; intros H; simpl; [reflexivity|].
  rewrite (H y) by (left; reflexivity).
  apply IH. intros z Hz. apply H. right. exact Hz.
Qed.

Lemma key_not_in_all_false (l : list A) :
  ¬ In k (map f l) → ∀ y, In y l → p y = false.
Proof.
  intros Hk y Hy. destruct (p y) eqn:E; [|reflexivity].
  exfalso. apply Hk. apply p_spec in E. rewrite <- E. apply in_map. exact Hy.
Qed.

Lemma filter_unique_key (l : list A) (x : A) :
  NoDup (map f l) → In x l → f x = k → List.filter p l = [x].
Proof.
  induction l as [|y l IH]; intros Hnd Hin Hx; [destruct Hin|].
  simpl in Hnd. apply NoDup_cons in Hnd as [Hy Hnd'].
  rewrite list_elem_of_In in Hy.
  destruct Hin as [-> | Hin].
  - simpl. rewrite (proj2 (p_spec x) Hx).
    rewrite filter_nil_of_all_false; [reflexivity|].
    apply key_not_in_all_false. rewrite <- Hx. exact Hy.
  - simpl. destruct (p y) eqn:E.
    + exfalso. apply Hy. apply p_spec in E. rewrite E, <- Hx.
      apply in_map. exact Hin.
    + apply IH; assumption.
Qed.

Lemma map_replace_same (l : list A) (x : A) :
  NoDup (map f l) → In x l → f x = k →
  map (fun q => if p q then x else q) l = l.
Proof.
  induction l as [|y l IH]; intros Hnd Hin Hx; [reflexivity|].
  simpl in Hnd. apply NoDup_cons in Hnd as [Hy Hnd'].
  rewrite list_elem_of_In in Hy.
  simpl. destruct Hin as [-> | Hin].
  - rewrite (proj2 (p_spec x) Hx). f_equal.
    rewrite Hx in Hy.
    rewrite <- (map_id l) at 2. apply map_ext_in. intros z Hz.
    rewrite (key_not_in_all_false l Hy z Hz). reflexivity.
  - destruct (p y) eqn:E.
    + exfalso. apply Hy. apply p_spec in E. rewrite E, <- Hx.
      apply in_map. exact Hin.
    + f_equal. apply IH; assumption.
Qed.

Lemma filter_map_replace (l : list A) (x' : A) :
  p x' = true →
  List.filter p (map (fun q => if p q then x' else q) l)
  = map (fun _ => x') (List.filter p l).
Proof.
  intros Hx'. induction l as [|y l IH]; simpl; [reflexivity|].
  destruct (p y) eqn:E; simpl.
  - rewrite Hx'. f_equal. exact IH.
  - rewrite E. exact IH.
Qed.
End unique_key.

(** ** Saving an identity *)

Lemma with_profiles_same db : with_profiles db (profiles db) = db.
Proof. destruct db; reflexivity. Qed.

Lemma pk_is_spec id (u : User) : pk_is id u = true ↔ user_pk u = Some id.
Proof.
  unfold pk_is. destruct (user_pk u) as [i|].
  - rewrite Nat.eqb_eq. split; congruence.
  - split; discriminate.
Qed.

Lemma set_pk_same (u : User) id : user_pk u = Some id → set_pk u id = u.
Proof. destruct u; simpl; intros ->; reflexivity. Qed.

Lemma fresh_id_not_in ids : ¬ In (fresh_id ids) ids.
Proof.
  intros H. unfold fresh_id in H.
  assert (List.Forall (fun k => k <= list_max ids) ids) as Hall
    by (apply list_max_le; lia).
  rewrite List.Forall_forall in Hall. apply Hall in H. lia.
Qed.

Lemma fresh_pk_absent us : existsb (pk_is (fresh_id (user_ids us))) us = false.
Proof.
  destruct (existsb _ us) eqn:E; [|reflexivity].
  apply existsb_exists in E as (u & Hin & Hp).
  apply pk_is_spec in Hp.
  exfalso. apply (fresh_id_not_in (user_ids us)).
  apply list_elem_of_In. unfold user_ids. apply list_elem_of_omap.
  exists u. split; [apply list_elem_of_In; exact Hin | exact Hp].
Qed.

Lemma no_profile_without_user uid db :
  List.Forall (fun p => existsb (pk_is (profile_user p)) (users db) = true) (profiles db) →
  existsb (pk_is uid) (users db) = false →
  existsb (fun p => Nat.eqb (profile_user p) uid) (profiles db) = false.
Proof.
  intros Hfk Hno.
  destruct (existsb _ (profiles db)) eqn:E; [|reflexivity].
  apply existsb_exists in E as (p & Hin & Hp). apply Nat.eqb_eq in Hp.
  rewrite List.Forall_forall in Hfk. apply Hfk in Hin.
  rewrite Hp in Hin. congruence.
Qed.

Lemma objects_create_profile_run user uid db :
  user_pk user = Some uid →
  existsb (pk_is uid) (users db) = true →
  existsb (fun p => Nat.eqb (profile_user p) uid) (profiles db) = false →
  UserProfile_objects_create user db
  = (with_profiles db (profiles db ++ [new_profile (profiles db) uid]),
     Ok (new_profile (profiles db) uid)).
Proof.
  intros Hpk Hu Hp. unfold UserProfile_objects_create.
  rewrite Hpk, Hu, Hp. reflexivity.
Qed.

Lemma User_profile_present r uid db x :
  user_pk r = Some uid →
  NoDup (map profile_user (profiles db)) →
  In x (profiles db) → profile_user x = uid →
  User_profile r db = (db, Ok x).
Proof.
  intros Hpk Hnd Hin Hx. unfold User_profile, objects_get. rewrite Hpk.
  rewrite (filter_unique_key profile_user _ uid
             (fun y => Nat.eqb_eq (profile_user y) uid) _ x Hnd Hin Hx).
  reflexivity.
Qed.

Lemma User_profile_missing r uid db :
  user_pk r = Some uid →
  existsb (fun p => Nat.eqb (profile_user p) uid) (profiles db) = false →
  User_profile r db = (db, Raise RelatedObjectDoesNotExist).
Proof.
  intros Hpk Hno. unfold User_profile. rewrite Hpk.
  rewrite objects_get_none; [reflexivity|].
  intros p Hin. destruct (Nat.eqb (profile_user p) uid) eqn:E; [|reflexivity].
  assert (existsb (fun p => Nat.eqb (profile_user p) uid) (profiles db) = true)
    by (apply existsb_exists; eauto).
  congruence.
Qed.

(** Saving a profile whose key and owner are those of a stored row
    replaces that row. *)
Lemma UserProfile_save_update_run x x' db :
  NoDup (map profile_user (profiles db)) →
  In x (profiles db) →
  profile_id x' = profile_id x → profile_user x' = profile_user x →
  UserProfile_save x' db
  = (with_profiles db
       (map (fun q => if Nat.eqb (profile_id q) (profile_id x') then x' else q)
            (profiles db)),
     Ok tt).
Proof.
  intros Hnd Hin Hid Hus. unfold UserProfile_save.
  assert (existsb (fun q => Nat.eqb (profile_id q) (profile_id x')) (profiles db) = true)
    as ->.
  { apply existsb_exists. exists x. split; [exact Hin|].
    rewrite Hid. apply Nat.eqb_refl. }
  assert (existsb (fun q => Nat.eqb (profile_user q) (profile_user x')
                            && negb (Nat.eqb (profile_id q) (profile_id x')))
                  (profiles db) = false) as ->; [|reflexivity].
  destruct (existsb _ (profiles db)) eqn:E; [|reflexivity].
  apply existsb_exists in E as (q & Hq & Hc).
  apply andb_true_iff in Hc as [Hu Hi]. apply Nat.eqb_eq in Hu.
  assert (List.filter (fun y => Nat.eqb (profile_user y) (profile_user x)) (profiles db)
          = [x]) as Hf
    by (apply (filter_unique_key profile_user _ (profile_user x)
                 (fun y => Nat.eqb_eq (profile_user y) (profile_user x)));
        auto).
  assert (In q [x]) as Hqx.
  { rewrite <- Hf. apply filter_In. split; [exact Hq|].
    apply Nat.eqb_eq. congruence. }
  destruct Hqx as [<- | []].
  rewrite Hid, Nat.eqb_refl in Hi. discriminate.
Qed.

Lemma UserProfile_save_unchanged x db :
  NoDup (map profile_id (profiles db)) →
  NoDup (map profile_user (profiles db)) →
  In x (profiles db) →
  UserProfile_save x db = (db, Ok tt).
Proof.
  intros Hid Hus Hin.
  rewrite (UserProfile_save_update_run x x db) by auto.
  rewrite (map_replace_same profile_id _ (profile_id x)
             (fun y => Nat.eqb_eq (profile_id y) (profile_id x)) _ x) by auto.
  rewrite with_profiles_same. reflexivity.
Qed.

Lemma save_user_profile_present r uid db :
  user_pk r = Some uid →
  NoDup (map profile_id (profiles db)) →
  NoDup (map profile_user (profiles db)) →
  existsb (fun p => Nat.eqb (profile_user p) uid) (profiles db) = true →
  save_user_profile r db = (db, Ok tt).
Proof.
  intros Hpk Hid Hus Hex.
  apply existsb_exists in Hex as (x & Hin & Hx). apply Nat.eqb_eq in Hx.
  unfold save_user_profile, try_except.
  erewrite run_bind_Ok by (eapply User_profile_present; eauto).
  rewrite UserProfile_save_unchanged by auto. reflexivity.
Qed.

Lemma save_user_profile_missing r uid db :
  user_pk r = Some uid →
  existsb (pk_is uid) (users db) = true →
  existsb (fun p => Nat.eqb (profile_user p) uid) (profiles db) = false →
  save_user_profile r db
  = (with_profiles db (profiles db ++ [new_profile (profiles db) uid]), Ok tt).
Proof.
  intros Hpk Hu Hno. unfold save_user_profile, try_except.
  erewrite run_bind_Raise by (eapply User_profile_missing; eauto).
  simpl. erewrite run_bind_Ok by (eapply objects_create_profile_run; eauto).
  reflexivity.
Qed.

Lemma NoDup_snoc {A} (l : list A) (x : A) :
  NoDup l → ¬ In x l → NoDup (l ++ [x]).
Proof.
  intros Hl Hx. apply NoDup_app. split; [exact Hl|]. split.
  - intros y Hy Hyx. apply list_elem_of_In in Hy.
    apply list_elem_of_In in Hyx. destruct Hyx as [<- | []]. auto.
  - apply NoDup_singleton.
Qed.

Lemma not_in_map_of_existsb_false {A} (f : A → nat) (l : list A) k :
  existsb (fun y => Nat.eqb (f y) k) l = false → ¬ In k (map f l).
Proof.
  intros H Hin. apply in_map_iff in Hin as (y & Hy & Hin).
  assert (existsb (fun y => Nat.eqb (f y) k) l = true) as H'.
  { apply existsb_exists. exists y. split; [exact Hin|]. apply Nat.eqb_eq. exact Hy. }
  congruence.
Qed.

Lemma existsb_map_replace {A} (p : A → bool) (x' : A) l :
  p x' = true →
  existsb p (map (fun v => if p v then x' else v) l) = existsb p l.
Proof.
  intros Hx'. induction l as [|y l IH]; simpl; [reflexivity|].
  destruct (p y) eqn:E; simpl.
  - rewrite Hx'. reflexivity.
  - rewrite E. exact IH.
Qed.

(** The receivers of [post_save], run after an INSERT: the profile is
    created by the first and found by the second. *)
Lemma post_save_created r uid db :
  user_pk r = Some uid →
  existsb (pk_is uid) (users db) = true →
  NoDup (map profile_id (profiles db)) →
  NoDup (map profile_user (profiles db)) →
  existsb (fun p => Nat.eqb (profile_user p) uid) (profiles db) = false →
  (create_user_profile r true ≫= (fun _ => save_user_profile r ≫= (fun _ => mret r))) db
  = (with_profiles db (profiles db ++ [new_profile (profiles db) uid]), Ok r).
Proof.
  intros Hpk Hu Hid Hus Hno. unfold create_user_profile.
  erewrite run_bind_Ok; cycle 1.
  { erewrite run_bind_Ok by (eapply objects_create_profile_run; eauto).
    reflexivity. }
  erewrite run_bind_Ok; [reflexivity|].
  apply (save_user_profile_present r uid); simpl; auto.
  - rewrite List.map_app. apply NoDup_snoc; [exact Hid|]. simpl.
    apply fresh_id_not_in.
  - rewrite List.map_app. apply NoDup_snoc; [exact Hus|]. simpl.
    apply not_in_map_of_existsb_false. exact Hno.
  - rewrite existsb_app. simpl. rewrite Nat.eqb_refl. apply orb_true_r.
Qed.

(** The receivers of [post_save], run after an UPDATE: the profile is
    left alone when it exists and created when it is missing. *)
Lemma post_save_updated r uid db :
  user_pk r = Some uid →
  existsb (pk_is uid) (users db) = true →
  NoDup (map profile_id (profiles db)) →
  NoDup (map profile_user (profiles db)) →
  (create_user_profile r false ≫= (fun _ => save_user_profile r ≫= (fun _ => mret r))) db
  = (with_profiles db (profiles_after_save uid db), Ok r).
Proof.
  intros Hpk Hu Hid Hus. unfold create_user_profile, profiles_after_save.
  erewrite run_bind_Ok by reflexivity.
  destruct (existsb (fun p => Nat.eqb (profile_user p) uid) (profiles db)) eqn:E.
  - erewrite run_bind_Ok by (eapply save_user_profile_present; eauto).
    rewrite with_profiles_same. reflexivity.
  - erewrite run_bind_Ok by (eapply save_user_profile_missing; eauto).
    reflexivity.
Qed.

Lemma User_save_run u db :
  db_wf db →
  username_taken u (users db) = false →
  User_save u db
  = (with_profiles (with_users db (users_after_save u db))
                   (profiles_after_save (saved_pk u db) db),
     Ok (set_pk u (saved_pk u db))).
Proof.
  intros [_ _ Hid Hus Hfk _ _ _] Hname.
  unfold User_save. rewrite run_bind. unfold User_save_base. rewrite Hname.
  unfold users_after_save, saved_pk.
  destruct (user_pk u) as [id|] eqn:Hpk.
  - rewrite (set_pk_same u id Hpk).
    destruct (existsb (pk_is id) (users db)) eqn:Hex; cbn [fst snd].
    + rewrite (post_save_updated u id); simpl; auto.
      rewrite existsb_map_replace; [exact Hex | apply pk_is_spec; exact Hpk].
    + rewrite (post_save_created u id); simpl; auto.
      * unfold profiles_after_save.
        rewrite (no_profile_without_user id db Hfk Hex). reflexivity.
      * rewrite existsb_app. simpl.
        rewrite (proj2 (pk_is_spec id u) Hpk). apply orb_true_r.
      * apply (no_profile_without_user id db Hfk Hex).
  - rewrite fresh_pk_absent. cbn [fst snd].
    set (id := fresh_id (user_ids (users db))).
    rewrite (post_save_created (set_pk u id) id); simpl; auto.
    + unfold profiles_after_save.
      rewrite (no_profile_without_user id db Hfk (fresh_pk_absent _)). reflexivity.
    + rewrite existsb_app. simpl. unfold pk_is at 2. simpl.
      rewrite Nat.eqb_refl. apply orb_true_r.
    + apply (no_profile_without_user id db Hfk (fresh_pk_absent _)).
Qed.

Lemma existsb_false_filter_nil {A} (p : A → bool) l :
  existsb p l = false → List.filter p l = [].
Proof.
  intros H. apply (filter_nil_of_all_false p). intros y Hy.
  destruct (p y) eqn:E; [|reflexivity].
  assert (existsb p l = true) by (apply existsb_exists; eauto). congruence.
Qed.

(** After the receivers have run, the identity owns one profile row and
    the two unique columns of the table are still duplicate-free. *)
Lemma profiles_after_save_owner uid db :
  NoDup (map profile_id (profiles db)) →
  NoDup (map profile_user (profiles db)) →
  ∃ x, List.filter (fun p => Nat.eqb (profile_user p) uid) (profiles_after_save uid db) = [x]
       ∧ In x (profiles_after_save uid db)
       ∧ profile_user x = uid
       ∧ NoDup (map profile_id (profiles_after_save uid db))
       ∧ NoDup (map profile_user (profiles_after_save uid db)).
Proof.
  intros Hid Hus. unfold profiles_after_save.
  destruct (existsb _ (profiles db)) eqn:E.
  - apply existsb_exists in E as (x & Hin & Hx). apply Nat.eqb_eq in Hx.
    exists x. repeat split; auto.
    apply (filter_unique_key profile_user _ uid
             (fun y => Nat.eqb_eq (profile_user y) uid)); auto.
  - exists (new_profile (profiles db) uid). repeat split.
    + rewrite List.filter_app, (existsb_false_filter_nil _ _ E). simpl.
      rewrite Nat.eqb_refl. reflexivity.
    + apply in_or_app. right. left. reflexivity.
    + rewrite List.map_app. apply NoDup_snoc; [exact Hid|]. apply fresh_id_not_in.
    + rewrite List.map_app. apply NoDup_snoc; [exact Hus|].
      apply not_in_map_of_existsb_false. exact E.
Qed.

Lemma users_after_save_has u db :
  existsb (pk_is (saved_pk u db)) (users_after_save u db) = true.
Proof.
  unfold users_after_save.
  destruct (existsb (pk_is (saved_pk u db)) (users db)) eqn:E.
  - rewrite existsb_map_replace; [exact E|]. unfold pk_is. simpl. apply Nat.eqb_refl.
  - rewrite existsb_app. simpl. unfold pk_is at 2. simpl.
    rewrite Nat.eqb_refl. apply orb_true_r.
Qed.

(** ** C8: one profile per saved identity *)


Lemma db_alice_wf : db_wf db_alice.
Proof. constructor; simpl; compute_done. Qed.


(** A later save of an identity whose profile row has gone missing puts
    a fresh one back. *)
Example User_save_recreates_missing_profile :
  profiles (fst (User_save user_alice (with_profiles db_alice [])))
  = [new_profile [] 1].
Proof. reflexivity. Qed.

(** ** C9: registration survives a delivery failure *)

Lemma tokens_of_after_issue uid db l fresh now :
  tokens_of uid
    (with_tokens db
       (List.filter (fun t => negb (Nat.eqb (token_user t) uid)) (tokens db)
        ++ [new_token l uid fresh now]))
  = [new_token l uid fresh now].
Proof.
  unfold tokens_of. simpl. rewrite List.filter_app.
  rewrite (filter_complement_nil (fun t => Nat.eqb (token_user t) uid)).
  simpl. rewrite Nat.eqb_refl. reflexivity.
Qed.

(** [send_verification_email] never raises: its [except Exception]
    turns every failure into the value [False]. *)
Lemma send_verification_email_returns env fresh now request user db :
  ∃ sent, snd (send_verification_email env fresh now request user db) = Ok sent.
Proof.
  unfold send_verification_email, try_except.
  match goal with |- context [match ?m db with _ => _ end] => destruct (m db) as [db' [b|e]] end;
    simpl; eauto.
Qed.

Lemma username_free_not_taken (u : User) (us : list User) :
  (∀ v, In v us → username v ≠ username u) → username_taken u us = false.
Proof.
  intros H. unfold username_taken.
  destruct (existsb _ us) eqn:E; [|reflexivity].
  apply existsb_exists in E as (v & Hin & Hc).
  apply andb_true_iff in Hc as [Hn _]. apply String.eqb_eq in Hn.
  exfalso. exact (H v Hin Hn).
Qed.

(** C9: a POST whose form validates, for a user name no stored identity
    has, makes [register_view] answer with the redirect to the
    verification-sent page whatever the collaborators do (in particular
    when [send_mail] raises); the store then holds the new identity
    with [is_active = false] and exactly one token of that identity,
    the one just issued. *)
Theorem register_view_absorbs_delivery_failure env fresh now request db :
  db_wf db →
  method request = "POST" →
  form_is_valid env db (POST request) = true →
  (∀ v, In v (users db) → username v ≠ cleaned_data env (POST request) "username") →
  ∃ db' u t,
    register_view env fresh now request db
      = (db', Ok (Redirect "accounts:verification_sent"))
    ∧ u = registered_user env (POST request) (fresh_id (user_ids (users db)))
    ∧ In u (users db') ∧ is_active u = false
    ∧ tokens_of (fresh_id (user_ids (users db))) db' = [t]
    ∧ token t = fresh ∧ created_at t = now.
Proof.
  intros Hwf Hm Hvalid Hfree.
  set (uid := fresh_id (user_ids (users db))).
  set (nu := {| user_pk := None;
                username := cleaned_data env (POST request) "username";
                email := cleaned_data env (POST request) "email";
                password := make_password env (cleaned_data env (POST request) "password1");
                is_active := false |}).
  assert (username_taken nu (users db) = false) as Hname
    by (apply username_free_not_taken; exact Hfree).
  pose proof (User_save_run nu db Hwf Hname) as Hsave.
  change (saved_pk nu db) with uid in Hsave.
  change (set_pk nu uid) with (registered_user env (POST request) uid) in Hsave.
  set (db1 := with_profiles (with_users db (users_after_save nu db))
                            (profiles_after_save uid db)) in Hsave.
  set (u := registered_user env (POST request) uid) in *.
  assert (users db1 = (users db ++ [u])%list) as Husers.
  { unfold db1, users_after_save. simpl.
    change (saved_pk nu db) with uid. unfold uid at 1.
    rewrite fresh_pk_absent. reflexivity. }
  assert (existsb (pk_is uid) (users db1) = true) as Hstored.
  { rewrite Husers, existsb_app. simpl. unfold pk_is at 2. simpl.
    rewrite Nat.eqb_refl. apply orb_true_r. }
  pose proof (send_verification_email_db env fresh now request u uid db1
                eq_refl Hstored) as Hdb.
  destruct (send_verification_email_returns env fresh now request u db1) as [sent Hsent].
  eexists _, u, _.
  split; [|split; [reflexivity|]].
  - unfold register_view. rewrite Hm, String.eqb_refl. cbv beta.
    rewrite Hvalid.
    change (set_is_active (set_password _ _) false) with nu.
    rewrite (run_bind_Ok _ _ _ _ _ Hsave).
    rewrite run_bind.
    destruct (send_verification_email env fresh now request u db1) as [db2 [b|e]];
      simpl in Hsent, Hdb; [|discriminate].
    rewrite Hdb. reflexivity.
  - split; [|split; [reflexivity|]].
    + change (In u (users db1)). rewrite Husers.
      apply in_or_app. right. left. reflexivity.
    + split; [exact (tokens_of_after_issue uid db1 _ fresh now) | split; reflexivity].
Qed.

Lemma register_view_absorbs_delivery_failure_witness :
  ∃ db' u t,
    register_view env_mail_down 7%N 100%Z register_carol db_alice
      = (db', Ok (Redirect "accounts:verification_sent"))
    ∧ u = registered_user env_mail_down (POST register_carol)
            (fresh_id (user_ids (users db_alice)))
    ∧ In u (users db') ∧ is_active u = false
    ∧ tokens_of (fresh_id (user_ids (users db_alice))) db' = [t]
    ∧ token t = 7%N ∧ created_at t = 100%Z.
Proof.
  apply (register_view_absorbs_delivery_failure env_mail_down 7%N 100%Z
           register_carol db_alice).
  - exact db_alice_wf.
  - reflexivity.
  - reflexivity.
  - intros v [<- | []]. vm_compute. discriminate.
Defined.

(** With the mail collaborator down, [send_verification_email] answers
    [False] and the token it created stays in the store. *)
Example send_verification_email_mail_down :
  snd (send_verification_email env_mail_down 7%N 100%Z anonymous_get
         user_alice db_alice) = Ok false
  ∧ map token (tokens (fst (send_verification_email env_mail_down 7%N 100%Z
                              anonymous_get user_alice db_alice))) = [7%N].
Proof. split; reflexivity. Qed.

(** ** C1: consuming a valid token *)

Lemma token_get_unique t db :
  NoDup (map token (tokens db)) → In t (tokens db) →
  EmailVerificationToken_objects_get (token t) db = (db, Ok t).
Proof.
  intros Hnd Hin. unfold EmailVerificationToken_objects_get, objects_get.
  rewrite (filter_unique_key token _ (token t)
             (fun y => N.eqb_eq (token y) (token t)) _ t Hnd Hin eq_refl).
  reflexivity.
Qed.

Lemma token_get_absent value db :
  (∀ s, In s (tokens db) → token s ≠ value) →
  EmailVerificationToken_objects_get value db
  = (db, Raise (DoesNotExist EmailVerificationTokenModel)).
Proof.
  intros H. unfold EmailVerificationToken_objects_get.
  rewrite objects_get_none; [reflexivity|].
  intros s Hs. apply N.eqb_neq. apply H. exact Hs.
Qed.

Lemma verify_email_absent now request value db :
  (∀ s, In s (tokens db) → token s ≠ value) →
  verify_email now request value db
  = (db, Ok (Render "accounts/email/email_verification_invalid.html" [])).
Proof.
  intros H. unfold verify_email, try_except.
  erewrite run_bind_Raise by (apply token_get_absent; exact H).
  reflexivity.
Qed.

Lemma token_user_run t db :
  db_wf db → In t (tokens db) →
  ∃ u, In u (users db) ∧ user_pk u = Some (token_user t)
       ∧ EmailVerificationToken_user t db = (db, Ok u).
Proof.
  intros [Hpk _ _ _ _ _ _ Hfk] Hin.
  rewrite List.Forall_forall in Hfk. apply Hfk in Hin.
  apply existsb_exists in Hin as (u & Hu & Hp). apply pk_is_spec in Hp.
  exists u. split; [exact Hu|]. split; [exact Hp|].
  unfold EmailVerificationToken_user, objects_get.
  rewrite (filter_unique_key user_pk _ (Some (token_user t))
             (pk_is_spec (token_user t)) _ u Hpk Hu Hp).
  reflexivity.
Qed.

Lemma username_taken_stored (u u' : User) uid (us : list User) :
  NoDup (map username us) → In u us →
  user_pk u = Some uid → user_pk u' = Some uid → username u' = username u →
  username_taken u' us = false.
Proof.
  intros Hnd Hin Hpk Hpk' Hname. unfold username_taken.
  destruct (existsb _ us) eqn:E; [|reflexivity].
  apply existsb_exists in E as (v & Hv & Hc).
  apply andb_true_iff in Hc as [Hn Hk]. apply String.eqb_eq in Hn.
  assert (List.filter (fun y => String.eqb (username y) (username u)) us = [u]) as Hf
    by (apply (filter_unique_key username _ (username u)
                 (fun y => String.eqb_eq (username y) (username u))); auto).
  assert (In v [u]) as Hvu.
  { rewrite <- Hf. apply filter_In. split; [exact Hv|].
    apply String.eqb_eq. congruence. }
  destruct Hvu as [<- | []].
  rewrite Hpk', Hpk, Nat.eqb_refl in Hk. discriminate.
Qed.

Lemma token_delete_run t db :
  EmailVerificationToken_delete t db
  = (with_tokens db
       (List.filter (fun s => negb (Nat.eqb (token_id s) (token_id t))) (tokens db)),
     Ok tt).
Proof. reflexivity. Qed.

(** C1: for a stored token whose value no other stored token carries
    and which is valid at the clock reading, [verify_email] renders the
    verified page; afterwards the owning identity is active, its profile
    is verified, no stored token carries the value, and presenting the
    value again finds no token ([DoesNotExist]) and renders the invalid
    page. *)
Theorem verify_email_consumes_valid_token now request t db :
  db_wf db →
  NoDup (map token (tokens db)) →
  In t (tokens db) →
  is_valid t now = true →
  ∃ db',
    verify_email now request (token t) db
      = (db', Ok (Render "accounts/email/email_verified.html" []))
    ∧ (∃ u, In u (users db') ∧ user_pk u = Some (token_user t))
    ∧ (∀ u, In u (users db') → user_pk u = Some (token_user t) → is_active u = true)
    ∧ (∃ p, In p (profiles db') ∧ profile_user p = token_user t)
    ∧ (∀ p, In p (profiles db') → profile_user p = token_user t → verified p = true)
    ∧ (∀ s, In s (tokens db') → token s ≠ token t)
    ∧ (∀ now2 request2,
         EmailVerificationToken_objects_get (token t) db'
           = (db', Raise (DoesNotExist EmailVerificationTokenModel))
         ∧ verify_email now2 request2 (token t) db'
           = (db', Ok (Render "accounts/email/email_verification_invalid.html" []))).
Proof.
  intros Hwf Hvalues Hin Hvalid.
  set (uid := token_user t).
  destruct (token_user_run t db Hwf Hin) as (u & Hu & Hpk & Huser).
  fold uid in Hpk.
  set (u' := set_is_active u true).
  assert (user_pk u' = Some uid) as Hpk' by exact Hpk.
  assert (username_taken u' (users db) = false) as Hname.
  { destruct Hwf as [_ Hun _ _ _ _ _ _].
    apply (username_taken_stored u u' uid); auto. }
  pose proof (User_save_run u' db Hwf Hname) as Hsave.
  assert (saved_pk u' db = uid) as Hspk by (unfold saved_pk; rewrite Hpk'; reflexivity).
  rewrite Hspk, (set_pk_same u' uid Hpk') in Hsave.
  assert (users_after_save u' db
          = map (fun v => if pk_is uid v then u' else v) (users db)) as Husers.
  { unfold users_after_save. rewrite Hspk, (set_pk_same u' uid Hpk').
    assert (existsb (pk_is uid) (users db) = true) as ->; [|reflexivity].
    apply existsb_exists. exists u. split; [exact Hu|].
    apply pk_is_spec. exact Hpk. }
  rewrite Husers in Hsave.
  set (db1 := with_profiles
                (with_users db (map (fun v => if pk_is uid v then u' else v) (users db)))
                (profiles_after_save uid db)) in *.
  destruct Hwf as [_ _ Hid Hus _ _ _ _].
  destruct (profiles_after_save_owner uid db Hid Hus)
    as (x & Hfx & Hx & Hxu & Hid1 & Hus1).
  set (x' := set_verified x true).
  set (g := fun q => if Nat.eqb (profile_id q) (profile_id x') then x' else q).
  set (db2 := with_profiles db1 (map g (profiles_after_save uid db))).
  set (db3 := with_tokens db2
                (List.filter (fun s => negb (Nat.eqb (token_id s) (token_id t)))
                             (tokens db))).
  assert (∀ s, In s (tokens db3) → token s ≠ token t) as Hgone.
  { intros s Hs Heq. simpl in Hs. apply filter_In in Hs as [Hs Hne].
    assert (List.filter (fun y => N.eqb (token y) (token t)) (tokens db) = [t]) as Hf
      by (apply (filter_unique_key token _ (token t)
                   (fun y => N.eqb_eq (token y) (token t))); auto).
    assert (In s [t]) as Hst.
    { rewrite <- Hf. apply filter_In. split; [exact Hs|]. apply N.eqb_eq. exact Heq. }
    destruct Hst as [<- | []]. rewrite Nat.eqb_refl in Hne. discriminate. }
  exists db3. split; [|split; [|split; [|split; [|split; [|split]]]]].
  - unfold verify_email, try_except.
    erewrite run_bind_Ok by (apply token_get_unique; assumption).
    rewrite Hvalid.
    erewrite run_bind_Ok by exact Huser.
    erewrite run_bind_Ok by exact Hsave.
    erewrite run_bind_Ok by (apply (User_profile_present u' uid db1 x); auto).
    erewrite run_bind_Ok
      by (apply (UserProfile_save_update_run x x' db1); auto).
    erewrite run_bind_Ok by apply token_delete_run.
    reflexivity.
  - exists u'. split; [|exact Hpk'].
    change (In u' (map (fun v => if pk_is uid v then u' else v) (users db))).
    apply in_map_iff. exists u. split; [|exact Hu].
    rewrite (proj2 (pk_is_spec uid u) Hpk). reflexivity.
  - intros v Hv Hvk.
    change (In v (map (fun v => if pk_is uid v then u' else v) (users db))) in Hv.
    apply in_map_iff in Hv as (q & Hq & _).
    destruct (pk_is uid q) eqn:E.
    + subst v. reflexivity.
    + subst v. apply pk_is_spec in Hvk. congruence.
  - exists x'. split; [|exact Hxu].
    change (In x' (map g (profiles_after_save uid db))).
    apply in_map_iff. exists x. split; [|exact Hx].
    unfold g. simpl. rewrite Nat.eqb_refl. reflexivity.
  - intros p Hp Hpu.
    change (In p (map g (profiles_after_save uid db))) in Hp.
    apply in_map_iff in Hp as (q & Hq & Hqin). unfold g in Hq.
    destruct (Nat.eqb (profile_id q) (profile_id x')) eqn:E.
    + subst p. reflexivity.
    + subst p. assert (In q [x]) as Hqx.
      { rewrite <- Hfx. apply filter_In. split; [exact Hqin|].
        apply Nat.eqb_eq. exact Hpu. }
      destruct Hqx as [<- | []]. simpl in E. rewrite Nat.eqb_refl in E. discriminate.
  - exact Hgone.
  - intros now2 request2. split.
    + apply token_get_absent. exact Hgone.
    + apply verify_email_absent. exact Hgone.
Qed.

Lemma verify_email_consumes_valid_token_witness :
  ∃ db',
    verify_email (timedelta_hours 1) anonymous_get (token (token_at 0%Z)) db_alice
      = (db', Ok (Render "accounts/email/email_verified.html" []))
    ∧ (∃ u, In u (users db') ∧ user_pk u = Some (token_user (token_at 0%Z)))
    ∧ (∀ u, In u (users db') → user_pk u = Some (token_user (token_at 0%Z)) →
            is_active u = true)
    ∧ (∃ p, In p (profiles db') ∧ profile_user p = token_user (token_at 0%Z))
    ∧ (∀ p, In p (profiles db') → profile_user p = token_user (token_at 0%Z) →
            verified p = true)
    ∧ (∀ s, In s (tokens db') → token s ≠ token (token_at 0%Z))
    ∧ (∀ now2 request2,
         EmailVerificationToken_objects_get (token (token_at 0%Z)) db'
           = (db', Raise (DoesNotExist EmailVerificationTokenModel))
         ∧ verify_email now2 request2 (token (token_at 0%Z)) db'
           = (db', Ok (Render "accounts/email/email_verification_invalid.html" []))).
Proof.
  apply (verify_email_consumes_valid_token (timedelta_hours 1) anonymous_get
           (token_at 0%Z) db_alice).
  - exact db_alice_wf.
  - simpl. compute_done.
  - left. reflexivity.
  - reflexivity.
Defined.

(** ** C6 and C7: the favourite toggles *)

Lemma with_favourite_products_back db s :
  with_favourite_products (with_favourite_products db s) (favourite_products db) = db.
Proof. destruct db; reflexivity. Qed.

Lemma with_saved_prompts_back db s :
  with_saved_prompts (with_saved_prompts db s) (saved_prompts db) = db.
Proof. destruct db; reflexivity. Qed.

Lemma with_saved_templates_back db s :
  with_saved_templates (with_saved_templates db s) (saved_templates db) = db.
Proof. destruct db; reflexivity. Qed.

Lemma remove_then_add (s : gset (nat * nat)) x :
  x ∈ s → (s ∖ {[x]}) ∪ {[x]} = s.
Proof.
  intros Hx. apply set_eq. intros y.
  rewrite elem_of_union, elem_of_difference, elem_of_singleton.
  destruct (decide (y = x)) as [-> | Hne]; tauto.
Qed.

Lemma add_then_remove (s : gset (nat * nat)) x :
  x ∉ s → (s ∪ {[x]}) ∖ {[x]} = s.
Proof.
  intros Hx. apply set_eq. intros y.
  rewrite elem_of_difference, elem_of_union, elem_of_singleton.
  destruct (decide (y = x)) as [-> | Hne]; tauto.
Qed.

Lemma not_elem_after_remove (s : gset (nat * nat)) x : x ∉ s ∖ {[x]}.
Proof. rewrite elem_of_difference, elem_of_singleton. tauto. Qed.

Lemma elem_after_add (s : gset (nat * nat)) x : x ∈ s ∪ {[x]}.
Proof. rewrite elem_of_union, elem_of_singleton. tauto. Qed.

Lemma User_profile_frame user db db' :
  profiles db' = profiles db →
  User_profile user db' = (db', snd (User_profile user db)).
Proof.
  intros H. unfold User_profile. rewrite H.
  destruct (user_pk user); [|reflexivity].
  destruct (objects_get _ _ (profiles db)) as [p|[]]; reflexivity.
Qed.

Lemma User_profile_run user db :
  User_profile user db = (db, snd (User_profile user db)).
Proof. apply User_profile_frame. reflexivity. Qed.

Lemma get_object_or_404_run {A} m (p : A → bool) table db a :
  objects_get m p (table db) = Ok a →
  get_object_or_404 m p table db = (db, Ok a).
Proof. intros H. unfold get_object_or_404. rewrite H. reflexivity. Qed.

Ltac toggle_run Huser Hprof Hitem :=
  rewrite Huser;
  erewrite run_bind_Ok by (apply get_object_or_404_run; exact Hitem);
  erewrite run_bind_Ok by (rewrite User_profile_run, Hprof; reflexivity);
  rewrite run_bind; unfold m2m_contains;
  match goal with |- context [bool_decide ?P] => destruct (bool_decide P) end;
  simpl; destruct (is_xhr _); reflexivity.

Lemma add_favourite_product_run request slug db user prof product :
  req_user request = Some user →
  snd (User_profile user db) = Ok prof →
  objects_get ProductModel (fun p => String.eqb (product_slug p) slug) (products db)
    = Ok product →
  add_favourite_product request slug db
  = if bool_decide ((profile_id prof, product_id product) ∈ favourite_products db)
    then (with_favourite_products db
            (favourite_products db ∖ {[ (profile_id prof, product_id product) ]}),
          Ok (product_reply request false))
    else (with_favourite_products db
            (favourite_products db ∪ {[ (profile_id prof, product_id product) ]}),
          Ok (product_reply request true)).
Proof.
  intros Huser Hprof Hitem. unfold add_favourite_product, product_reply.
  toggle_run Huser Hprof Hitem.
Qed.

Lemma add_favourite_prompt_run request id db user prof prompt :
  req_user request = Some user →
  snd (User_profile user db) = Ok prof →
  objects_get PromptModel (fun p => Nat.eqb (prompt_id p) id) (prompts db) = Ok prompt →
  add_favourite_prompt request id db
  = if bool_decide ((profile_id prof, prompt_id prompt) ∈ saved_prompts db)
    then (with_saved_prompts db
            (saved_prompts db ∖ {[ (profile_id prof, prompt_id prompt) ]}),
          Ok (prompt_reply request false))
    else (with_saved_prompts db
            (saved_prompts db ∪ {[ (profile_id prof, prompt_id prompt) ]}),
          Ok (prompt_reply request true)).
Proof.
  intros Huser Hprof Hitem. unfold add_favourite_prompt, prompt_reply.
  toggle_run Huser Hprof Hitem.
Qed.

Lemma add_favourite_template_run request slug db user prof template :
  req_user request = Some user →
  snd (User_profile user db) = Ok prof →
  objects_get PromptTemplateModel (fun t => String.eqb (template_slug t) slug)
    (templates db) = Ok template →
  add_favourite_template request slug db
  = if bool_decide ((profile_id prof, template_id template) ∈ saved_templates db)
    then (with_saved_templates db
            (saved_templates db ∖ {[ (profile_id prof, template_id template) ]}),
          Ok (template_reply request false))
    else (with_saved_templates db
            (saved_templates db ∪ {[ (profile_id prof, template_id template) ]}),
          Ok (template_reply request true)).
Proof.
  intros Huser Hprof Hitem. unfold add_favourite_template, template_reply.
  toggle_run Huser Hprof Hitem.
Qed.

Lemma add_favourite_product_twice request slug db user prof product :
  req_user request = Some user →
  snd (User_profile user db) = Ok prof →
  objects_get ProductModel (fun p => String.eqb (product_slug p) slug) (products db)
    = Ok product →
  ∃ db1,
    add_favourite_product request slug db
      = (db1, Ok (product_reply request
                    (negb (bool_decide ((profile_id prof, product_id product)
                                        ∈ favourite_products db)))))
    ∧ bool_decide ((profile_id prof, product_id product) ∈ favourite_products db1)
      = negb (bool_decide ((profile_id prof, product_id product) ∈ favourite_products db))
    ∧ add_favourite_product request slug db1
      = (db, Ok (product_reply request
                   (bool_decide ((profile_id prof, product_id product)
                                 ∈ favourite_products db)))).
Proof.
  intros Huser Hprof Hitem.
  rewrite (add_favourite_product_run _ _ _ _ _ _ Huser Hprof Hitem).
  set (x := (profile_id prof, product_id product)).
  destruct (decide (x ∈ favourite_products db)) as [Hin | Hout].
  - rewrite (bool_decide_eq_true_2 _ Hin). eexists. split; [reflexivity|].
    assert (x ∉ favourite_products db ∖ {[x]}) as Hgone by apply not_elem_after_remove.
    split; [apply bool_decide_eq_false_2; exact Hgone|].
    erewrite add_favourite_product_run;
      [| exact Huser | rewrite (User_profile_frame user db) by reflexivity; exact Hprof
       | exact Hitem].
    fold x. simpl favourite_products.
    rewrite (bool_decide_eq_false_2 _ Hgone), (remove_then_add _ _ Hin).
    rewrite with_favourite_products_back. reflexivity.
  - rewrite (bool_decide_eq_false_2 _ Hout). eexists. split; [reflexivity|].
    assert (x ∈ favourite_products db ∪ {[x]}) as Hnow by apply elem_after_add.
    split; [apply bool_decide_eq_true_2; exact Hnow|].
    erewrite add_favourite_product_run;
      [| exact Huser | rewrite (User_profile_frame user db) by reflexivity; exact Hprof
       | exact Hitem].
    fold x. simpl favourite_products.
    rewrite (bool_decide_eq_true_2 _ Hnow), (add_then_remove _ _ Hout).
    rewrite with_favourite_products_back. reflexivity.
Qed.

Lemma add_favourite_prompt_twice request id db user prof prompt :
  req_user request = Some user →
  snd (User_profile user db) = Ok prof →
  objects_get PromptModel (fun p => Nat.eqb (prompt_id p) id) (prompts db) = Ok prompt →
  ∃ db1,
    add_favourite_prompt request id db
      = (db1, Ok (prompt_reply request
                    (negb (bool_decide ((profile_id prof, prompt_id prompt)
                                        ∈ saved_prompts db)))))
    ∧ bool_decide ((profile_id prof, prompt_id prompt) ∈ saved_prompts db1)
      = negb (bool_decide ((profile_id prof, prompt_id prompt) ∈ saved_prompts db))
    ∧ add_favourite_prompt request id db1
      = (db, Ok (prompt_reply request
                   (bool_decide ((profile_id prof, prompt_id prompt)
                                 ∈ saved_prompts db)))).
Proof.
  intros Huser Hprof Hitem.
  rewrite (add_favourite_prompt_run _ _ _ _ _ _ Huser Hprof Hitem).
  set (x := (profile_id prof, prompt_id prompt)).
  destruct (decide (x ∈ saved_prompts db)) as [Hin | Hout].
  - rewrite (bool_decide_eq_true_2 _ Hin). eexists. split; [reflexivity|].
    assert (x ∉ saved_prompts db ∖ {[x]}) as Hgone by apply not_elem_after_remove.
    split; [apply bool_decide_eq_false_2; exact Hgone|].
    erewrite add_favourite_prompt_run;
      [| exact Huser | rewrite (User_profile_frame user db) by reflexivity; exact Hprof
       | exact Hitem].
    fold x. simpl saved_prompts.
    rewrite (bool_decide_eq_false_2 _ Hgone), (remove_then_add _ _ Hin).
    rewrite with_saved_prompts_back. reflexivity.
  - rewrite (bool_decide_eq_false_2 _ Hout). eexists. split; [reflexivity|].
    assert (x ∈ saved_prompts db ∪ {[x]}) as Hnow by apply elem_after_add.
    split; [apply bool_decide_eq_true_2; exact Hnow|].
    erewrite add_favourite_prompt_run;
      [| exact Huser | rewrite (User_profile_frame user db) by reflexivity; exact Hprof
       | exact Hitem].
    fold x. simpl saved_prompts.
    rewrite (bool_decide_eq_true_2 _ Hnow), (add_then_remove _ _ Hout).
    rewrite with_saved_prompts_back. reflexivity.
Qed.

Lemma add_favourite_template_twice request slug db user prof template :
  req_user request = Some user →
  snd (User_profile user db) = Ok prof →
  objects_get PromptTemplateModel (fun t => String.eqb (template_slug t) slug)
    (templates db) = Ok template →
  ∃ db1,
    add_favourite_template request slug db
      = (db1, Ok (template_reply request
                    (negb (bool_decide ((profile_id prof, template_id template)
                                        ∈ saved_templates db)))))
    ∧ bool_decide ((profile_id prof, template_id template) ∈ saved_templates db1)
      = negb (bool_decide ((profile_id prof, template_id template) ∈ saved_templates db))
    ∧ add_favourite_template request slug db1
      = (db, Ok (template_reply request
                   (bool_decide ((profile_id prof, template_id template)
                                 ∈ saved_templates db)))).
Proof.
  intros Huser Hprof Hitem.
  rewrite (add_favourite_template_run _ _ _ _ _ _ Huser Hprof Hitem).
  set (x := (profile_id prof, template_id template)).
  destruct (decide (x ∈ saved_templates db)) as [Hin | Hout].
  - rewrite (bool_decide_eq_true_2 _ Hin). eexists. split; [reflexivity|].
    assert (x ∉ saved_templates db ∖ {[x]}) as Hgone by apply not_elem_after_remove.
    split; [apply bool_decide_eq_false_2; exact Hgone|].
    erewrite add_favourite_template_run;
      [| exact Huser | rewrite (User_profile_frame user db) by reflexivity; exact Hprof
       | exact Hitem].
    fold x. simpl saved_templates.
    rewrite (bool_decide_eq_false_2 _ Hgone), (remove_then_add _ _ Hin).
    rewrite with_saved_templates_back. reflexivity.
  - rewrite (bool_decide_eq_false_2 _ Hout). eexists. split; [reflexivity|].
    assert (x ∈ saved_templates db ∪ {[x]}) as Hnow by apply elem_after_add.
    split; [apply bool_decide_eq_true_2; exact Hnow|].
    erewrite add_favourite_template_run;
      [| exact Huser | rewrite (User_profile_frame user db) by reflexivity; exact Hprof
       | exact Hitem].
    fold x. simpl saved_templates.
    rewrite (bool_decide_eq_true_2 _ Hnow), (add_then_remove _ _ Hout).
    rewrite with_saved_templates_back. reflexivity.
Qed.

(** C6: for a signed-in identity with a profile and any catalog item
    that resolves (a product by slug, a prompt by id, a template by
    slug), two toggles in a row bring the store, hence the membership
    set, back to what it was.  The first call reports the state opposite
    to the initial membership and the second reports the initial one:
    added then removed (saved then removed) when the item was absent,
    removed then added (removed then saved) when it was present. *)
Theorem toggle_twice_restores_membership request db user prof :
  req_user request = Some user →
  snd (User_profile user db) = Ok prof →
  (∀ slug product,
     objects_get ProductModel (fun p => String.eqb (product_slug p) slug) (products db)
       = Ok product →
     ∃ db1,
       add_favourite_product request slug db
         = (db1, Ok (product_reply request
                       (negb (bool_decide ((profile_id prof, product_id product)
                                           ∈ favourite_products db)))))
       ∧ bool_decide ((profile_id prof, product_id product) ∈ favourite_products db1)
         = negb (bool_decide ((profile_id prof, product_id product)
                              ∈ favourite_products db))
       ∧ add_favourite_product request slug db1
         = (db, Ok (product_reply request
                      (bool_decide ((profile_id prof, product_id product)
                                    ∈ favourite_products db)))))
  ∧ (∀ id prompt,
       objects_get PromptModel (fun p => Nat.eqb (prompt_id p) id) (prompts db)
         = Ok prompt →
       ∃ db1,
         add_favourite_prompt request id db
           = (db1, Ok (prompt_reply request
                         (negb (bool_decide ((profile_id prof, prompt_id prompt)
                                             ∈ saved_prompts db)))))
         ∧ bool_decide ((profile_id prof, prompt_id prompt) ∈ saved_prompts db1)
           = negb (bool_decide ((profile_id prof, prompt_id prompt) ∈ saved_prompts db))
         ∧ add_favourite_prompt request id db1
           = (db, Ok (prompt_reply request
                        (bool_decide ((profile_id prof, prompt_id prompt)
                                      ∈ saved_prompts db)))))
  ∧ (∀ slug template,
       objects_get PromptTemplateModel (fun t => String.eqb (template_slug t) slug)
         (templates db) = Ok template →
       ∃ db1,
         add_favourite_template request slug db
           = (db1, Ok (template_reply request
                         (negb (bool_decide ((profile_id prof, template_id template)
                                             ∈ saved_templates db)))))
         ∧ bool_decide ((profile_id prof, template_id template) ∈ saved_templates db1)
           = negb (bool_decide ((profile_id prof, template_id template)
                                ∈ saved_templates db))
         ∧ add_favourite_template request slug db1
           = (db, Ok (template_reply request
                        (bool_decide ((profile_id prof, template_id template)
                                      ∈ saved_templates db))))).
Proof.
  intros Huser Hprof. split; [|split].
  - intros slug product Hitem. eapply add_favourite_product_twice; eauto.
  - intros id prompt Hitem. eapply add_favourite_prompt_twice; eauto.
  - intros slug template Hitem. eapply add_favourite_template_twice; eauto.
Qed.

Lemma toggle_twice_restores_membership_witness :
  (∃ db1,
     add_favourite_product xhr_alice "ebook" db_shop
       = (db1, Ok (product_reply xhr_alice true))
     ∧ bool_decide ((1, 10) ∈ favourite_products db1) = true
     ∧ add_favourite_product xhr_alice "ebook" db1
       = (db_shop, Ok (product_reply xhr_alice false)))
  ∧ (∃ db1,
       add_favourite_prompt xhr_alice 20 db_shop
         = (db1, Ok (prompt_reply xhr_alice true))
       ∧ bool_decide ((1, 20) ∈ saved_prompts db1) = true
       ∧ add_favourite_prompt xhr_alice 20 db1
         = (db_shop, Ok (prompt_reply xhr_alice false)))
  ∧ (∃ db1,
       add_favourite_template xhr_alice "launch" db_shop
         = (db1, Ok (template_reply xhr_alice true))
       ∧ bool_decide ((1, 30) ∈ saved_templates db1) = true
       ∧ add_favourite_template xhr_alice "launch" db1
         = (db_shop, Ok (template_reply xhr_alice false))).
Proof.
  destruct (toggle_twice_restores_membership xhr_alice db_shop user_alice
              profile_alice eq_refl eq_refl) as (Hproduct & Hprompt & Htemplate).
  split; [|split].
  - exact (Hproduct "ebook" {| product_id := 10; product_slug := "ebook" |} eq_refl).
  - exact (Hprompt 20 {| prompt_id := 20 |} eq_refl).
  - exact (Htemplate "launch" {| template_id := 30; template_slug := "launch" |} eq_refl).
Defined.

(** C7, as the specification words it, fails for the product endpoint:
    its JSON body carries [status = "success"], which is none of
    "added", "removed" and "saved". *)
Lemma product_toggle_status_counterexample :
  ¬ (∃ db' r s,
       add_favourite_product xhr_alice "ebook" db_shop = (db', Ok r)
       ∧ json_status (fst r) = Some (JStr s)
       ∧ (s = "added" ∨ s = "removed" ∨ s = "saved")).
Proof.
  intros (db' & r & s & Hrun & Hs & Hc).
  vm_compute in Hrun. injection Hrun as _ <-.
  vm_compute in Hs. injection Hs as <-.
  destruct Hc as [Hc | [Hc | Hc]]; discriminate Hc.
Qed.

(** C7 (amended): with the XHR marker header, the prompt and the
    template endpoint answer a JSON body whose [status] is "saved" when
    the call added the item and "removed" when it removed it; the
    product endpoint answers [status = "success"] together with
    [is_favourite], the membership after the call.  In each case the
    membership after the call is the opposite of the one before. *)
Theorem toggle_xhr_json_reports_transition request db user prof :
  req_user request = Some user →
  snd (User_profile user db) = Ok prof →
  is_xhr request = true →
  (∀ slug product,
     objects_get ProductModel (fun p => String.eqb (product_slug p) slug) (products db)
       = Ok product →
     ∃ db' msgs,
       add_favourite_product request slug db
         = (db', Ok (JsonResponse
                       [("status", JStr "success");
                        ("is_favourite",
                         JBool (bool_decide ((profile_id prof, product_id product)
                                             ∈ favourite_products db')))],
                     msgs))
       ∧ bool_decide ((profile_id prof, product_id product) ∈ favourite_products db')
         = negb (bool_decide ((profile_id prof, product_id product)
                              ∈ favourite_products db)))
  ∧ (∀ id prompt,
       objects_get PromptModel (fun p => Nat.eqb (prompt_id p) id) (prompts db)
         = Ok prompt →
       ∃ db' msgs,
         add_favourite_prompt request id db
           = (db', Ok (JsonResponse
                         [("status",
                           JStr (if bool_decide ((profile_id prof, prompt_id prompt)
                                                 ∈ saved_prompts db')
                                 then "saved" else "removed"))],
                       msgs))
         ∧ bool_decide ((profile_id prof, prompt_id prompt) ∈ saved_prompts db')
           = negb (bool_decide ((profile_id prof, prompt_id prompt) ∈ saved_prompts db)))
  ∧ (∀ slug template,
       objects_get PromptTemplateModel (fun t => String.eqb (template_slug t) slug)
         (templates db) = Ok template →
       ∃ db' msgs,
         add_favourite_template request slug db
           = (db', Ok (JsonResponse
                         [("status",
                           JStr (if bool_decide ((profile_id prof, template_id template)
                                                 ∈ saved_templates db')
                                 then "saved" else "removed"))],
                       msgs))
         ∧ bool_decide ((profile_id prof, template_id template) ∈ saved_templates db')
           = negb (bool_decide ((profile_id prof, template_id template)
                                ∈ saved_templates db))).
Proof.
  intros Huser Hprof Hxhr. split; [|split].
  - intros slug product Hitem.
    destruct (add_favourite_product_twice _ _ _ _ _ _ Huser Hprof Hitem)
      as (db1 & Hrun & Hmem & _).
    exists db1. eexists. rewrite Hmem. split; [|reflexivity].
    rewrite Hrun. unfold product_reply. rewrite Hxhr. reflexivity.
  - intros id prompt Hitem.
    destruct (add_favourite_prompt_twice _ _ _ _ _ _ Huser Hprof Hitem)
      as (db1 & Hrun & Hmem & _).
    exists db1. eexists. rewrite Hmem. split; [|reflexivity].
    rewrite Hrun. unfold prompt_reply. rewrite Hxhr. reflexivity.
  - intros slug template Hitem.
    destruct (add_favourite_template_twice _ _ _ _ _ _ Huser Hprof Hitem)
      as (db1 & Hrun & Hmem & _).
    exists db1. eexists. rewrite Hmem. split; [|reflexivity].
    rewrite Hrun. unfold template_reply. rewrite Hxhr. reflexivity.
Qed.

Lemma toggle_xhr_json_reports_transition_witness :
  (∃ db' msgs,
     add_favourite_product xhr_alice "ebook" db_shop
       = (db', Ok (JsonResponse
                     [("status", JStr "success");
                      ("is_favourite",
                       JBool (bool_decide ((1, 10) ∈ favourite_products db')))],
                   msgs))
     ∧ bool_decide ((1, 10) ∈ favourite_products db') = true)
  ∧ (∃ db' msgs,
       add_favourite_prompt xhr_alice 20 db_shop
         = (db', Ok (JsonResponse
                       [("status",
                         JStr (if bool_decide ((1, 20) ∈ saved_prompts db')
                               then "saved" else "removed"))],
                     msgs))
       ∧ bool_decide ((1, 20) ∈ saved_prompts db') = true)
  ∧ (∃ db' msgs,
       add_favourite_template xhr_alice "launch" db_shop
         = (db', Ok (JsonResponse
                       [("status",
                         JStr (if bool_decide ((1, 30) ∈ saved_templates db')
                               then "saved" else "removed"))],
                     msgs))
       ∧ bool_decide ((1, 30) ∈ saved_templates db') = true).
Proof.
  destruct (toggle_xhr_json_reports_transition xhr_alice db_shop user_alice
              profile_alice eq_refl eq_refl eq_refl)
    as (Hproduct & Hprompt & Htemplate).
  split; [|split].
  - exact (Hproduct "ebook" {| product_id := 10; product_slug := "ebook" |} eq_refl).
  - exact (Hprompt 20 {| prompt_id := 20 |} eq_refl).
  - exact (Htemplate "launch" {| template_id := 30; template_slug := "launch" |} eq_refl).
Defined.

(** ** C10: the public preview *)

#[local] Instance resource_le_total : Total resource_le.
Proof. intros r1 r2. unfold resource_le. lia. Qed.

#[local] Instance resource_le_transitive : Transitive resource_le.
Proof. intros r1 r2 r3. unfold resource_le. lia. Qed.

Lemma order_by_sorted rs : StronglySorted resource_le (order_by_order_created_desc rs).
Proof. unfold order_by_order_created_desc. apply StronglySorted_merge_sort; apply _. Qed.

Lemma order_by_permutation rs : order_by_order_created_desc rs ≡ₚ rs.
Proof. unfold order_by_order_created_desc. apply merge_sort_Permutation. Qed.

(** C10: the preview renders a list [rs] of at most 4 resources (4, or
    all the active ones when there are fewer), each stored and active,
    in the order "order ascending, then creation time descending";
    they are the head of the whole active list put in that order, and
    the store is left as it was. *)
Theorem public_resources_preview_at_most_four request db :
  ∃ rs rest : list MemberResource,
    public_resources_preview request db
      = (db, Ok (Render "partials/public_resources_preview.html"
                   [("resources", CtxResources rs)]))
    ∧ (length rs ≤ 4)%nat
    ∧ length rs = min 4 (length (List.filter res_is_active (resources db)))
    ∧ (∀ r, In r rs → In r (resources db) ∧ res_is_active r = true)
    ∧ StronglySorted resource_le rs
    ∧ StronglySorted resource_le (rs ++ rest)%list
    ∧ (rs ++ rest)%list ≡ₚ List.filter res_is_active (resources db).
Proof.
  set (active := List.filter res_is_active (resources db)).
  set (sorted := order_by_order_created_desc active).
  exists (take 4 sorted), (drop 4 sorted).
  assert (length sorted = length active) as Hlen
    by (apply Permutation_length, order_by_permutation).
  split; [reflexivity|].
  split; [rewrite length_take; lia|].
  split; [rewrite length_take, Hlen; reflexivity|].
  split.
  { intros r Hr. apply filter_In. fold active.
    apply (Permutation_in r (order_by_permutation active)).
    apply list_elem_of_In. apply (subseteq_take 4 sorted).
    apply list_elem_of_In. exact Hr. }
  split.
  { apply (StronglySorted_app_1_l resource_le _ (drop 4 sorted)).
    rewrite take_drop. apply order_by_sorted. }
  split.
  - rewrite take_drop. apply order_by_sorted.
  - rewrite take_drop. apply order_by_permutation.
Qed.

Example public_resources_preview_sample :
  snd (public_resources_preview anonymous_get db_resources)
  = Ok (Render "partials/public_resources_preview.html"
          [("resources",
            CtxResources [resource 3 0 30%Z true; resource 2 0 10%Z true;
                          resource 5 1 7%Z true; resource 1 2 10%Z true])]).
Proof. vm_compute. reflexivity. Qed.

(** ** The schema constraints are kept *)

Lemma NoDup_map_filter {A K} (f : A → K) (p : A → bool) (l : list A) :
  NoDup (map f l) → NoDup (map f (List.filter p l)).
Proof.
  induction l as [|y l IH]; simpl; intros Hnd; [exact Hnd|].
  apply NoDup_cons in Hnd as [Hy Hnd]. rewrite list_elem_of_In in Hy.
  destruct (p y); [|exact (IH Hnd)].
  simpl. apply NoDup_cons. split; [|exact (IH Hnd)].
  rewrite list_elem_of_In. intros Hin. apply Hy.
  apply in_map_iff in Hin as (v & Hv & Hin). apply filter_In in Hin as [Hin _].
  rewrite <- Hv. apply in_map. exact Hin.
Qed.

Lemma Forall_filter_keep {A} (P : A → Prop) (p : A → bool) (l : list A) :
  List.Forall P l → List.Forall P (List.filter p l).
Proof.
  rewrite !List.Forall_forall. intros H x Hx. apply filter_In in Hx as [Hx _]. auto.
Qed.

Lemma map_key_replace {A K} (f : A → K) (p : A → bool) (x' : A) (l : list A) :
  (∀ v, In v l → p v = true → f x' = f v) →
  map f (map (fun v => if p v then x' else v) l) = map f l.
Proof.
  intros H. rewrite List.map_map. apply map_ext_in. intros v Hv.
  destruct (p v) eqn:E; [apply H; assumption | reflexivity].
Qed.

Section replace_under_key.
Context {A K1 K2 : Type} (key : A → K1) (f : A → K2) (p : A → bool) (k : K1).
Hypothesis p_key : ∀ y, p y = true ↔ key y = k.

Lemma NoDup_map_replace (x' : A) (l : list A) :
  NoDup (map key l) → NoDup (map f l) →
  (∀ v, In v l → p v = false → f v ≠ f x') →
  NoDup (map f (map (fun v => if p v then x' else v) l)).
Proof.
  induction l as [|y l IH]; simpl; intros Hk Hf Hne; [constructor|].
  apply NoDup_cons in Hk as [Hky Hk]. rewrite list_elem_of_In in Hky.
  apply NoDup_cons in Hf as [Hfy Hf]. rewrite list_elem_of_In in Hfy.
  assert (∀ v, In v l → p v = false → f v ≠ f x') as Hne'
    by (intros v Hv; apply Hne; right; exact Hv).
  destruct (p y) eqn:E.
  - assert (map (fun v => if p v then x' else v) l = l) as ->.
    { rewrite <- (map_id l) at 2. apply map_ext_in. intros v Hv.
      destruct (p v) eqn:Ev; [|reflexivity].
      exfalso. apply Hky.
      rewrite (proj1 (p_key y) E), <- (proj1 (p_key v) Ev).
      apply in_map. exact Hv. }
    apply NoDup_cons. split; [|exact Hf].
    rewrite list_elem_of_In. intros Hin.
    apply in_map_iff in Hin as (v & Hv & Hin).
    destruct (p v) eqn:Ev.
    + apply Hky. rewrite (proj1 (p_key y) E), <- (proj1 (p_key v) Ev).
      apply in_map. exact Hin.
    + exact (Hne' v Hin Ev Hv).
  - apply NoDup_cons. split; [|apply IH; assumption].
    rewrite list_elem_of_In. intros Hin.
    apply in_map_iff in Hin as (w & Hw & Hin).
    apply in_map_iff in Hin as (v & Hv & Hin).
    destruct (p v) eqn:Ev; subst w.
    + apply (Hne y (or_introl eq_refl) E). symmetry. exact Hw.
    + apply Hfy. rewrite <- Hw. apply in_map. exact Hin.
Qed.
End replace_under_key.

Lemma username_not_taken_spec (u : User) (us : list User) :
  username_taken u us = false →
  ∀ v, In v us → username v = username u →
       ∃ i, user_pk u = Some i ∧ user_pk v = Some i.
Proof.
  intros H v Hv Hname. unfold username_taken in H.
  rewrite <- not_true_iff_false in H.
  destruct (user_pk u) as [i|] eqn:Hu, (user_pk v) as [j|] eqn:Hj;
    try (exfalso; apply H; apply existsb_exists; exists v; split; [exact Hv|];
         rewrite ?Hj, (proj2 (String.eqb_eq _ _) Hname); reflexivity).
  exists i. split; [reflexivity|]. f_equal.
  destruct (Nat.eqb i j) eqn:E; [symmetry; apply Nat.eqb_eq; exact E|].
  exfalso. apply H. apply existsb_exists. exists v. split; [exact Hv|].
  rewrite Hj, E, (proj2 (String.eqb_eq _ _) Hname). reflexivity.
Qed.

Lemma saved_pk_of_stored u db :
  existsb (pk_is (saved_pk u db)) (users db) = true →
  user_pk u = Some (saved_pk u db).
Proof.
  unfold saved_pk. destruct (user_pk u) as [id|]; [reflexivity|].
  rewrite fresh_pk_absent. discriminate.
Qed.

Lemma not_in_pks_of_existsb_false uid (us : list User) :
  existsb (pk_is uid) us = false → ¬ In (Some uid) (map user_pk us).
Proof.
  intros H Hin. apply in_map_iff in Hin as (v & Hv & Hin).
  assert (existsb (pk_is uid) us = true) as H'
    by (apply existsb_exists; exists v; split; [exact Hin | apply pk_is_spec; exact Hv]).
  congruence.
Qed.

Lemma users_after_save_pk u db :
  NoDup (map user_pk (users db)) → NoDup (map user_pk (users_after_save u db)).
Proof.
  intros Hnd. unfold users_after_save.
  destruct (existsb (pk_is (saved_pk u db)) (users db)) eqn:E.
  - rewrite map_key_replace; [exact Hnd|].
    intros v _ Hv. apply pk_is_spec in Hv. rewrite Hv. reflexivity.
  - rewrite List.map_app. apply NoDup_snoc; [exact Hnd|].
    simpl. apply not_in_pks_of_existsb_false. exact E.
Qed.

Lemma users_after_save_username u db :
  NoDup (map user_pk (users db)) → NoDup (map username (users db)) →
  username_taken u (users db) = false →
  NoDup (map username (users_after_save u db)).
Proof.
  intros Hpk Hun Hfree. unfold users_after_save.
  pose proof (username_not_taken_spec u (users db) Hfree) as Hspec.
  destruct (existsb (pk_is (saved_pk u db)) (users db)) eqn:E.
  - apply (NoDup_map_replace user_pk username _ (Some (saved_pk u db))
             (pk_is_spec (saved_pk u db))); auto.
    intros v Hv Hno Heq. simpl in Heq.
    destruct (Hspec v Hv Heq) as (i & Hu & Hvi).
    rewrite (saved_pk_of_stored u db E) in Hu. injection Hu as <-.
    apply pk_is_spec in Hvi. congruence.
  - rewrite List.map_app. apply NoDup_snoc; [exact Hun|].
    simpl. intros Hin. apply in_map_iff in Hin as (v & Heq & Hv).
    destruct (Hspec v Hv Heq) as (i & Hu & Hvi).
    assert (saved_pk u db = i) as Hi by (unfold saved_pk; rewrite Hu; reflexivity).
    rewrite <- Hi in Hvi. apply pk_is_spec in Hvi.
    assert (existsb (pk_is (saved_pk u db)) (users db) = true) as H'
      by (apply existsb_exists; eauto).
    congruence.
Qed.

Lemma users_after_save_mono u db k :
  existsb (pk_is k) (users db) = true →
  existsb (pk_is k) (users_after_save u db) = true.
Proof.
  intros H. unfold users_after_save.
  destruct (existsb (pk_is (saved_pk u db)) (users db)) eqn:E.
  - apply existsb_exists in H as (v & Hv & Hk). apply existsb_exists.
    exists (if pk_is (saved_pk u db) v then set_pk u (saved_pk u db) else v).
    split.
    + apply in_map_iff. exists v. split; [reflexivity | exact Hv].
    + destruct (pk_is (saved_pk u db) v) eqn:Ev; [|exact Hk].
      apply pk_is_spec in Ev. apply pk_is_spec in Hk.
      apply pk_is_spec. simpl. congruence.
  - rewrite existsb_app, H. reflexivity.
Qed.

Lemma User_save_taken u db :
  username_taken u (users db) = true →
  User_save u db = (db, Raise IntegrityError).
Proof.
  intros H. unfold User_save. rewrite run_bind. unfold User_save_base.
  rewrite H. reflexivity.
Qed.

Lemma db_wf_after_save u db :
  db_wf db → username_taken u (users db) = false →
  db_wf (with_profiles (with_users db (users_after_save u db))
                       (profiles_after_save (saved_pk u db) db)).
Proof.
  intros [Hpk Hun Hid Hus Hfk Htid Htus Htfk] Hfree.
  destruct (profiles_after_save_owner (saved_pk u db) db Hid Hus)
    as (x & _ & _ & _ & Hid' & Hus').
  constructor; simpl; auto.
  - apply users_after_save_pk. exact Hpk.
  - apply users_after_save_username; assumption.
  - unfold profiles_after_save.
    destruct (existsb _ (profiles db)).
    + eapply List.Forall_impl; [|exact Hfk].
      intros p Hp. apply users_after_save_mono. exact Hp.
    + apply List.Forall_app. split.
      * eapply List.Forall_impl; [|exact Hfk].
        intros p Hp. apply users_after_save_mono. exact Hp.
      * constructor; [|constructor]. simpl. apply users_after_save_has.
  - eapply List.Forall_impl; [|exact Htfk].
    intros t Ht. apply users_after_save_mono. exact Ht.
Qed.

(** X1: [User.save] keeps the schema constraints, whether the row is
    written or refused. *)
Theorem User_save_keeps_schema u db :
  db_wf db → db_wf (fst (User_save u db)).
Proof.
  intros Hwf. destruct (username_taken u (users db)) eqn:E.
  - rewrite (User_save_taken u db E). exact Hwf.
  - rewrite (User_save_run u db Hwf E). apply db_wf_after_save; assumption.
Qed.

Lemma User_save_keeps_schema_witness :
  db_wf (fst (User_save user_carol db_alice)).
Proof. apply (User_save_keeps_schema user_carol db_alice). exact db_alice_wf. Defined.

(** The store [send_verification_email] leaves, for every argument: an
    unsaved identity changes nothing, an identity without a row only
    loses its tokens. *)
Lemma send_verification_email_fst env fresh now request user db :
  fst (send_verification_email env fresh now request user db)
  = match user_pk user with
    | None => db
    | Some uid =>
        let kept := List.filter (fun t => negb (Nat.eqb (token_user t) uid)) (tokens db) in
        if existsb (pk_is uid) (users db)
        then with_tokens db (kept ++ [new_token kept uid fresh now])
        else with_tokens db kept
    end.
Proof.
  destruct (user_pk user) as [uid|] eqn:Hpk.
  - cbv zeta. destruct (existsb (pk_is uid) (users db)) eqn:E.
    + apply send_verification_email_db; assumption.
    + unfold send_verification_email.
      rewrite fst_try_except_readonly by auto with readonly.
      erewrite run_bind_Ok by (apply filter_user_delete_run; exact Hpk).
      erewrite run_bind_Raise; [reflexivity|].
      unfold EmailVerificationToken_objects_create. rewrite Hpk. simpl.
      rewrite E. reflexivity.
  - unfold send_verification_email.
    rewrite fst_try_except_readonly by auto with readonly.
    erewrite run_bind_Ok
      by (unfold EmailVerificationToken_filter_user_delete; rewrite Hpk; reflexivity).
    erewrite run_bind_Raise; [reflexivity|].
    unfold EmailVerificationToken_objects_create. rewrite Hpk. reflexivity.
Qed.

Lemma db_wf_with_tokens db ts :
  db_wf db →
  NoDup (map token_id ts) → NoDup (map token_user ts) →
  List.Forall (fun t => existsb (pk_is (token_user t)) (users db) = true) ts →
  db_wf (with_tokens db ts).
Proof. intros [? ? ? ? ? _ _ _] ? ? ?. constructor; simpl; assumption. Qed.

(** X2: [send_verification_email] keeps the schema constraints, for every
    identity handed to it and whatever the collaborators do. *)
Theorem send_verification_email_keeps_schema env fresh now request user db :
  db_wf db → db_wf (fst (send_verification_email env fresh now request user db)).
Proof.
  intros Hwf. rewrite send_verification_email_fst.
  destruct (user_pk user) as [uid|]; [|exact Hwf]. cbv zeta.
  pose proof Hwf as [_ _ _ _ _ Htid Htus Htfk].
  set (kept := List.filter (fun t => negb (Nat.eqb (token_user t) uid)) (tokens db)).
  assert (NoDup (map token_id kept)) as Hid by (apply NoDup_map_filter; exact Htid).
  assert (NoDup (map token_user kept)) as Hus by (apply NoDup_map_filter; exact Htus).
  assert (List.Forall (fun t => existsb (pk_is (token_user t)) (users db) = true) kept)
    as Hfk by (apply Forall_filter_keep; exact Htfk).
  destruct (existsb (pk_is uid) (users db)) eqn:E.
  - apply db_wf_with_tokens; [exact Hwf | | |].
    + rewrite List.map_app. apply NoDup_snoc; [exact Hid|]. apply fresh_id_not_in.
    + rewrite List.map_app. apply NoDup_snoc; [exact Hus|]. simpl.
      apply not_in_map_of_existsb_false.
      apply (existsb_filter_complement (fun t => Nat.eqb (token_user t) uid)).
    + apply List.Forall_app. split; [exact Hfk|].
      constructor; [exact E | constructor].
  - apply db_wf_with_tokens; assumption.
Qed.

Lemma send_verification_email_keeps_schema_witness :
  db_wf (fst (send_verification_email env_mail_down 7%N 100%Z anonymous_get
                user_alice db_alice)).
Proof.
  apply (send_verification_email_keeps_schema env_mail_down 7%N 100%Z anonymous_get
           user_alice db_alice).
  exact db_alice_wf.
Defined.

Lemma filter_other_after_complement {A} (f : A → nat) (k other : nat) (l : list A) :
  other ≠ k →
  List.filter (fun t => Nat.eqb (f t) other)
              (List.filter (fun t => negb (Nat.eqb (f t) k)) l)
  = List.filter (fun t => Nat.eqb (f t) other) l.
Proof.
  intros Hne. induction l as [|y l IH]; simpl; [reflexivity|].
  destruct (Nat.eqb (f y) k) eqn:Ek; simpl.
  - assert (Nat.eqb (f y) other = false) as ->; [|exact IH].
    apply Nat.eqb_eq in Ek. apply Nat.eqb_neq. congruence.
  - rewrite IH. reflexivity.
Qed.

(** X3: [send_verification_email] writes nothing but the tokens of the
    identity it is given: identities and profiles stay as they were and
    so do the tokens of every other identity. *)
Theorem send_verification_email_touches_own_tokens_only
    env fresh now request user db :
  users (fst (send_verification_email env fresh now request user db)) = users db
  ∧ profiles (fst (send_verification_email env fresh now request user db)) = profiles db
  ∧ ∀ other, user_pk user ≠ Some other →
      tokens_of other (fst (send_verification_email env fresh now request user db))
      = tokens_of other db.
Proof.
  rewrite send_verification_email_fst.
  destruct (user_pk user) as [uid|]; [|auto]. cbv zeta.
  assert (∀ other, Some uid ≠ Some other →
            List.filter (fun t => Nat.eqb (token_user t) other)
              (List.filter (fun t => negb (Nat.eqb (token_user t) uid)) (tokens db))
            = List.filter (fun t => Nat.eqb (token_user t) other) (tokens db)) as Hkept.
  { intros other Hne. apply (filter_other_after_complement token_user). congruence. }
  destruct (existsb (pk_is uid) (users db)); (split; [reflexivity|split; [reflexivity|]]);
    intros other Hne; unfold tokens_of; simpl.
  - rewrite List.filter_app, (Hkept other Hne). simpl.
    assert (Nat.eqb uid other = false) as ->
      by (apply Nat.eqb_neq; congruence).
    apply app_nil_r.
  - apply Hkept. exact Hne.
Qed.

(** ** Verification, step by step *)

Lemma token_owner_run t db :
  db_wf db → In t (tokens db) →
  ∃ u, In u (users db) ∧ user_pk u = Some (token_user t)
       ∧ EmailVerificationToken_user t db = (db, Ok u)
       ∧ User_save (set_is_active u true) db
         = (with_profiles
              (with_users db
                 (map (fun v => if pk_is (token_user t) v then set_is_active u true else v)
                      (users db)))
              (profiles_after_save (token_user t) db),
            Ok (set_is_active u true))
       ∧ db_wf (with_profiles
                  (with_users db
                     (map (fun v => if pk_is (token_user t) v
                                    then set_is_active u true else v)
                          (users db)))
                  (profiles_after_save (token_user t) db)).
Proof.
  intros Hwf Hin. set (uid := token_user t).
  pose proof Hwf as [Hpks Hun _ _ _ _ _ Hfk].
  rewrite List.Forall_forall in Hfk. pose proof (Hfk t Hin) as Hex. fold uid in Hex.
  pose proof Hex as Hex'.
  apply existsb_exists in Hex' as (u & Hu & Hp). apply pk_is_spec in Hp.
  exists u. split; [exact Hu|]. split; [exact Hp|]. split.
  { unfold EmailVerificationToken_user, objects_get. fold uid.
    rewrite (filter_unique_key user_pk _ (Some uid) (pk_is_spec uid) _ u Hpks Hu Hp).
    reflexivity. }
  set (u' := set_is_active u true).
  assert (user_pk u' = Some uid) as Hpk' by exact Hp.
  assert (username_taken u' (users db) = false) as Hname
    by (apply (username_taken_stored u u' uid); auto).
  assert (saved_pk u' db = uid) as Hspk by (unfold saved_pk; rewrite Hpk'; reflexivity).
  assert (users_after_save u' db
          = map (fun v => if pk_is uid v then u' else v) (users db)) as Husers.
  { unfold users_after_save. rewrite Hspk, (set_pk_same u' uid Hpk'), Hex.
    reflexivity. }
  split.
  - rewrite (User_save_run u' db Hwf Hname), Hspk, (set_pk_same u' uid Hpk'), Husers.
    reflexivity.
  - pose proof (db_wf_after_save u' db Hwf Hname) as Hwf1.
    rewrite Hspk, Husers in Hwf1. exact Hwf1.
Qed.

Lemma profile_update_columns (x x' : UserProfile) (ps : list UserProfile) :
  NoDup (map profile_id ps) → In x ps →
  profile_id x' = profile_id x → profile_user x' = profile_user x →
  map profile_id (map (fun q => if Nat.eqb (profile_id q) (profile_id x) then x' else q) ps)
    = map profile_id ps
  ∧ map profile_user
      (map (fun q => if Nat.eqb (profile_id q) (profile_id x) then x' else q) ps)
    = map profile_user ps.
Proof.
  intros Hid Hx Hi Hu. split.
  - apply map_key_replace. intros q _ Hq. apply Nat.eqb_eq in Hq. congruence.
  - apply map_key_replace. intros q Hq Hqx.
    assert (In q [x]) as Hqx'.
    { rewrite <- (filter_unique_key profile_id _ (profile_id x)
                    (fun y => Nat.eqb_eq (profile_id y) (profile_id x)) ps x Hid Hx eq_refl).
      apply filter_In. split; assumption. }
    destruct Hqx' as [<- | []]. exact Hu.
Qed.

Lemma db_wf_store_after_verification db t u x :
  db_wf (with_profiles
           (with_users db
              (map (fun v => if pk_is (token_user t) v then set_is_active u true else v)
                   (users db)))
           (profiles_after_save (token_user t) db)) →
  In x (profiles_after_save (token_user t) db) →
  db_wf (store_after_verification db t u x).
Proof.
  intros [Hpk Hun Hid Hus Hfk Htid Htus Htfk] Hx. simpl in *.
  destruct (profile_update_columns x (set_verified x true) _ Hid Hx eq_refl eq_refl)
    as [Hci Hcu].
  unfold store_after_verification. constructor; simpl.
  - exact Hpk.
  - exact Hun.
  - rewrite Hci. exact Hid.
  - rewrite Hcu. exact Hus.
  - rewrite List.Forall_forall in *. intros q Hq.
    apply in_map_iff in Hq as (q0 & Hq & Hq0).
    destruct (Nat.eqb (profile_id q0) (profile_id x)).
    + subst q. exact (Hfk x Hx).
    + subst q. exact (Hfk q0 Hq0).
  - apply NoDup_map_filter. exact Htid.
  - apply NoDup_map_filter. exact Htus.
  - apply Forall_filter_keep. exact Htfk.
Qed.

(** The run of [verify_email] on a value that [objects.get] resolves to
    one valid token. *)
Lemma verify_email_valid_run now request value t db :
  db_wf db →
  objects_get EmailVerificationTokenModel (fun s => N.eqb (token s) value) (tokens db)
    = Ok t →
  is_valid t now = true →
  ∃ u x,
    In u (users db) ∧ user_pk u = Some (token_user t)
    ∧ In x (profiles_after_save (token_user t) db) ∧ profile_user x = token_user t
    ∧ db_wf (store_after_verification db t u x)
    ∧ verify_email now request value db
      = (store_after_verification db t u x,
         Ok (Render "accounts/email/email_verified.html" [])).
Proof.
  intros Hwf Hget Hvalid.
  pose proof (objects_get_Ok _ _ _ _ Hget) as (Hin & _ & _).
  destruct (token_owner_run t db Hwf Hin) as (u & Hu & Hpk & Huser & Hsave & Hwf1).
  pose proof Hwf as [_ _ Hid Hus _ _ _ _].
  destruct (profiles_after_save_owner (token_user t) db Hid Hus)
    as (x & _ & Hx & Hxu & Hid1 & Hus1).
  exists u, x. repeat (split; [assumption|]).
  split; [apply db_wf_store_after_verification; assumption|].
  unfold verify_email, try_except.
  erewrite run_bind_Ok
    by (unfold EmailVerificationToken_objects_get; rewrite Hget; reflexivity).
  rewrite Hvalid.
  erewrite run_bind_Ok by exact Huser.
  erewrite run_bind_Ok by exact Hsave.
  erewrite run_bind_Ok
    by (apply (User_profile_present _ (token_user t) _ x); auto).
  erewrite run_bind_Ok
    by (apply (UserProfile_save_update_run x (set_verified x true)); auto).
  erewrite run_bind_Ok by apply token_delete_run.
  reflexivity.
Qed.

(** X4: [verify_email] keeps the schema constraints, whatever value is
    presented and whenever. *)
Theorem verify_email_keeps_schema now request value db :
  db_wf db → db_wf (fst (verify_email now request value db)).
Proof.
  intros Hwf.
  destruct (objects_get EmailVerificationTokenModel
              (fun s => N.eqb (token s) value) (tokens db)) as [t|e] eqn:Hget.
  - destruct (is_valid t now) eqn:Hvalid.
    + destruct (verify_email_valid_run now request value t db Hwf Hget Hvalid)
        as (u & x & _ & _ & _ & _ & Hwf' & ->). exact Hwf'.
    + unfold verify_email, try_except.
      erewrite run_bind_Ok
        by (unfold EmailVerificationToken_objects_get; rewrite Hget; reflexivity).
      rewrite Hvalid. exact Hwf.
  - unfold verify_email, try_except.
    erewrite run_bind_Raise
      by (unfold EmailVerificationToken_objects_get; rewrite Hget; reflexivity).
    apply objects_get_Raise in Hget as [-> | ->]; exact Hwf.
Qed.

Lemma verify_email_keeps_schema_witness :
  db_wf (fst (verify_email (timedelta_hours 1) anonymous_get 42%N db_alice)).
Proof.
  apply (verify_email_keeps_schema (timedelta_hours 1) anonymous_get 42%N db_alice).
  exact db_alice_wf.
Defined.

Lemma profiles_after_save_others uid db q :
  profile_user q ≠ uid →
  (In q (profiles_after_save uid db) ↔ In q (profiles db)).
Proof.
  intros Hne. unfold profiles_after_save.
  destruct (existsb _ (profiles db)); [reflexivity|].
  rewrite in_app_iff. split; [|auto].
  intros [H | [<- | []]]; [exact H|]. exfalso. apply Hne. reflexivity.
Qed.

(** X5: a successful [verify_email] changes the owner of the token and
    nothing else.  Every other identity and every other profile keeps
    its row, the owner's row changes in [is_active] only, the consumed
    token is the only one removed, and the resources and the three
    favourite relations are untouched. *)
Theorem verify_email_changes_owner_only now request value t db :
  db_wf db →
  objects_get EmailVerificationTokenModel (fun s => N.eqb (token s) value) (tokens db)
    = Ok t →
  is_valid t now = true →
  ∃ db',
    verify_email now request value db
      = (db', Ok (Render "accounts/email/email_verified.html" []))
    ∧ (∀ v, user_pk v ≠ Some (token_user t) → (In v (users db') ↔ In v (users db)))
    ∧ (∀ v, In v (users db') → user_pk v = Some (token_user t) →
            ∃ u, In u (users db) ∧ user_pk u = Some (token_user t)
                 ∧ v = set_is_active u true)
    ∧ (∀ q, profile_user q ≠ token_user t →
            (In q (profiles db') ↔ In q (profiles db)))
    ∧ (∀ s, In s (tokens db') ↔ In s (tokens db) ∧ token_id s ≠ token_id t)
    ∧ resources db' = resources db
    ∧ favourite_products db' = favourite_products db
    ∧ saved_prompts db' = saved_prompts db
    ∧ saved_templates db' = saved_templates db.
Proof.
  intros Hwf Hget Hvalid.
  destruct (verify_email_valid_run now request value t db Hwf Hget Hvalid)
    as (u & x & Hu & Hpk & Hx & Hxu & _ & Hrun).
  set (uid := token_user t) in *.
  pose proof Hwf as [_ _ Hid Hus _ _ _ _].
  destruct (profiles_after_save_owner uid db Hid Hus) as (x0 & _ & _ & _ & Hid1 & _).
  exists (store_after_verification db t u x).
  split; [exact Hrun|]. unfold store_after_verification. fold uid. simpl.
  split; [|split; [|split; [|split; [|auto]]]].
  - intros v Hv. rewrite in_map_iff. split.
    + intros (v0 & Hg & Hv0). destruct (pk_is uid v0) eqn:E.
      * subst v. exfalso. apply Hv. exact Hpk.
      * subst v. exact Hv0.
    + intros Hin. exists v. split; [|exact Hin].
      destruct (pk_is uid v) eqn:E; [|reflexivity].
      apply pk_is_spec in E. contradiction.
  - intros v Hv Hvk. apply in_map_iff in Hv as (v0 & Hg & Hv0).
    destruct (pk_is uid v0) eqn:E.
    + exists u. auto.
    + subst v. apply pk_is_spec in Hvk. congruence.
  - intros q Hq. rewrite <- (profiles_after_save_others uid db q Hq).
    rewrite in_map_iff. split.
    + intros (q0 & Hg & Hq0).
      destruct (Nat.eqb (profile_id q0) (profile_id x)) eqn:E.
      * subst q. exfalso. apply Hq. exact Hxu.
      * subst q. exact Hq0.
    + intros Hin. exists q. split; [|exact Hin].
      destruct (Nat.eqb (profile_id q) (profile_id x)) eqn:E; [|reflexivity].
      exfalso. assert (In q [x]) as Hqx.
      { rewrite <- (filter_unique_key profile_id _ (profile_id x)
                      (fun y => Nat.eqb_eq (profile_id y) (profile_id x))
                      _ x Hid1 Hx eq_refl).
        apply filter_In. split; assumption. }
      destruct Hqx as [<- | []]. apply Hq. exact Hxu.
  - intros s. rewrite filter_In, negb_true_iff, Nat.eqb_neq. reflexivity.
Qed.

Lemma verify_email_changes_owner_only_witness :
  ∃ db',
    verify_email (timedelta_hours 1) anonymous_get 42%N db_alice
      = (db', Ok (Render "accounts/email/email_verified.html" []))
    ∧ (∀ v, user_pk v ≠ Some (token_user (token_at 0%Z)) →
            (In v (users db') ↔ In v (users db_alice)))
    ∧ (∀ v, In v (users db') → user_pk v = Some (token_user (token_at 0%Z)) →
            ∃ u, In u (users db_alice) ∧ user_pk u = Some (token_user (token_at 0%Z))
                 ∧ v = set_is_active u true)
    ∧ (∀ q, profile_user q ≠ token_user (token_at 0%Z) →
            (In q (profiles db') ↔ In q (profiles db_alice)))
    ∧ (∀ s, In s (tokens db') ↔
            In s (tokens db_alice) ∧ token_id s ≠ token_id (token_at 0%Z))
    ∧ resources db' = resources db_alice
    ∧ favourite_products db' = favourite_products db_alice
    ∧ saved_prompts db' = saved_prompts db_alice
    ∧ saved_templates db' = saved_templates db_alice.
Proof.
  apply (verify_email_changes_owner_only (timedelta_hours 1) anonymous_get 42%N
           (token_at 0%Z) db_alice).
  - exact db_alice_wf.
  - reflexivity.
  - reflexivity.
Defined.

(** ** Registration, step by step *)

Lemma no_token_without_user uid db :
  List.Forall (fun t => existsb (pk_is (token_user t)) (users db) = true) (tokens db) →
  existsb (pk_is uid) (users db) = false →
  existsb (fun t => Nat.eqb (token_user t) uid) (tokens db) = false.
Proof.
  intros Hfk Hno.
  destruct (existsb _ (tokens db)) eqn:E; [|reflexivity].
  apply existsb_exists in E as (t & Hin & Ht). apply Nat.eqb_eq in Ht.
  rewrite List.Forall_forall in Hfk. apply Hfk in Hin.
  rewrite Ht in Hin. congruence.
Qed.

Lemma filter_complement_all {A} (p : A → bool) (l : list A) :
  existsb p l = false → List.filter (fun x => negb (p x)) l = l.
Proof.
  induction l as [|y l IH]; simpl; [reflexivity|].
  destruct (p y); simpl; [discriminate|]. intros H. rewrite (IH H). reflexivity.
Qed.

Lemma register_view_valid_run env fresh now request db :
  db_wf db →
  method request = "POST" →
  form_is_valid env db (POST request) = true →
  (∀ v, In v (users db) → username v ≠ cleaned_data env (POST request) "username") →
  register_view env fresh now request db
  = (store_after_registration env fresh now request db,
     Ok (Redirect "accounts:verification_sent")).
Proof.
  intros Hwf Hm Hvalid Hfree.
  set (uid := fresh_id (user_ids (users db))).
  set (nu := {| user_pk := None;
                username := cleaned_data env (POST request) "username";
                email := cleaned_data env (POST request) "email";
                password := make_password env (cleaned_data env (POST request) "password1");
                is_active := false |}).
  assert (username_taken nu (users db) = false) as Hname
    by (apply username_free_not_taken; exact Hfree).
  pose proof (User_save_run nu db Hwf Hname) as Hsave.
  change (saved_pk nu db) with uid in Hsave.
  change (set_pk nu uid) with (registered_user env (POST request) uid) in Hsave.
  pose proof Hwf as [_ _ _ _ Hfk _ _ Htfk].
  assert (existsb (pk_is uid) (users db) = false) as Hfresh by apply fresh_pk_absent.
  assert (users_after_save nu db
          = (users db ++ [registered_user env (POST request) uid])%list) as Husers.
  { unfold users_after_save. change (saved_pk nu db) with uid. rewrite Hfresh.
    reflexivity. }
  assert (profiles_after_save uid db
          = (profiles db ++ [new_profile (profiles db) uid])%list) as Hprofiles.
  { unfold profiles_after_save.
    rewrite (no_profile_without_user uid db Hfk Hfresh). reflexivity. }
  rewrite Husers, Hprofiles in Hsave.
  set (u := registered_user env (POST request) uid) in *.
  set (db1 := with_profiles (with_users db (users db ++ [u]))
                            (profiles db ++ [new_profile (profiles db) uid])) in *.
  assert (existsb (pk_is uid) (users db1) = true) as Hstored.
  { unfold db1. simpl. rewrite existsb_app. simpl. unfold pk_is at 2. simpl.
    rewrite Nat.eqb_refl. apply orb_true_r. }
  pose proof (send_verification_email_db env fresh now request u uid db1
                eq_refl Hstored) as Hdb.
  assert (List.filter (fun t => negb (Nat.eqb (token_user t) uid)) (tokens db1)
          = tokens db) as Hkept.
  { change (tokens db1) with (tokens db).
    apply (filter_complement_all (fun t => Nat.eqb (token_user t) uid)).
    apply no_token_without_user; assumption. }
  rewrite Hkept in Hdb.
  destruct (send_verification_email_returns env fresh now request u db1) as [sent Hsent].
  unfold register_view. rewrite Hm, String.eqb_refl. cbv beta. rewrite Hvalid.
  change (set_is_active (set_password _ _) false) with nu.
  rewrite (run_bind_Ok _ _ _ _ _ Hsave). rewrite run_bind.
  destruct (send_verification_email env fresh now request u db1) as [db2 [b|e]];
    simpl in Hsent, Hdb; [|discriminate].
  rewrite Hdb. reflexivity.
Qed.

(** X6: [register_view] keeps the schema constraints, for every request
    and whatever the form and the other collaborators answer. *)
Theorem register_view_keeps_schema env fresh now request db :
  db_wf db → db_wf (fst (register_view env fresh now request db)).
Proof.
  intros Hwf. unfold register_view.
  destruct (String.eqb (method request) "POST"); [|exact Hwf]. cbv beta.
  destruct (form_is_valid env db (POST request)); [|exact Hwf].
  rewrite run_bind.
  match goal with |- context [User_save ?nu db] => set (u := nu) end.
  destruct (username_taken u (users db)) eqn:E.
  - rewrite (User_save_taken u db E). exact Hwf.
  - rewrite (User_save_run u db Hwf E).
    rewrite fst_bind_readonly by auto with readonly.
    apply send_verification_email_keeps_schema.
    apply db_wf_after_save; assumption.
Qed.

Lemma register_view_keeps_schema_witness :
  db_wf (fst (register_view env_mail_down 7%N 100%Z register_carol db_alice)).
Proof.
  apply (register_view_keeps_schema env_mail_down 7%N 100%Z register_carol db_alice).
  exact db_alice_wf.
Defined.

(** X7: when the form lets through a user name that a stored identity
    already has, [register_view] raises [IntegrityError] and the store is
    left as it was: no identity, profile or token is written. *)
Theorem register_view_taken_username_raises env fresh now request db v :
  method request = "POST" →
  form_is_valid env db (POST request) = true →
  In v (users db) →
  username v = cleaned_data env (POST request) "username" →
  register_view env fresh now request db = (db, Raise IntegrityError).
Proof.
  intros Hm Hvalid Hv Hname.
  unfold register_view. rewrite Hm, String.eqb_refl. cbv beta. rewrite Hvalid.
  rewrite run_bind.
  match goal with |- context [User_save ?nu db] => set (u := nu) end.
  rewrite (User_save_taken u db); [reflexivity|].
  unfold username_taken. apply existsb_exists. exists v. split; [exact Hv|].
  simpl. rewrite Hname, String.eqb_refl. reflexivity.
Qed.

Lemma register_view_taken_username_raises_witness :
  register_view env_unchecked 7%N 100%Z register_alice_again db_alice
  = (db_alice, Raise IntegrityError).
Proof.
  apply (register_view_taken_username_raises env_unchecked 7%N 100%Z
           register_alice_again db_alice user_alice); try reflexivity.
  left. reflexivity.
Defined.

Lemma not_in_values_filter_nil value (ts : list EmailVerificationToken) :
  ¬ In value (map token ts) →
  List.filter (fun s => N.eqb (token s) value) ts = [].
Proof.
  intros H. apply (filter_nil_of_all_false (fun s => N.eqb (token s) value)).
  apply (key_not_in_all_false token _ value (fun y => N.eqb_eq (token y) value)).
  exact H.
Qed.

(** X8: registration followed by verification.  After a successful
    [register_view] that drew a token value no stored token carries,
    presenting that value to [verify_email] within 24 hours renders the
    verified page; the registered identity is then active, its profile
    verified, and it has no token left. *)
Theorem register_then_verify env fresh now now2 request request2 db :
  db_wf db →
  method request = "POST" →
  form_is_valid env db (POST request) = true →
  (∀ v, In v (users db) → username v ≠ cleaned_data env (POST request) "username") →
  ¬ In fresh (map token (tokens db)) →
  (now2 - now ≤ timedelta_hours 24)%Z →
  ∃ db1 db2 p,
    register_view env fresh now request db
      = (db1, Ok (Redirect "accounts:verification_sent"))
    ∧ verify_email now2 request2 fresh db1
      = (db2, Ok (Render "accounts/email/email_verified.html" []))
    ∧ In (set_is_active
            (registered_user env (POST request) (fresh_id (user_ids (users db)))) true)
         (users db2)
    ∧ In p (profiles db2)
    ∧ profile_user p = fresh_id (user_ids (users db)) ∧ verified p = true
    ∧ tokens_of (fresh_id (user_ids (users db))) db2 = [].
Proof.
  intros Hwf Hm Hvalid Hfree Hnew Hage.
  set (uid := fresh_id (user_ids (users db))).
  pose proof (register_view_valid_run env fresh now request db Hwf Hm Hvalid Hfree)
    as Hreg.
  set (db1 := store_after_registration env fresh now request db) in *.
  assert (db_wf db1) as Hwf1.
  { pose proof (register_view_keeps_schema env fresh now request db Hwf) as H.
    rewrite Hreg in H. exact H. }
  set (t := new_token (tokens db) uid fresh now).
  assert (tokens db1 = (tokens db ++ [t])%list) as Htokens by reflexivity.
  assert (objects_get EmailVerificationTokenModel
            (fun s => N.eqb (token s) fresh) (tokens db1) = Ok t) as Hget.
  { unfold objects_get. rewrite Htokens, List.filter_app.
    rewrite (not_in_values_filter_nil fresh _ Hnew). simpl.
    rewrite N.eqb_refl. reflexivity. }
  assert (is_valid t now2 = true) as Hv by (apply is_valid_spec; exact Hage).
  destruct (verify_email_valid_run now2 request2 fresh t db1 Hwf1 Hget Hv)
    as (u & x & Hu & Hpk & Hx & Hxu & _ & Hrun).
  change (token_user t) with uid in *.
  assert (u = registered_user env (POST request) uid) as ->.
  { change (users db1)
      with (users db ++ [registered_user env (POST request) uid])%list in Hu.
    apply in_app_iff in Hu as [Hu | [<- | []]]; [|reflexivity].
    exfalso.
    assert (existsb (pk_is uid) (users db) = true) as H
      by (apply existsb_exists; exists u; split; [exact Hu | apply pk_is_spec; exact Hpk]).
    unfold uid in H. rewrite fresh_pk_absent in H. discriminate. }
  exists db1, (store_after_verification db1 t (registered_user env (POST request) uid) x),
         (set_verified x true).
  split; [exact Hreg|]. split; [exact Hrun|].
  unfold store_after_verification. change (token_user t) with uid.
  split; [|split; [|split; [exact Hxu|split; [reflexivity|]]]].
  - simpl. apply in_map_iff. exists (registered_user env (POST request) uid).
    split.
    + unfold pk_is. simpl. rewrite Nat.eqb_refl. reflexivity.
    + apply in_or_app. right. left. reflexivity.
  - simpl. apply in_map_iff. exists x. split; [|exact Hx].
    rewrite Nat.eqb_refl. reflexivity.
  - unfold tokens_of. simpl tokens.
    apply (filter_nil_of_all_false (fun s => Nat.eqb (token_user s) uid)).
    intros s Hs. apply filter_In in Hs as [Hs Hid].
    change (In s (tokens db ++ [t])%list) in Hs.
    apply in_app_iff in Hs as [Hs | [<- | []]].
    + pose proof Hwf as [_ _ _ _ _ _ _ Htfk].
      destruct (Nat.eqb (token_user s) uid) eqn:E; [|reflexivity].
      pose proof (no_token_without_user uid db Htfk (fresh_pk_absent _)) as Hno.
      assert (existsb (fun t => Nat.eqb (token_user t) uid) (tokens db) = true) as H
        by (apply existsb_exists; eauto).
      congruence.
    + rewrite Nat.eqb_refl in Hid. discriminate.
Qed.

Lemma register_then_verify_witness :
  ∃ db1 db2 p,
    register_view env_mail_down 7%N 100%Z register_carol db_alice
      = (db1, Ok (Redirect "accounts:verification_sent"))
    ∧ verify_email 200%Z anonymous_get 7%N db1
      = (db2, Ok (Render "accounts/email/email_verified.html" []))
    ∧ In (set_is_active
            (registered_user env_mail_down (POST register_carol)
               (fresh_id (user_ids (users db_alice)))) true)
         (users db2)
    ∧ In p (profiles db2)
    ∧ profile_user p = fresh_id (user_ids (users db_alice)) ∧ verified p = true
    ∧ tokens_of (fresh_id (user_ids (users db_alice))) db2 = [].
Proof.
  apply (register_then_verify env_mail_down 7%N 100%Z 200%Z register_carol
           anonymous_get db_alice).
  - exact db_alice_wf.
  - reflexivity.
  - reflexivity.
  - intros v [<- | []]. vm_compute. discriminate.
  - simpl. intros [H | []]. discriminate H.
  - vm_compute. discriminate.
Defined.

(** X9: issuing a new token supersedes the old one.  Once
    [send_verification_email] has run for a stored identity, the value
    of the token that identity held before (different from the value
    just drawn, and carried by no other token) no longer verifies: it
    gets the invalid page and the store stays as it is. *)
Theorem reissued_token_supersedes
    env fresh now now2 request request2 user uid told db :
  user_pk user = Some uid →
  existsb (pk_is uid) (users db) = true →
  NoDup (map token (tokens db)) →
  In told (tokens db) → token_user told = uid → token told ≠ fresh →
  verify_email now2 request2 (token told)
    (fst (send_verification_email env fresh now request user db))
  = (fst (send_verification_email env fresh now request user db),
     Ok (Render "accounts/email/email_verification_invalid.html" [])).
Proof.
  intros Hpk Hu Hvalues Hold Howner Hne.
  apply verify_email_absent.
  rewrite (send_verification_email_db env fresh now request user uid db Hpk Hu).
  simpl. intros s Hs Heq.
  apply in_app_iff in Hs as [Hs | [<- | []]].
  - apply filter_In in Hs as [Hs Hother].
    assert (In s [told]) as Hst.
    { rewrite <- (filter_unique_key token _ (token told)
                    (fun y => N.eqb_eq (token y) (token told)) _ told Hvalues Hold eq_refl).
      apply filter_In. split; [exact Hs|]. apply N.eqb_eq. exact Heq. }
    destruct Hst as [<- | []]. rewrite Howner, Nat.eqb_refl in Hother. discriminate.
  - simpl in Heq. congruence.
Qed.

Lemma reissued_token_supersedes_witness :
  verify_email 200%Z anonymous_get (token (token_at 0%Z))
    (fst (send_verification_email env_mail_down 7%N 100%Z anonymous_get
            user_alice db_alice))
  = (fst (send_verification_email env_mail_down 7%N 100%Z anonymous_get
            user_alice db_alice),
     Ok (Render "accounts/email/email_verification_invalid.html" [])).
Proof.
  apply (reissued_token_supersedes env_mail_down 7%N 100%Z 200%Z anonymous_get
           anonymous_get user_alice 1 (token_at 0%Z) db_alice).
  - reflexivity.
  - reflexivity.
  - simpl. compute_done.
  - left. reflexivity.
  - reflexivity.
  - discriminate.
Defined.

(** X10: the answer of [send_verification_email] reports the delivery.
    For a stored identity it is [True] exactly when reversing the URL,
    making it absolute, rendering the template and sending the mail all
    succeed, and [False] otherwise; it is never an exception. *)
Theorem send_verification_email_reports_delivery
    env fresh now request user uid db :
  user_pk user = Some uid →
  existsb (pk_is uid) (users db) = true →
  (snd (send_verification_email env fresh now request user db) = Ok true
   ∨ snd (send_verification_email env fresh now request user db) = Ok false)
  ∧ (snd (send_verification_email env fresh now request user db) = Ok true
     ↔ ∃ path url html,
         reverse env "accounts:verify_email" [uuid_str env fresh] = Ok path
         ∧ build_absolute_uri env request path = Ok url
         ∧ render_to_string env "accounts/email/email_verification_email.html"
             {| ctx_user := user; ctx_verification_url := url;
                ctx_site_url := SITE_URL env; ctx_email := email user |} = Ok html
         ∧ send_mail env "Verify your email for AI Marketing Platform"
             (strip_tags env html) (DEFAULT_FROM_EMAIL env) [email user] html = Ok tt).
Proof.
  intros Hpk Hu. unfold send_verification_email, try_except.
  erewrite run_bind_Ok by (apply filter_user_delete_run; exact Hpk).
  erewrite run_bind_Ok;
    [| apply (objects_create_token_run fresh now user uid);
       [exact Hpk | exact Hu
        | apply (existsb_filter_complement (fun t => Nat.eqb (token_user t) uid))]].
  cbn [token new_token].
  rewrite run_lift_bind.
  destruct (reverse env "accounts:verify_email" [uuid_str env fresh]) as [path|e1].
  2: { simpl. split; [auto|]. split; [discriminate|].
       intros (? & ? & ? & H & _). discriminate H. }
  rewrite run_lift_bind.
  destruct (build_absolute_uri env request path) as [url|e2] eqn:Hb.
  2: { simpl. split; [auto|]. split; [discriminate|].
       intros (p & ? & ? & H1 & H2 & _). injection H1 as <-.
       rewrite Hb in H2. discriminate H2. }
  rewrite run_lift_bind.
  destruct (render_to_string env "accounts/email/email_verification_email.html"
              {| ctx_user := user; ctx_verification_url := url;
                 ctx_site_url := SITE_URL env; ctx_email := email user |})
    as [html|e3] eqn:Hr.
  2: { simpl. split; [auto|]. split; [discriminate|].
       intros (p & u' & ? & H1 & H2 & H3 & _). injection H1 as <-.
       rewrite Hb in H2. injection H2 as <-.
       rewrite Hr in H3. discriminate H3. }
  rewrite run_lift_bind.
  destruct (send_mail env "Verify your email for AI Marketing Platform"
              (strip_tags env html) (DEFAULT_FROM_EMAIL env) [email user] html)
    as [[]|e4] eqn:Hs.
  - simpl. split; [auto|]. split; [|reflexivity].
    intros _. exists path, url, html. auto.
  - simpl. split; [auto|]. split; [discriminate|].
    intros (p & u' & h & H1 & H2 & H3 & H4). injection H1 as <-.
    rewrite Hb in H2. injection H2 as <-.
    rewrite Hr in H3. injection H3 as <-. rewrite Hs in H4. discriminate H4.
Qed.

Lemma send_verification_email_reports_delivery_witness :
  (snd (send_verification_email env_unchecked 7%N 100%Z anonymous_get
          user_alice db_alice) = Ok true
   ∨ snd (send_verification_email env_unchecked 7%N 100%Z anonymous_get
            user_alice db_alice) = Ok false)
  ∧ (snd (send_verification_email env_unchecked 7%N 100%Z anonymous_get
            user_alice db_alice) = Ok true
     ↔ ∃ path url html,
         reverse env_unchecked "accounts:verify_email" [uuid_str env_unchecked 7%N]
           = Ok path
         ∧ build_absolute_uri env_unchecked anonymous_get path = Ok url
         ∧ render_to_string env_unchecked "accounts/email/email_verification_email.html"
             {| ctx_user := user_alice; ctx_verification_url := url;
                ctx_site_url := SITE_URL env_unchecked;
                ctx_email := email user_alice |} = Ok html
         ∧ send_mail env_unchecked "Verify your email for AI Marketing Platform"
             (strip_tags env_unchecked html) (DEFAULT_FROM_EMAIL env_unchecked)
             [email user_alice] html = Ok tt).
Proof.
  apply (send_verification_email_reports_delivery env_unchecked 7%N 100%Z
           anonymous_get user_alice 1 db_alice); reflexivity.
Defined.

(** X11: expiry is permanent.  A token valid at some instant is valid at
    every earlier instant, so one that has expired never becomes valid
    again as the clock advances. *)
Theorem is_valid_earlier t now now' :
  (now ≤ now')%Z → is_valid t now' = true → is_valid t now = true.
Proof. rewrite !is_valid_spec. lia. Qed.

Lemma is_valid_earlier_witness : is_valid (token_at 0%Z) 5%Z = true.
Proof.
  apply (is_valid_earlier (token_at 0%Z) 5%Z (timedelta_hours 24)).
  - vm_compute. discriminate.
  - reflexivity.
Defined.

(** ** Signing in *)

Lemma receivers_updated r uid db :
  user_pk r = Some uid →
  existsb (pk_is uid) (users db) = true →
  NoDup (map profile_id (profiles db)) →
  NoDup (map profile_user (profiles db)) →
  (create_user_profile r false ≫= (fun _ => save_user_profile r)) db
  = (with_profiles db (profiles_after_save uid db), Ok tt).
Proof.
  intros Hpk Hu Hid Hus. unfold create_user_profile, profiles_after_save.
  erewrite run_bind_Ok by reflexivity.
  destruct (existsb (fun p => Nat.eqb (profile_user p) uid) (profiles db)) eqn:E.
  - erewrite save_user_profile_present by eauto.
    rewrite with_profiles_same. reflexivity.
  - erewrite save_user_profile_missing by eauto. reflexivity.
Qed.

Lemma existsb_map_assign {A} (p : A → bool) (assign : A → A) (l : list A) :
  (∀ v, p v = true → p (assign v) = true) →
  existsb p l = true →
  existsb p (map (fun v => if p v then assign v else v) l) = true.
Proof.
  intros Hp H. apply existsb_exists in H as (v & Hv & Hpv). apply existsb_exists.
  exists (assign v). split; [|auto].
  apply in_map_iff. exists v. rewrite Hpv. auto.
Qed.

Lemma User_save_update_fields_run u uid assign db :
  user_pk u = Some uid →
  existsb (pk_is uid) (users db) = true →
  (∀ v, user_pk (assign v) = user_pk v) →
  NoDup (map profile_id (profiles db)) →
  NoDup (map profile_user (profiles db)) →
  User_save_update_fields u assign db
  = (with_profiles
       (with_users db (map (fun v => if pk_is uid v then assign v else v) (users db)))
       (profiles_after_save uid db),
     Ok tt).
Proof.
  intros Hpk Hu Hassign Hid Hus. unfold User_save_update_fields. rewrite Hpk, Hu.
  rewrite (receivers_updated u uid); simpl; auto.
  apply existsb_map_assign; [|exact Hu].
  intros v Hv. apply pk_is_spec. rewrite Hassign. apply pk_is_spec. exact Hv.
Qed.

Lemma with_users_same db ps :
  with_profiles (with_users db (users db)) ps = with_profiles db ps.
Proof. destruct db; reflexivity. Qed.

Lemma map_if_same {A} (p : A → bool) (l : list A) :
  map (fun v => if p v then v else v) l = l.
Proof.
  rewrite <- (map_id l) at 2. apply map_ext. intros v. destruct (p v); reflexivity.
Qed.

(** [check_password] when no upgrade of the hash is due: a verdict and
    nothing else. *)
Lemma User_check_password_current env u raw db :
  password_upgrade_due env u raw = false →
  User_check_password env u raw db = (db, Ok (password_is_correct env u raw, u)).
Proof.
  unfold password_upgrade_due, User_check_password, password_is_correct.
  destruct raw as [r|]; [|reflexivity]. intros ->. reflexivity.
Qed.

(** [check_password] when the password is right and the hash outdated:
    the new hash is written to the identity's row and the receivers
    run. *)
Lemma User_check_password_upgrade env u uid r db :
  check_password env r (password u) = true →
  must_update env (password u) = true →
  user_pk u = Some uid →
  existsb (pk_is uid) (users db) = true →
  NoDup (map profile_id (profiles db)) →
  NoDup (map profile_user (profiles db)) →
  User_check_password env u (Some r) db
  = (with_profiles
       (with_users db
          (map (fun v => if pk_is uid v then set_password v (make_password env r) else v)
               (users db)))
       (profiles_after_save uid db),
     Ok (true, set_password u (make_password env r))).
Proof.
  intros Hc Hm Hpk Hu Hid Hus. unfold User_check_password. rewrite Hc, Hm.
  change (true && true) with true. cbv iota zeta.
  erewrite run_bind_Ok;
    [reflexivity | apply (User_save_update_fields_run _ uid); auto].
Qed.

Lemma User_check_password_sound env u raw db db1 b u' :
  User_check_password env u raw db = (db1, Ok (b, u')) →
  b = password_is_correct env u raw
  ∧ user_pk u' = user_pk u ∧ username u' = username u
  ∧ email u' = email u ∧ is_active u' = is_active u.
Proof.
  unfold User_check_password, password_is_correct.
  destruct raw as [r|].
  - destruct (check_password env r (password u) && must_update env (password u)) eqn:E.
    + apply andb_true_iff in E as [Hc _]. rewrite run_bind.
      destruct (User_save_update_fields _ _ db) as [db2 [[]|e]]; [|discriminate].
      intros H. injection H as _ <- <-. rewrite Hc. auto.
    + intros H. injection H as _ <- <-. auto.
  - intros H. injection H as _ <- <-. auto.
Qed.

Lemma authenticate_found env username password db u :
  objects_get UserModel (username_or_email_iexact username) (users db) = Ok u →
  authenticate env username password [] db
  = (User_check_password env u password
       ≫= (fun checked => if fst checked && user_can_authenticate (snd checked)
                          then mret (Some (snd checked)) else mret None)) db.
Proof.
  intros H. unfold authenticate.
  assert (match username with None => assoc_get USERNAME_FIELD [] | Some _ => username end
          = username) as -> by (destruct username; reflexivity).
  rewrite run_bind. unfold try_except. rewrite run_bind. unfold User_objects_get.
  rewrite H. reflexivity.
Qed.

Lemma authenticate_not_found env username password db e :
  objects_get UserModel (username_or_email_iexact username) (users db) = Raise e →
  authenticate env username password [] db
  = (db, if is_DoesNotExist UserModel e then Ok None else Raise e).
Proof.
  intros H. unfold authenticate.
  assert (match username with None => assoc_get USERNAME_FIELD [] | Some _ => username end
          = username) as -> by (destruct username; reflexivity).
  rewrite run_bind. unfold try_except. rewrite run_bind. unfold User_objects_get.
  rewrite H. apply objects_get_Raise in H as [-> | ->]; reflexivity.
Qed.

Lemma authenticate_sound env ident password db db1 u' :
  authenticate env ident password [] db = (db1, Ok (Some u')) →
  ∃ u, In u (users db)
       ∧ username_or_email_iexact ident u = true
       ∧ password_is_correct env u password = true
       ∧ is_active u = true
       ∧ user_pk u' = user_pk u ∧ username u' = username u
       ∧ is_active u' = true.
Proof.
  destruct (objects_get UserModel (username_or_email_iexact ident) (users db))
    as [u|e] eqn:E.
  - rewrite (authenticate_found _ _ _ _ _ E), run_bind.
    apply objects_get_Ok in E as (Hin & Hp & _).
    destruct (User_check_password env u password db) as [db2 [[b u'']|e]] eqn:Hc;
      [|discriminate].
    apply User_check_password_sound in Hc as (Hb & Hk & Hn & _ & Ha).
    unfold user_can_authenticate. simpl.
    destruct (b && is_active u'') eqn:Hba; [|discriminate].
    apply andb_true_iff in Hba as [Hbt Hat].
    intros H. injection H as _ <-.
    exists u. rewrite <- Ha, <- Hb. auto 10.
  - rewrite (authenticate_not_found _ _ _ _ _ E).
    destruct (is_DoesNotExist UserModel e); discriminate.
Qed.

(** X12: what [authenticate] accepts.  When no stored hash is due for
    an upgrade, it does not write, and it returns the identity [u]
    exactly when [u] is the one stored row whose user name or e-mail
    address equals the identifier up to case, the password checks
    against [u]'s hash and [u] is active. *)
Theorem authenticate_accepts_iff env name raw db u :
  (∀ v, In v (users db) → must_update env (password v) = false) →
  fst (authenticate env (Some name) raw [] db) = db
  ∧ (snd (authenticate env (Some name) raw [] db) = Ok (Some u)
     ↔ List.filter (username_or_email_iexact (Some name)) (users db) = [u]
       ∧ password_is_correct env u raw = true
       ∧ is_active u = true).
Proof.
  intros Hcurrent.
  destruct (objects_get UserModel (username_or_email_iexact (Some name)) (users db))
    as [x|e] eqn:E.
  - rewrite (authenticate_found _ _ _ _ _ E).
    pose proof (objects_get_Ok _ _ _ _ E) as (Hin & _ & Hf).
    assert (password_upgrade_due env x raw = false) as Hdue.
    { unfold password_upgrade_due. destruct raw; [|reflexivity].
      rewrite (Hcurrent x Hin). apply andb_false_r. }
    rewrite (run_bind_Ok _ _ _ _ _ (User_check_password_current env x raw db Hdue)).
    unfold user_can_authenticate. simpl. rewrite Hf.
    destruct (password_is_correct env x raw && is_active x) eqn:Hba.
    + apply andb_true_iff in Hba as [Hc Ha]. split; [reflexivity|]. split.
      * intros H. injection H as <-. auto.
      * intros [H _]. injection H as <-. reflexivity.
    + split; [reflexivity|]. split; [discriminate|].
      intros (H & Hc & Ha). injection H as <-. rewrite Hc, Ha in Hba. discriminate.
  - rewrite (authenticate_not_found _ _ _ _ _ E). split; [reflexivity|].
    unfold objects_get in E.
    destruct (List.filter (username_or_email_iexact (Some name)) (users db))
      as [|x [|y l]]; [| discriminate |]; injection E as <-; simpl;
      (split; [discriminate | intros [H _]; discriminate H]).
Qed.

Lemma authenticate_accepts_iff_witness :
  fst (authenticate env_mail_down (Some "ALICE") (Some "a") [] db_alice_active)
    = db_alice_active
  ∧ (snd (authenticate env_mail_down (Some "ALICE") (Some "a") [] db_alice_active)
       = Ok (Some (set_is_active user_alice true))
     ↔ List.filter (username_or_email_iexact (Some "ALICE")) (users db_alice_active)
         = [set_is_active user_alice true]
       ∧ password_is_correct env_mail_down (set_is_active user_alice true) (Some "a")
         = true
       ∧ is_active (set_is_active user_alice true) = true).
Proof.
  apply (authenticate_accepts_iff env_mail_down "ALICE" (Some "a") db_alice_active
           (set_is_active user_alice true)).
  intros v _. reflexivity.
Defined.

(** With a hasher change pending, a correct password makes
    [authenticate] write the upgraded hash to the identity's row. *)
Example authenticate_upgrades_hash :
  map password
    (users (fst (authenticate env_upgrade (Some "alice") (Some "a") [] db_alice_active)))
  = ["argon2$a"].
Proof. vm_compute. reflexivity. Qed.

Lemma lower_ascii_idem c : lower_ascii (lower_ascii c) = lower_ascii c.
Proof.
  destruct c as [b0 b1 b2 b3 b4 b5 b6 b7].
  destruct b0, b1, b2, b3, b4, b5, b6, b7; reflexivity.
Qed.

Lemma lower_idem s : lower (lower s) = lower s.
Proof.
  induction s as [|c s IH]; simpl; [reflexivity|].
  rewrite lower_ascii_idem, IH. reflexivity.
Qed.

(** X13: the case of the identifier does not matter: signing in with the
    lower-cased identifier gives the same outcome. *)
Theorem authenticate_ignores_identifier_case env name password db :
  authenticate env (Some (lower name)) password [] db
  = authenticate env (Some name) password [] db.
Proof.
  assert (List.filter (username_or_email_iexact (Some (lower name))) (users db)
          = List.filter (username_or_email_iexact (Some name)) (users db)) as Hf.
  { apply List.filter_ext. intros v. unfold username_or_email_iexact, iexact.
    rewrite lower_idem. reflexivity. }
  destruct (objects_get UserModel (username_or_email_iexact (Some name)) (users db))
    as [u|e] eqn:E.
  - rewrite (authenticate_found _ _ _ _ _ E).
    apply authenticate_found. unfold objects_get in *. rewrite Hf. exact E.
  - rewrite (authenticate_not_found _ _ _ _ _ E).
    apply authenticate_not_found. unfold objects_get in *. rewrite Hf. exact E.
Qed.


(** X14: with this backend behind [authenticate], [login_view] never
    shows the "Account not activated" message, and it opens a session
    only for a stored, active identity that the identifier designates up
    to case and whose password checks. *)
Theorem login_view_sound env url GET request db db' o :
  login_view (backend env) url GET request db = (db', Ok o) →
  ¬ In (ERROR, "Account not activated. Please check your email for the verification link.")
       (login_messages o)
  ∧ ∀ u', session_user o = Some u' →
      ∃ u, In u (users db) ∧ is_active u = true
           ∧ password_is_correct env u (querydict_get "password" (POST request)) = true
           ∧ username_or_email_iexact (querydict_get "username" (POST request)) u = true
           ∧ user_pk u' = user_pk u ∧ username u' = username u.
Proof.
  unfold login_view, backend.
  destruct (String.eqb (method request) "POST").
  - rewrite run_bind.
    destruct (authenticate env _ _ [] db) as [db1 [[u'|]|e]] eqn:Ha; [| |discriminate].
    + apply authenticate_sound in Ha
        as (u & Hin & Hp & Hc & Hact & Hk & Hn & Hact').
      rewrite Hact', run_bind. unfold login.
      destruct (User_save_update_fields u' _ db1) as [db2 [[]|e]]; [|discriminate].
      intros H. injection H as _ <-. simpl.
      split; [intros [H | []]; discriminate H|].
      intros v Hv. injection Hv as <-. exists u. auto 10.
    + intros H. injection H as _ <-. simpl.
      split; [intros [H | []]; discriminate H | discriminate].
  - intros H. injection H as _ <-. simpl. split; [tauto | discriminate].
Qed.

Lemma login_view_sound_witness :
  ¬ In (ERROR, "Account not activated. Please check your email for the verification link.")
       [(SUCCESS, "Welcome back, ALICE!")]
  ∧ ∀ u', Some (set_is_active user_alice true) = Some u' →
      ∃ u, In u (users db_alice_active) ∧ is_active u = true
           ∧ password_is_correct env_mail_down u
               (querydict_get "password" (POST login_alice)) = true
           ∧ username_or_email_iexact
               (querydict_get "username" (POST login_alice)) u = true
           ∧ user_pk u' = user_pk u ∧ username u' = username u.
Proof.
  apply (login_view_sound env_mail_down "/dashboard/" [] login_alice
           db_alice_active db_alice_active
           {| login_response := Redirect "/dashboard/";
              login_messages := [(SUCCESS, "Welcome back, ALICE!")];
              session_user := Some (set_is_active user_alice true) |}).
  vm_compute. reflexivity.
Defined.

Lemma stored_of_filter (p : User → bool) (us : list User) (u : User) uid :
  List.filter p us = [u] → user_pk u = Some uid →
  In u us ∧ existsb (pk_is uid) us = true.
Proof.
  intros Hf Hpk.
  assert (In u us) as Hin.
  { assert (In u (List.filter p us)) as H by (rewrite Hf; left; reflexivity).
    apply filter_In in H. tauto. }
  split; [exact Hin|]. apply existsb_exists. exists u. split; [exact Hin|].
  apply pk_is_spec. exact Hpk.
Qed.

(** X15: an identity that has not been activated is told its credentials
    are invalid.  When the identifier designates exactly one stored
    identity and that identity is inactive, [login_view] flashes
    "Invalid username or password." whatever the password, opens no
    session and renders the login page again; the store is unchanged
    unless the password is right and the stored hash due for an
    upgrade. *)
Theorem login_view_inactive_is_invalid_credentials env url GET request db u uid :
  db_wf db →
  method request = "POST" →
  List.filter (username_or_email_iexact (querydict_get "username" (POST request)))
              (users db) = [u] →
  user_pk u = Some uid →
  is_active u = false →
  snd (login_view (backend env) url GET request db)
    = Ok {| login_response := Render "accounts/login.html" [];
            login_messages := [(ERROR, "Invalid username or password.")];
            session_user := None |}
  ∧ (password_upgrade_due env u (querydict_get "password" (POST request)) = false →
     fst (login_view (backend env) url GET request db) = db).
Proof.
  intros Hwf Hm Hf Hpk Ha. unfold login_view, backend.
  rewrite Hm, String.eqb_refl, run_bind.
  assert (objects_get UserModel
            (username_or_email_iexact (querydict_get "username" (POST request)))
            (users db) = Ok u) as Hget by (unfold objects_get; rewrite Hf; reflexivity).
  rewrite (authenticate_found _ _ _ _ _ Hget), run_bind.
  destruct (stored_of_filter _ _ _ _ Hf Hpk) as [Hin Hex].
  pose proof Hwf as [_ _ Hid Hus _ _ _ _].
  destruct (password_upgrade_due env u (querydict_get "password" (POST request)))
    eqn:Hdue.
  - unfold password_upgrade_due in Hdue.
    destruct (querydict_get "password" (POST request)) as [r|]; [|discriminate].
    apply andb_true_iff in Hdue as [Hc Hmu].
    rewrite (User_check_password_upgrade env u uid r db Hc Hmu Hpk Hex Hid Hus).
    unfold user_can_authenticate. simpl. rewrite Ha. simpl.
    split; [reflexivity | discriminate].
  - rewrite (User_check_password_current env u _ db Hdue).
    unfold user_can_authenticate. simpl. rewrite Ha, andb_false_r. simpl.
    split; reflexivity.
Qed.

Lemma login_view_inactive_is_invalid_credentials_witness :
  snd (login_view (backend env_upgrade) "/dashboard/" [] login_alice db_alice)
    = Ok {| login_response := Render "accounts/login.html" [];
            login_messages := [(ERROR, "Invalid username or password.")];
            session_user := None |}
  ∧ (password_upgrade_due env_upgrade user_alice
       (querydict_get "password" (POST login_alice)) = false →
     fst (login_view (backend env_upgrade) "/dashboard/" [] login_alice db_alice)
       = db_alice).
Proof.
  apply (login_view_inactive_is_invalid_credentials env_upgrade "/dashboard/" []
           login_alice db_alice user_alice 1).
  - exact db_alice_wf.
  - reflexivity.
  - reflexivity.
  - reflexivity.
  - reflexivity.
Defined.

(** X16: a successful sign-in.  When the identifier designates exactly
    one stored identity, active, with a matching password and a current
    hash, [login_view] opens the session for it, welcomes the name as
    typed, and redirects to the [next] query parameter, or to
    [LOGIN_REDIRECT_URL] when [next] is absent or empty.  The save that
    [login] triggers leaves the store as it was, except that a missing
    profile of the identity is created. *)
Theorem login_view_signs_in env url GET request name db u uid :
  db_wf db →
  method request = "POST" →
  querydict_get "username" (POST request) = Some name →
  List.filter (username_or_email_iexact (Some name)) (users db) = [u] →
  user_pk u = Some uid →
  password_is_correct env u (querydict_get "password" (POST request)) = true →
  must_update env (password u) = false →
  is_active u = true →
  login_view (backend env) url GET request db
  = (with_profiles db (profiles_after_save uid db),
     Ok {| login_response :=
             Redirect (match querydict_get "next" GET with
                       | None | Some "" => url
                       | Some target => target
                       end);
           login_messages := [(SUCCESS, "Welcome back, " ++ name ++ "!")];
           session_user := Some u |})
  ∧ (existsb (fun p => Nat.eqb (profile_user p) uid) (profiles db) = true →
     with_profiles db (profiles_after_save uid db) = db)
  ∧ length (profiles_of uid (with_profiles db (profiles_after_save uid db))) = 1.
Proof.
  intros Hwf Hm Hname Hf Hpk Hc Hmu Ha.
  pose proof Hwf as [_ _ Hid Hus _ _ _ _].
  destruct (stored_of_filter _ _ _ _ Hf Hpk) as [Hin Hex].
  split; [|split].
  - unfold login_view, backend.
    rewrite Hm, String.eqb_refl, run_bind, Hname.
    assert (objects_get UserModel (username_or_email_iexact (Some name)) (users db)
            = Ok u) as Hget by (unfold objects_get; rewrite Hf; reflexivity).
    rewrite (authenticate_found _ _ _ _ _ Hget), run_bind.
    assert (password_upgrade_due env u (querydict_get "password" (POST request)) = false)
      as Hdue.
    { unfold password_upgrade_due.
      destruct (querydict_get "password" (POST request)); [|reflexivity].
      rewrite Hmu. apply andb_false_r. }
    rewrite (User_check_password_current env u _ db Hdue), Hc.
    unfold user_can_authenticate. simpl. rewrite Ha. simpl. rewrite Ha.
    rewrite run_bind. unfold login.
    rewrite (User_save_update_fields_run u uid (fun v => v) db Hpk Hex
               (fun v => eq_refl) Hid Hus).
    rewrite map_if_same, with_users_same.
    destruct (querydict_get "next" GET) as [[|c rest]|]; reflexivity.
  - intros Hhas. unfold profiles_after_save. rewrite Hhas. apply with_profiles_same.
  - destruct (profiles_after_save_owner uid db Hid Hus) as (x & Hx & _).
    unfold profiles_of. simpl. rewrite Hx. reflexivity.
Qed.

Lemma login_view_signs_in_witness :
  login_view (backend env_mail_down) "/dashboard/" [("next", "")] login_alice
    db_alice_active
  = (with_profiles db_alice_active (profiles_after_save 1 db_alice_active),
     Ok {| login_response := Redirect "/dashboard/";
           login_messages := [(SUCCESS, "Welcome back, ALICE!")];
           session_user := Some (set_is_active user_alice true) |})
  ∧ (existsb (fun p => Nat.eqb (profile_user p) 1) (profiles db_alice_active) = true →
     with_profiles db_alice_active (profiles_after_save 1 db_alice_active)
     = db_alice_active)
  ∧ length (profiles_of 1
              (with_profiles db_alice_active (profiles_after_save 1 db_alice_active)))
    = 1.
Proof.
  apply (login_view_signs_in env_mail_down "/dashboard/" [("next", "")] login_alice
           "ALICE" db_alice_active (set_is_active user_alice true) 1);
    try reflexivity.
  constructor; simpl; compute_done.
Defined.

(** A sign-in puts back the profile of an identity that has none. *)
Example login_view_recreates_missing_profile :
  profiles (fst (login_view (backend env_mail_down) "/dashboard/" [] login_alice
                   (with_profiles db_alice_active [])))
  = [new_profile [] 1].
Proof. vm_compute. reflexivity. Qed.

(** ** Toggles: refusals and what a toggle leaves alone *)

(** X17: a toggle that cannot reach the relation writes nothing.  For a
    signed-in identity, an unknown product slug, prompt id or template
    slug raises [Http404]; for an identity without a profile row a known
    item raises [RelatedObjectDoesNotExist].  The store is unchanged in
    each case. *)
Theorem toggle_refusals_write_nothing request user db :
  req_user request = Some user →
  (∀ slug, (∀ p, In p (products db) → product_slug p ≠ slug) →
           add_favourite_product request slug db = (db, Raise Http404))
  ∧ (∀ id, (∀ p, In p (prompts db) → prompt_id p ≠ id) →
           add_favourite_prompt request id db = (db, Raise Http404))
  ∧ (∀ slug, (∀ t, In t (templates db) → template_slug t ≠ slug) →
             add_favourite_template request slug db = (db, Raise Http404))
  ∧ (snd (User_profile user db) = Raise RelatedObjectDoesNotExist →
     (∀ slug product,
        objects_get ProductModel (fun p => String.eqb (product_slug p) slug)
          (products db) = Ok product →
        add_favourite_product request slug db = (db, Raise RelatedObjectDoesNotExist))
     ∧ (∀ id prompt,
          objects_get PromptModel (fun p => Nat.eqb (prompt_id p) id) (prompts db)
            = Ok prompt →
          add_favourite_prompt request id db = (db, Raise RelatedObjectDoesNotExist))
     ∧ (∀ slug template,
          objects_get PromptTemplateModel (fun t => String.eqb (template_slug t) slug)
            (templates db) = Ok template →
          add_favourite_template request slug db
          = (db, Raise RelatedObjectDoesNotExist))).
Proof.
  intros Huser. split; [|split; [|split]].
  - intros slug H. unfold add_favourite_product. rewrite Huser.
    erewrite run_bind_Raise; [reflexivity|].
    unfold get_object_or_404. rewrite objects_get_none; [reflexivity|].
    intros p Hp. apply String.eqb_neq. auto.
  - intros id H. unfold add_favourite_prompt. rewrite Huser.
    erewrite run_bind_Raise; [reflexivity|].
    unfold get_object_or_404. rewrite objects_get_none; [reflexivity|].
    intros p Hp. apply Nat.eqb_neq. auto.
  - intros slug H. unfold add_favourite_template. rewrite Huser.
    erewrite run_bind_Raise; [reflexivity|].
    unfold get_object_or_404. rewrite objects_get_none; [reflexivity|].
    intros p Hp. apply String.eqb_neq. auto.
  - intros Hprof. split; [|split].
    + intros slug product Hitem. unfold add_favourite_product. rewrite Huser.
      erewrite run_bind_Ok by (apply get_object_or_404_run; exact Hitem).
      erewrite run_bind_Raise; [reflexivity|].
      rewrite User_profile_run, Hprof. reflexivity.
    + intros id prompt Hitem. unfold add_favourite_prompt. rewrite Huser.
      erewrite run_bind_Ok by (apply get_object_or_404_run; exact Hitem).
      erewrite run_bind_Raise; [reflexivity|].
      rewrite User_profile_run, Hprof. reflexivity.
    + intros slug template Hitem. unfold add_favourite_template. rewrite Huser.
      erewrite run_bind_Ok by (apply get_object_or_404_run; exact Hitem).
      erewrite run_bind_Raise; [reflexivity|].
      rewrite User_profile_run, Hprof. reflexivity.
Qed.

Lemma toggle_refusals_write_nothing_witness :
  add_favourite_product xhr_alice "missing" db_shop = (db_shop, Raise Http404)
  ∧ add_favourite_prompt xhr_alice 99 db_shop = (db_shop, Raise Http404)
  ∧ add_favourite_template xhr_alice "missing" db_shop = (db_shop, Raise Http404).
Proof.
  destruct (toggle_refusals_write_nothing xhr_alice user_alice db_shop eq_refl)
    as (Hproduct & Hprompt & Htemplate & _).
  split; [|split].
  - apply Hproduct. intros p [<- | []]. discriminate.
  - apply Hprompt. intros p [<- | []]. discriminate.
  - apply Htemplate. intros t [<- | []]. discriminate.
Defined.

Lemma other_pair_after_toggle (s : gset (nat * nat)) (x y : nat * nat) :
  y ≠ x → (y ∈ s ∖ {[x]} ↔ y ∈ s) ∧ (y ∈ s ∪ {[x]} ↔ y ∈ s).
Proof.
  intros Hne. rewrite elem_of_difference, elem_of_union, elem_of_singleton. tauto.
Qed.

(** X18: a toggle changes the membership of the one pair it is about.
    Identities, profiles, tokens and the two other relations are as
    before, and so is the membership of every other (profile, item)
    pair of the relation it writes. *)
Theorem toggle_changes_one_pair_only request user prof db :
  req_user request = Some user →
  snd (User_profile user db) = Ok prof →
  (∀ slug product,
     objects_get ProductModel (fun p => String.eqb (product_slug p) slug) (products db)
       = Ok product →
     users (fst (add_favourite_product request slug db)) = users db
     ∧ profiles (fst (add_favourite_product request slug db)) = profiles db
     ∧ tokens (fst (add_favourite_product request slug db)) = tokens db
     ∧ saved_prompts (fst (add_favourite_product request slug db)) = saved_prompts db
     ∧ saved_templates (fst (add_favourite_product request slug db)) = saved_templates db
     ∧ ∀ y, y ≠ (profile_id prof, product_id product) →
            (y ∈ favourite_products (fst (add_favourite_product request slug db))
             ↔ y ∈ favourite_products db))
  ∧ (∀ id prompt,
       objects_get PromptModel (fun p => Nat.eqb (prompt_id p) id) (prompts db)
         = Ok prompt →
       users (fst (add_favourite_prompt request id db)) = users db
       ∧ profiles (fst (add_favourite_prompt request id db)) = profiles db
       ∧ tokens (fst (add_favourite_prompt request id db)) = tokens db
       ∧ favourite_products (fst (add_favourite_prompt request id db))
         = favourite_products db
       ∧ saved_templates (fst (add_favourite_prompt request id db)) = saved_templates db
       ∧ ∀ y, y ≠ (profile_id prof, prompt_id prompt) →
              (y ∈ saved_prompts (fst (add_favourite_prompt request id db))
               ↔ y ∈ saved_prompts db))
  ∧ (∀ slug template,
       objects_get PromptTemplateModel (fun t => String.eqb (template_slug t) slug)
         (templates db) = Ok template →
       users (fst (add_favourite_template request slug db)) = users db
       ∧ profiles (fst (add_favourite_template request slug db)) = profiles db
       ∧ tokens (fst (add_favourite_template request slug db)) = tokens db
       ∧ favourite_products (fst (add_favourite_template request slug db))
         = favourite_products db
       ∧ saved_prompts (fst (add_favourite_template request slug db)) = saved_prompts db
       ∧ ∀ y, y ≠ (profile_id prof, template_id template) →
              (y ∈ saved_templates (fst (add_favourite_template request slug db))
               ↔ y ∈ saved_templates db)).
Proof.
  intros Huser Hprof. split; [|split].
  - intros slug product Hitem.
    rewrite (add_favourite_product_run _ _ _ _ _ _ Huser Hprof Hitem).
    destruct (bool_decide _); simpl; repeat (split; [reflexivity|]);
      intros y Hy; apply (other_pair_after_toggle _ _ _ Hy).
  - intros id prompt Hitem.
    rewrite (add_favourite_prompt_run _ _ _ _ _ _ Huser Hprof Hitem).
    destruct (bool_decide _); simpl; repeat (split; [reflexivity|]);
      intros y Hy; apply (other_pair_after_toggle _ _ _ Hy).
  - intros slug template Hitem.
    rewrite (add_favourite_template_run _ _ _ _ _ _ Huser Hprof Hitem).
    destruct (bool_decide _); simpl; repeat (split; [reflexivity|]);
      intros y Hy; apply (other_pair_after_toggle _ _ _ Hy).
Qed.

Lemma toggle_changes_one_pair_only_witness :
  users (fst (add_favourite_product xhr_alice "ebook" db_shop)) = users db_shop
  ∧ profiles (fst (add_favourite_product xhr_alice "ebook" db_shop)) = profiles db_shop
  ∧ tokens (fst (add_favourite_product xhr_alice "ebook" db_shop)) = tokens db_shop
  ∧ saved_prompts (fst (add_favourite_product xhr_alice "ebook" db_shop))
    = saved_prompts db_shop
  ∧ saved_templates (fst (add_favourite_product xhr_alice "ebook" db_shop))
    = saved_templates db_shop
  ∧ ∀ y, y ≠ (1, 10) →
         (y ∈ favourite_products (fst (add_favourite_product xhr_alice "ebook" db_shop))
          ↔ y ∈ favourite_products db_shop).
Proof.
  destruct (toggle_changes_one_pair_only xhr_alice user_alice profile_alice db_shop
              eq_refl eq_refl) as (Hproduct & _).
  exact (Hproduct "ebook" {| product_id := 10; product_slug := "ebook" |} eq_refl).
Defined.

(** ** The dashboard *)

Lemma dashboard_view_run orders request user prof db :
  req_user request = Some user →
  snd (User_profile user db) = Ok prof →
  dashboard_view orders request db
  = (db, Ok (DashboardRender "accounts/dashboard.html"
               (dashboard_context orders user prof db))).
Proof.
  intros Huser Hprof. unfold dashboard_view. rewrite Huser.
  erewrite run_bind_Ok by (rewrite User_profile_run, Hprof; reflexivity).
  reflexivity.
Qed.

Lemma m2m_all_spec {A : Type} (through : gset (nat * nat)) (item_id : A → nat)
    (profile : nat) (table : list A) (a : A) :
  In a (m2m_all through item_id profile table)
  ↔ In a table ∧ (profile, item_id a) ∈ through.
Proof.
  unfold m2m_all. rewrite filter_In, bool_decide_eq_true. reflexivity.
Qed.



(** Alice bought two distinct products in three order items. *)
Example dashboard_counts_distinct_products :
  snd (dashboard_view orders_sample xhr_alice db_shop)
  = Ok (DashboardRender "accounts/dashboard.html"
          {| purchased_count := 2; dash_favourite_products := [];
             dash_saved_prompts := []; dash_saved_templates := [];
             member_resources := [] |}).
Proof. vm_compute. reflexivity. Qed.

Ltac toggle_then_dashboard run user db Huser Hprof Hitem :=
  pose proof (objects_get_Ok _ _ _ _ Hitem) as (Hstored & _ & _);
  rewrite (run _ _ _ _ _ _ Huser Hprof Hitem);
  match goal with
  | |- context [bool_decide (?x ∈ ?s)] =>
      destruct (decide (x ∈ s)) as [Hin | Hout];
      [ rewrite (bool_decide_eq_true_2 _ Hin) | rewrite (bool_decide_eq_false_2 _ Hout) ];
      simpl fst;
      (split; [apply dashboard_view_run; [exact Huser|];
               rewrite (User_profile_frame user db) by reflexivity; exact Hprof |]);
      unfold dashboard_context; simpl; rewrite !m2m_all_spec;
      [ pose proof (not_elem_after_remove s x) | pose proof (elem_after_add s x) ];
      tauto
  end.

(** X20: the dashboard follows the toggles.  After a toggle on a catalog
    item, that item is on the identity's dashboard list exactly when it
    was not there before. *)
Theorem toggle_shows_on_dashboard orders request user prof db :
  req_user request = Some user →
  snd (User_profile user db) = Ok prof →
  (∀ slug product,
     objects_get ProductModel (fun p => String.eqb (product_slug p) slug) (products db)
       = Ok product →
     dashboard_view orders request (fst (add_favourite_product request slug db))
       = (fst (add_favourite_product request slug db),
          Ok (DashboardRender "accounts/dashboard.html"
                (dashboard_context orders user prof
                   (fst (add_favourite_product request slug db)))))
     ∧ (In product
           (dash_favourite_products
              (dashboard_context orders user prof
                 (fst (add_favourite_product request slug db))))
        ↔ ¬ In product (dash_favourite_products (dashboard_context orders user prof db))))
  ∧ (∀ id prompt,
       objects_get PromptModel (fun p => Nat.eqb (prompt_id p) id) (prompts db)
         = Ok prompt →
       dashboard_view orders request (fst (add_favourite_prompt request id db))
         = (fst (add_favourite_prompt request id db),
            Ok (DashboardRender "accounts/dashboard.html"
                  (dashboard_context orders user prof
                     (fst (add_favourite_prompt request id db)))))
       ∧ (In prompt
             (dash_saved_prompts
                (dashboard_context orders user prof
                   (fst (add_favourite_prompt request id db))))
          ↔ ¬ In prompt (dash_saved_prompts (dashboard_context orders user prof db))))
  ∧ (∀ slug template,
       objects_get PromptTemplateModel (fun t => String.eqb (template_slug t) slug)
         (templates db) = Ok template →
       dashboard_view orders request (fst (add_favourite_template request slug db))
         = (fst (add_favourite_template request slug db),
            Ok (DashboardRender "accounts/dashboard.html"
                  (dashboard_context orders user prof
                     (fst (add_favourite_template request slug db)))))
       ∧ (In template
             (dash_saved_templates
                (dashboard_context orders user prof
                   (fst (add_favourite_template request slug db))))
          ↔ ¬ In template
                (dash_saved_templates (dashboard_context orders user prof db)))).
Proof.
  intros Huser Hprof. split; [|split].
  - intros slug product Hitem.
    toggle_then_dashboard add_favourite_product_run user db Huser Hprof Hitem.
  - intros id prompt Hitem.
    toggle_then_dashboard add_favourite_prompt_run user db Huser Hprof Hitem.
  - intros slug template Hitem.
    toggle_then_dashboard add_favourite_template_run user db Huser Hprof Hitem.
Qed.

Lemma toggle_shows_on_dashboard_witness :
  dashboard_view orders_sample xhr_alice
      (fst (add_favourite_product xhr_alice "ebook" db_shop))
    = (fst (add_favourite_product xhr_alice "ebook" db_shop),
       Ok (DashboardRender "accounts/dashboard.html"
             (dashboard_context orders_sample user_alice profile_alice
                (fst (add_favourite_product xhr_alice "ebook" db_shop)))))
  ∧ (In {| product_id := 10; product_slug := "ebook" |}
        (dash_favourite_products
           (dashboard_context orders_sample user_alice profile_alice
              (fst (add_favourite_product xhr_alice "ebook" db_shop))))
     ↔ ¬ In {| product_id := 10; product_slug := "ebook" |}
           (dash_favourite_products
              (dashboard_context orders_sample user_alice profile_alice db_shop))).
Proof.
  destruct (toggle_shows_on_dashboard orders_sample xhr_alice user_alice profile_alice
              db_shop eq_refl eq_refl) as (Hproduct & _).
  exact (Hproduct "ebook" {| product_id := 10; product_slug := "ebook" |} eq_refl).
Defined.

(** ** Saving twice, and expired tokens *)

Lemma users_after_save_In u db :
  In (set_pk u (saved_pk u db)) (users_after_save u db).
Proof.
  unfold users_after_save.
  destruct (existsb (pk_is (saved_pk u db)) (users db)) eqn:E.
  - apply existsb_exists in E as (v & Hv & Hp). apply in_map_iff.
    exists v. rewrite Hp. auto.
  - apply in_or_app. right. left. reflexivity.
Qed.

Lemma with_users_profiles_same db :
  with_profiles (with_users db (users db)) (profiles db) = db.
Proof. destruct db; reflexivity. Qed.

(** X21: saving an identity a second time changes nothing.  After a save
    that went through, saving the returned instance again succeeds and
    leaves the store exactly as the first save left it: no second row,
    no second profile. *)
Theorem User_save_twice u db :
  db_wf db →
  username_taken u (users db) = false →
  ∃ db1 u1,
    User_save u db = (db1, Ok u1) ∧ User_save u1 db1 = (db1, Ok u1).
Proof.
  intros Hwf Hname. rewrite (User_save_run u db Hwf Hname).
  set (uid := saved_pk u db). set (u1 := set_pk u uid).
  set (db1 := with_profiles (with_users db (users_after_save u db))
                            (profiles_after_save uid db)).
  exists db1, u1. split; [reflexivity|].
  pose proof (db_wf_after_save u db Hwf Hname) as Hwf1. fold uid db1 in Hwf1.
  assert (In u1 (users db1)) as Hin by apply users_after_save_In.
  assert (user_pk u1 = Some uid) as Hpk by reflexivity.
  pose proof Hwf1 as [Hpks Hun Hid Hus _ _ _ _].
  assert (username_taken u1 (users db1) = false) as Hname1
    by (apply (username_taken_stored u1 u1 uid); auto).
  rewrite (User_save_run u1 db1 Hwf1 Hname1).
  assert (saved_pk u1 db1 = uid) as Hs by reflexivity.
  rewrite Hs, (set_pk_same u1 uid Hpk).
  assert (users_after_save u1 db1 = users db1) as ->.
  { unfold users_after_save. rewrite Hs, (set_pk_same u1 uid Hpk).
    assert (existsb (pk_is uid) (users db1) = true) as ->
      by apply users_after_save_has.
    apply (map_replace_same user_pk _ (Some uid) (pk_is_spec uid)); auto. }
  assert (profiles_after_save uid db1 = profiles db1) as ->.
  { unfold profiles_after_save at 1.
    assert (existsb (fun p => Nat.eqb (profile_user p) uid) (profiles db1) = true)
      as ->; [|reflexivity].
    pose proof Hwf as [_ _ Hid0 Hus0 _ _ _ _].
    destruct (profiles_after_save_owner uid db Hid0 Hus0) as (x & _ & Hx & Hxu & _).
    apply existsb_exists. exists x. split; [exact Hx|]. apply Nat.eqb_eq. exact Hxu. }
  rewrite with_users_profiles_same. reflexivity.
Qed.

Lemma User_save_twice_witness :
  ∃ db1 u1,
    User_save user_carol db_alice = (db1, Ok u1)
    ∧ User_save u1 db1 = (db1, Ok u1).
Proof.
  apply (User_save_twice user_carol db_alice).
  - exact db_alice_wf.
  - reflexivity.
Defined.

(** X22: an expired token is refused and kept.  When the presented value
    designates one stored token and that token is more than 24 hours
    old, [verify_email] renders the invalid page and leaves the whole
    store, the token included, as it was. *)
Theorem verify_email_expired_is_kept now request value t db :
  objects_get EmailVerificationTokenModel (fun s => N.eqb (token s) value) (tokens db)
    = Ok t →
  (timedelta_hours 24 < now - created_at t)%Z →
  verify_email now request value db
  = (db, Ok (Render "accounts/email/email_verification_invalid.html" [])).
Proof.
  intros Hget Hold. unfold verify_email, try_except.
  erewrite run_bind_Ok
    by (unfold EmailVerificationToken_objects_get; rewrite Hget; reflexivity).
  rewrite (proj2 (is_valid_false t now) Hold). reflexivity.
Qed.

Lemma verify_email_expired_is_kept_witness :
  verify_email (timedelta_hours 25) anonymous_get 42%N db_alice
  = (db_alice, Ok (Render "accounts/email/email_verification_invalid.html" [])).
Proof.
  apply (verify_email_expired_is_kept (timedelta_hours 25) anonymous_get 42%N
           (token_at 0%Z) db_alice).
  - reflexivity.
  - vm_compute. reflexivity.
Defined.

Lemma send_verification_email_touches_own_tokens_only_witness :
  users (fst (send_verification_email env_mail_down 7%N 100%Z anonymous_get
                user_alice db_alice)) = users db_alice
  ∧ profiles (fst (send_verification_email env_mail_down 7%N 100%Z anonymous_get
                     user_alice db_alice)) = profiles db_alice
  ∧ ∀ other, user_pk user_alice ≠ Some other →
      tokens_of other (fst (send_verification_email env_mail_down 7%N 100%Z
                              anonymous_get user_alice db_alice))
      = tokens_of other db_alice.
Proof.
  apply (send_verification_email_touches_own_tokens_only env_mail_down 7%N 100%Z
           anonymous_get user_alice db_alice).
Defined.
